(** * PrintTimeGenius: the estimation core, embedded and verified

    A shallow embedding of
      - [octoprint_PrintTimeGenius/__init__.py]
        ([_interpolate], [GeniusEstimator], [GeniusAnalysisQueue],
         [PrintTimeGeniusPlugin.on_event], [custom_estimation_factory]) and
      - [octoprint_PrintTimeGenius/analyzers/analyze_progress.py] ([main]).

    Conventions of the embedding.
      - Python numbers are exact rationals ([Qc], canonical fractions, so
        that Python's [==] is Leibniz equality).  A value the code computes
        and only stores or returns is the code's own expression over the
        rationals, without the rounding of floats.  The one test the code
        makes on a float it has computed, [most_recent_progress + 60 < time]
        in [main], rounds the sum as binary64 does ([fadd]).  Infinities
        and NaN as inputs are outside the model; [float("-inf")] is
        modelled where the source uses it, as [None] of an [option].
      - A Python list of numbers is a [list Qc]; a progress map is a list of
        such lists, exactly the JSON arrays the code indexes and zips.
      - A Python exception is a value of [exn]; a computation that may raise
        returns [res A].
      - A dict with a fixed set of keys is a record of [option] fields:
        [None] is the absent key, and reading it raises [KeyError].
      - A method that mutates [self] or a dict it was handed is a function
        from the state before to the state after and the outcome ([M]);
        [try ... except Exception] around such code is [mtry].
      - Logging calls are left out. *)

From Stdlib Require Import String.
From Stdlib Require Import ZArith QArith Qcanon List Bool Lia Lra Psatz.
From Stdlib Require Import Sorted Permutation.
From Stdlib Require SpecFloat.
From Equations Require Import Equations.
Import ListNotations.

Local Close Scope Qc_scope.
Local Close Scope Q_scope.
Local Open Scope nat_scope.

(** ** Python values and control flow *)

Inductive exn : Type :=
| IndexError
| KeyError
| TypeError
| ValueError
| ZeroDivisionError.

Inductive res (A : Type) : Type :=
| Ret (a : A)
| Raise (e : exn).

Arguments Ret {A} a.
Arguments Raise {A} e.

Definition bind {A B : Type} (c : res A) (k : A -> res B) : res B :=
  match c with
  | Ret a => k a
  | Raise e => Raise e
  end.

Notation "x <- c ;; k" := (bind c (fun x => k))
  (at level 61, c at next level, right associativity).

(** [for x in xs: ys.append(f x)], stopping at the first exception. *)
Fixpoint mapM {A B : Type} (f : A -> res B) (xs : list A) : res (list B) :=
  match xs with
  | [] => Ret []
  | x :: xs' => y <- f x ;; ys <- mapM f xs' ;; Ret (y :: ys)
  end.

(** [d[key]] on a dict whose key may be absent. *)
Definition getkey {A : Type} (field : option A) : res A :=
  match field with
  | Some a => Ret a
  | None => Raise KeyError
  end.

(** [l[i]] with Python's negative indices. *)
Definition getitem {A : Type} (l : list A) (i : Z) : res A :=
  let n := Z.of_nat (length l) in
  let j := if (i <? 0)%Z then (i + n)%Z else i in
  if ((0 <=? j)%Z && (j <? n)%Z)%bool then
    match nth_error l (Z.to_nat j) with
    | Some a => Ret a
    | None => Raise IndexError
    end
  else Raise IndexError.

(** ** Methods that mutate an object

    A method that mutates [self] (or a dict it was handed) and may raise is
    a function from the state before to the state after together with its
    outcome: the mutations made before an exception are kept. *)

Definition M (S A : Type) : Type := S -> S * res A.

Definition mret {S A : Type} (a : A) : M S A := fun s => (s, Ret a).

Definition mbind {S A B : Type} (c : M S A) (k : A -> M S B) : M S B :=
  fun s =>
    match c s with
    | (s', Ret a) => k a s'
    | (s', Raise e) => (s', Raise e)
    end.

Definition lift {S A : Type} (r : res A) : M S A := fun s => (s, r).

Definition get {S : Type} : M S S := fun s => (s, Ret s).

Definition modify {S : Type} (f : S -> S) : M S unit := fun s => (f s, Ret tt).

(** [try: body except Exception: handler] around a mutating body. *)
Definition mtry {S A : Type} (body : M S A) (handler : exn -> M S A) : M S A :=
  fun s =>
    match body s with
    | (s', Ret a) => (s', Ret a)
    | (s', Raise e) => handler e s'
    end.

Notation "x <~ c ;; k" := (mbind c (fun x => k))
  (at level 61, c at next level, right associativity).

(** ** Numbers *)

Definition num_ltb (x y : Qc) : bool :=
  match (x ?= y)%Qc with Lt => true | _ => false end.

Definition num_leb (x y : Qc) : bool :=
  match (x ?= y)%Qc with Gt => false | _ => true end.

Definition num_eqb (x y : Qc) : bool :=
  match (x ?= y)%Qc with Eq => true | _ => false end.

(** An integer literal, and a decimal literal [n/d]. *)
Definition qz (z : Z) : Qc := Q2Qc (inject_Z z).
Definition qf (n : Z) (d : positive) : Qc := Q2Qc (n # d).

(** True division; Python raises on a zero divisor, for ints and floats alike. *)
Definition py_div (x y : Qc) : res Qc :=
  if num_eqb y 0%Qc then Raise ZeroDivisionError else Ret (x / y)%Qc.

(** [sum(l)] *)
Definition py_sum (l : list Qc) : Qc := fold_left Qcplus l 0%Qc.

(** [sum(l) / len(l)] *)
Definition average (l : list Qc) : res Qc :=
  py_div (py_sum l) (qz (Z.of_nat (length l))).

(** ** binary64 sums

    IEEE 754 addition of two finite doubles: the exact sum, rounded to the
    nearest double, a tie going to the even significand, and to an
    infinity from [2^1024 - 2^970] on.  A double is [m * 2^e] with
    [|m| < 2^53] and [-1074 <= e <= 971]. *)

Inductive binary64 : Type :=
| finite (q : Qc)
| infinity (negative : bool).

(** [n / d] rounded to the nearest integer, ties to even; [0 <= n], [0 < d]. *)
Definition round_half_even (n d : Z) : Z :=
  let q := (n / d)%Z in
  match (2 * (n mod d) ?= d)%Z with
  | Lt => q
  | Gt => (q + 1)%Z
  | Eq => if Z.even q then q else (q + 1)%Z
  end.

(** The [l] with [2^l <= n/d < 2^(l+1)]; [0 < n], [0 < d]. *)
Definition floor_log2 (n d : Z) : Z :=
  let l := (Z.log2 n - Z.log2 d)%Z in
  if (if (0 <=? l)%Z then (d * 2 ^ l <=? n)%Z else (d <=? n * 2 ^ (- l))%Z)
  then l else (l - 1)%Z.

(** The double nearest to a rational: the significand is the rational
    over [2^e] rounded to an integer, where [e] leaves it 53 bits, or is
    -1074 for a subnormal. *)
Definition round64 (q : Qc) : binary64 :=
  let n := Qnum q in
  let d := Zpos (Qden q) in
  if (n =? 0)%Z then finite q else
  let e := Z.max (floor_log2 (Z.abs n) d - 52) (-1074) in
  let m := if (0 <=? e)%Z then round_half_even (Z.abs n) (d * 2 ^ e)
           else round_half_even (Z.abs n * 2 ^ (- e)) d in
  if (2 ^ 1024 <=? m * 2 ^ e)%Z then infinity (n <? 0)%Z
  else finite (Q2Qc (((Z.sgn n * m)%Z # 1) * inject_Z 2 ^ e)).

(** [a + b] on floats. *)
Definition fadd (a b : Qc) : binary64 := round64 (a + b)%Qc.

(** [s < t] for a sum [s] and a finite [t]. *)
Definition binary64_ltb (s : binary64) (t : Qc) : bool :=
  match s with
  | finite q => num_ltb q t
  | infinity negative => negative
  end.

(** ** Lists of numbers, compared as Python compares lists *)

Definition point := list Qc.
Definition progress_map := list point.

(** [a < b] on lists: the first differing item decides, a proper prefix is smaller. *)
Fixpoint list_lt (a b : list Qc) : bool :=
  match a, b with
  | [], [] => false
  | [], _ :: _ => true
  | _ :: _, [] => false
  | x :: a', y :: b' => if num_eqb x y then list_lt a' b' else num_ltb x y
  end.

(** ** [bisect.bisect_right]

    [[
    lo, hi = 0, len(a)
    while lo < hi:
        mid = (lo + hi) // 2
        if x < a[mid]: hi = mid
        else: lo = mid + 1
    return lo
    ]]
    [mid] is below [hi], hence below [len(a)]: the default of [nth] is
    never read. *)

Equations? bisect_loop (a : progress_map) (x : point) (lo hi : nat) : nat
  by wf (hi - lo) lt :=
bisect_loop a x lo hi with lt_dec lo hi := {
  | left _ =>
      let mid := (lo + hi) / 2 in
      if list_lt x (nth mid a [])
      then bisect_loop a x lo mid
      else bisect_loop a x (S mid) hi
  | right _ => lo
  }.
Proof.
  all: change (fst (Nat.divmod (lo + hi) 1 0 1)) with ((lo + hi) / 2) in *;
    assert (lo <= (lo + hi) / 2) by (apply Nat.div_le_lower_bound; lia);
    assert ((lo + hi) / 2 < hi) by (apply Nat.Div0.div_lt_upper_bound; lia);
    subst mid; lia.
Qed.

Definition bisect_right (a : progress_map) (x : point) : nat :=
  bisect_loop a x 0 (length a).

(** ** [_interpolate]

    Returns [Ret None] for Python's [None], [Ret (Some p)] for a list. *)

(** [[x[0]*(1-ratio) + x[1]*ratio for x in zip(left, right)]] *)
Definition blend (ratio : Qc) (left right : point) : point :=
  map (fun x => (fst x * (1 - ratio) + snd x * ratio)%Qc) (combine left right).

Definition _interpolate (l : progress_map) (p : Qc) : res (option point) :=
  l0 <- getitem l 0 ;;
  l00 <- getitem l0 0 ;;
  if num_ltb p l00 then Ret None else
  ll <- getitem l (-1) ;;
  ll0 <- getitem ll 0 ;;
  if num_ltb ll0 p then Ret None else
  if num_eqb p l00 then Ret (Some l0) else
  if num_eqb p ll0 then Ret (Some ll) else
  let right_index := Z.of_nat (bisect_right l [p]) in
  let left_index := (right_index - 1)%Z in
  pl <- getitem l left_index ;;
  pl0 <- getitem pl 0 ;;
  pr <- getitem l right_index ;;
  pr0 <- getitem pr 0 ;;
  ratio <- py_div (p - pl0)%Qc (pr0 - pl0)%Qc ;;
  pl' <- getitem l left_index ;;
  pr' <- getitem l right_index ;;
  Ret (Some (blend ratio pl' pr')).

(** ** The data model's invariants on a progress map, as decidable checks *)

(** The position of a [[position, value]] point. *)
Definition pos (p : point) : Qc := hd 0%Qc p.

(** The value of a [[position, value]] point. *)
Definition val (p : point) : Qc := nth 1 p 0%Qc.

Definition is_pair (p : point) : bool := length p =? 2.

(** Every point is a two-element list. *)
Definition well_shaped (l : progress_map) : bool := forallb is_pair l.

(** Positions strictly increase from each point to the next. *)
Fixpoint strictly_increasing (l : progress_map) : bool :=
  match l with
  | [] => true
  | p :: t =>
      match t with
      | [] => true
      | q :: _ => num_ltb (pos p) (pos q) && strictly_increasing t
      end
  end.

(** Positions never decrease from each point to the next. *)
Fixpoint non_decreasing (l : progress_map) : bool :=
  match l with
  | [] => true
  | p :: t =>
      match t with
      | [] => true
      | q :: _ => num_leb (pos p) (pos q) && non_decreasing t
      end
  end.

(** ** Dictionaries of the plugin

    Each dict with known keys is a record in a module of its own, so that
    [Analysis.progress a] reads as [analysis["progress"]]. *)

Module Analysis.
(** [metadata["analysis"]]: the analysis stored with a file. *)
Record t : Type := {
  progress : option progress_map;
  firstFilament : option Qc;
  lastFilament : option Qc;
  estimatedPrintTime : option Qc;
  analysisPrintTime : option Qc;
  analysisFirstFilamentPrintTime : option Qc;
  analysisLastFilamentPrintTime : option Qc
}.

(** [analysis["progress"] = v] *)
Definition set_progress (v : progress_map) (a : t) : t :=
  {| progress := Some v;
     firstFilament := firstFilament a;
     lastFilament := lastFilament a;
     estimatedPrintTime := estimatedPrintTime a;
     analysisPrintTime := analysisPrintTime a;
     analysisFirstFilamentPrintTime := analysisFirstFilamentPrintTime a;
     analysisLastFilamentPrintTime := analysisLastFilamentPrintTime a |}.

(** [analysis["estimatedPrintTime"] = v] *)
Definition set_estimatedPrintTime (v : Qc) (a : t) : t :=
  {| progress := progress a;
     firstFilament := firstFilament a;
     lastFilament := lastFilament a;
     estimatedPrintTime := Some v;
     analysisPrintTime := analysisPrintTime a;
     analysisFirstFilamentPrintTime := analysisFirstFilamentPrintTime a;
     analysisLastFilamentPrintTime := analysisLastFilamentPrintTime a |}.
End Analysis.

Module Metadata.
(** What [file_manager.get_metadata] returns for a file that has metadata. *)
Record t : Type := {
  analysis : option Analysis.t
}.
End Metadata.

Module Payload.
(** The payload of a [PrintDone] event. *)
Record t : Type := {
  origin : string;
  path : string;
  time : option Qc
}.
End Payload.

Module History.
(** One entry of [print_history]; also the dict [_current_history] that
    the estimator fills during a job. *)
Record t : Type := {
  firstFilamentPrintTime : option Qc;
  lastFilamentPrintTime : option Qc;
  payload : option Payload.t;
  timestamp : option Qc;
  analysisPrintTime : option Qc;
  analysisFirstFilamentPrintTime : option Qc;
  analysisLastFilamentPrintTime : option Qc
}.

(** [{}] *)
Definition empty : t :=
  {| firstFilamentPrintTime := None; lastFilamentPrintTime := None;
     payload := None; timestamp := None; analysisPrintTime := None;
     analysisFirstFilamentPrintTime := None;
     analysisLastFilamentPrintTime := None |}.

Definition set_firstFilamentPrintTime (v : Qc) (h : t) : t :=
  {| firstFilamentPrintTime := Some v;
     lastFilamentPrintTime := lastFilamentPrintTime h;
     payload := payload h; timestamp := timestamp h;
     analysisPrintTime := analysisPrintTime h;
     analysisFirstFilamentPrintTime := analysisFirstFilamentPrintTime h;
     analysisLastFilamentPrintTime := analysisLastFilamentPrintTime h |}.

Definition set_lastFilamentPrintTime (v : Qc) (h : t) : t :=
  {| firstFilamentPrintTime := firstFilamentPrintTime h;
     lastFilamentPrintTime := Some v;
     payload := payload h; timestamp := timestamp h;
     analysisPrintTime := analysisPrintTime h;
     analysisFirstFilamentPrintTime := analysisFirstFilamentPrintTime h;
     analysisLastFilamentPrintTime := analysisLastFilamentPrintTime h |}.

(** The five assignments of [on_event] to the finished job's dict. *)
Definition complete (p : Payload.t) (now apt afft alft : Qc) (h : t) : t :=
  {| firstFilamentPrintTime := firstFilamentPrintTime h;
     lastFilamentPrintTime := lastFilamentPrintTime h;
     payload := Some p; timestamp := Some now;
     analysisPrintTime := Some apt;
     analysisFirstFilamentPrintTime := Some afft;
     analysisLastFilamentPrintTime := Some alft |}.
End History.

(** The file manager, as far as the plugin uses it: [get_metadata(origin, path)]. *)
Definition FileManager : Type := string -> string -> option Metadata.t.

(** [key in d] *)
Definition has_key {A : Type} (field : option A) : bool :=
  match field with Some _ => true | None => false end.

(** ** [GeniusAnalysisQueue.compensate_analysis] *)

(** The loop over [analysis["progress"]] that fills [new_progress]. *)
Fixpoint compensate_loop (analysis : Analysis.t)
    (last_filament_remaining_time average_print_time_factor
       average_cool_down_time : Qc)
    (ps : progress_map) : res progress_map :=
  match ps with
  | [] => Ret []
  | p :: rest =>
      p0 <- getitem p 0 ;;
      ff <- getkey (Analysis.firstFilament analysis) ;;
      if num_ltb p0 ff then
        (* continue *)
        compensate_loop analysis last_filament_remaining_time
          average_print_time_factor average_cool_down_time rest
      else
        p0 <- getitem p 0 ;;
        lf <- getkey (Analysis.lastFilament analysis) ;;
        if num_leb lf p0 then
          (* break *)
          Ret []
        else
          p1 <- getitem p 1 ;;
          let remaining_time := (p1 - last_filament_remaining_time)%Qc in
          let remaining_time := (remaining_time * average_print_time_factor)%Qc in
          let remaining_time := (remaining_time + average_cool_down_time)%Qc in
          p0 <- getitem p 0 ;;
          rest' <- compensate_loop analysis last_filament_remaining_time
                     average_print_time_factor average_cool_down_time rest ;;
          Ret ([p0; remaining_time] :: rest')
  end.

(** [[ph["firstFilamentPrintTime"] for ph in print_history]] *)
Definition heat_up_times (print_history : list History.t) : res (list Qc) :=
  mapM (fun ph => getkey (History.firstFilamentPrintTime ph)) print_history.

(** [[ph["payload"]["time"] - ph["lastFilamentPrintTime"] for ph in print_history]] *)
Definition cool_down_times (print_history : list History.t) : res (list Qc) :=
  mapM (fun ph =>
          pl <- getkey (History.payload ph) ;;
          t <- getkey (Payload.time pl) ;;
          l <- getkey (History.lastFilamentPrintTime ph) ;;
          Ret (t - l)%Qc)
       print_history.

(** The numerator and the denominator of one record's scale. *)
Definition actual_vs_predicted (ph : History.t) : res (Qc * Qc) :=
  l <- getkey (History.lastFilamentPrintTime ph) ;;
  f <- getkey (History.firstFilamentPrintTime ph) ;;
  al <- getkey (History.analysisLastFilamentPrintTime ph) ;;
  af <- getkey (History.analysisFirstFilamentPrintTime ph) ;;
  Ret ((l - f)%Qc, (al - af)%Qc).

(** [[(last - first) / (analysisLast - analysisFirst) for ph in print_history]] *)
Definition print_time_factor (print_history : list History.t) : res (list Qc) :=
  mapM (fun ph => nd <- actual_vs_predicted ph ;; py_div (fst nd) (snd nd))
       print_history.

(** Everything up to the finished [new_progress]; nothing of [analysis]
    has been assigned yet. *)
Definition compensate_new_progress (print_history : list History.t)
    (analysis : Analysis.t) : res progress_map :=
  heat_up <- heat_up_times print_history ;;
  average_heat_up_time <- average heat_up ;;
  cool_down <- cool_down_times print_history ;;
  average_cool_down_time <- average cool_down ;;
  (* the log line "Time spent printing, actual vs predicted" reads the keys *)
  _ <- mapM actual_vs_predicted print_history ;;
  factors <- print_time_factor print_history ;;
  average_print_time_factor <- average factors ;;
  prog <- getkey (Analysis.progress analysis) ;;
  lf <- getkey (Analysis.lastFilament analysis) ;;
  interpolation <- _interpolate prog lf ;;
  last_filament_remaining_time <-
    match interpolation with
    | None => Raise TypeError          (* None[1] *)
    | Some pt => getitem pt 1
    end ;;
  prog <- getkey (Analysis.progress analysis) ;;
  new_progress <- compensate_loop analysis last_filament_remaining_time
                    average_print_time_factor average_cool_down_time prog ;;
  np0 <- getitem new_progress 0 ;;
  np01 <- getitem np0 1 ;;
  let new_progress := [qz 0; (np01 + average_heat_up_time)%Qc] :: new_progress in
  let new_progress := new_progress ++ [[qz 1; qz 0]] in
  Ret new_progress.

(** The body of the [try]: the two assignments to [analysis] come last. *)
Definition compensate_body (print_history : list History.t) : M Analysis.t unit :=
  analysis <~ get ;;
  new_progress <~ lift (compensate_new_progress print_history analysis) ;;
  _ <~ modify (Analysis.set_progress new_progress) ;;
  np0 <~ lift (getitem new_progress 0) ;;
  np01 <~ lift (getitem np0 1) ;;
  modify (Analysis.set_estimatedPrintTime np01).

(** The method.  [settings_print_history] is [None] when
    [settings.has(["print_history"])] is false.  The dict [analysis] is
    modified in place: the result is that dict after the call, with the
    outcome of the call ([Ret tt] for a normal return). *)
Definition compensate_analysis (settings_print_history : option (list History.t))
  : M Analysis.t unit :=
  mtry
    (match settings_print_history with
     | None => mret tt
     | Some print_history =>
         match print_history with
         | [] => mret tt
         | _ :: _ => compensate_body print_history
         end
     end)
    (fun _ => mret tt).

(** ** [GeniusEstimator] *)

Record Estimator : Type := {
  _path : string;
  _origin : string;
  _current_history : History.t;
  _current_progress_index : Z;
  _current_total_printTime : option Qc;
  _called_genius_yet : bool
}.

(** [GeniusEstimator.__init__], with the dict [current_history] it is given. *)
Definition init (file_path file_origin : string) (current_history : History.t)
  : Estimator :=
  {| _path := file_path; _origin := file_origin;
     _current_history := current_history;
     _current_progress_index := (-1)%Z;
     _current_total_printTime := None;
     _called_genius_yet := false |}.

Definition set_called_genius_yet (v : bool) (e : Estimator) : Estimator :=
  {| _path := _path e; _origin := _origin e;
     _current_history := _current_history e;
     _current_progress_index := _current_progress_index e;
     _current_total_printTime := _current_total_printTime e;
     _called_genius_yet := v |}.

Definition set_current_history (h : History.t) (e : Estimator) : Estimator :=
  {| _path := _path e; _origin := _origin e;
     _current_history := h;
     _current_progress_index := _current_progress_index e;
     _current_total_printTime := _current_total_printTime e;
     _called_genius_yet := _called_genius_yet e |}.

Definition set_current_total_printTime (v : Qc) (e : Estimator) : Estimator :=
  {| _path := _path e; _origin := _origin e;
     _current_history := _current_history e;
     _current_progress_index := _current_progress_index e;
     _current_total_printTime := Some v;
     _called_genius_yet := _called_genius_yet e |}.

Definition set_current_progress_index (v : Z) (e : Estimator) : Estimator :=
  {| _path := _path e; _origin := _origin e;
     _current_history := _current_history e;
     _current_progress_index := v;
     _current_total_printTime := _current_total_printTime e;
     _called_genius_yet := _called_genius_yet e |}.

(** The [while] loop that moves the cursor: [rest] is the part of the map
    from index [new_progress_index + 1] on, so the test
    [new_progress_index + 1 < len(filepos_to_progress)] is [rest <> []] and
    [filepos_to_progress[new_progress_index+1]] is the head of [rest]. *)
Fixpoint advance (progress : Qc) (rest : progress_map) (new_progress_index : Z)
  : res Z :=
  match rest with
  | [] => Ret new_progress_index
  | p :: rest' =>
      p0 <- getitem p 0 ;;
      if num_leb p0 progress
      then advance progress rest' (new_progress_index + 1)%Z
      else Ret new_progress_index
  end.

(** A reported estimate: [(remaining, type)], either of which may be [None]. *)
Definition estimate_t : Type := option Qc * option string.

(** The block under [if new_progress_index != self._current_progress_index].
    It answers [false] where the source leaves the method with [return None]
    and [true] where control goes on to the last two lines of the method. *)
Definition new_estimates (an : Analysis.t) (filepos_to_progress : progress_map)
    (new_progress_index : Z) (progress printTime : Qc) : M Estimator bool :=
  ff <~ lift (getkey (Analysis.firstFilament an)) ;;
  self <~ get ;;
  _ <~ (if num_ltb ff progress &&
           negb (has_key (History.firstFilamentPrintTime (_current_history self)))
        then modify (fun e => set_current_history
                       (History.set_firstFilamentPrintTime printTime
                          (_current_history e)) e)
        else mret tt) ;;
  self <~ get ;;
  update_last <~
    (if negb (has_key (History.lastFilamentPrintTime (_current_history self)))
     then mret true
     else lf <~ lift (getkey (Analysis.lastFilament an)) ;;
          mret (num_leb progress lf)) ;;
  _ <~ (if update_last : bool
        then modify (fun e => set_current_history
                       (History.set_lastFilamentPrintTime printTime
                          (_current_history e)) e)
        else mret tt) ;;
  interpolation <~ lift (_interpolate filepos_to_progress progress) ;;
  match interpolation with
  | None => mret false                  (* return None *)
  | Some [] => mret false               (* an empty list is falsy too *)
  | Some (i0 :: irest) =>
      i1 <~ lift (getitem (i0 :: irest) 1) ;;
      _ <~ modify (set_current_total_printTime (i1 + printTime)%Qc) ;;
      _ <~ modify (set_current_progress_index new_progress_index) ;;
      mret true
  end.

(** [_genius_estimate]; the arguments it does not read are left out.
    [None] in the result is Python's [None]. *)
Definition _genius_estimate (file_manager : FileManager) (progress printTime : Qc)
  : M Estimator (option estimate_t) :=
  self <~ get ;;
  let progress := if _called_genius_yet self then progress else qz 0 in
  _ <~ modify (set_called_genius_yet true) ;;
  match file_manager (_origin self) (_path self) with
  | None => mret None
  | Some metadata =>
  match Metadata.analysis metadata with
  | None => mret None
  | Some an =>
  match Analysis.progress an with
  | None => mret None
  | Some filepos_to_progress =>
      new_progress_index <~
        lift (advance progress
                (skipn (Z.to_nat (_current_progress_index self + 1))
                       filepos_to_progress)
                (_current_progress_index self)) ;;
      if (new_progress_index <? 0)%Z then mret None else
      go_on <~ (if (new_progress_index =? _current_progress_index self)%Z
                then mret true
                else new_estimates an filepos_to_progress new_progress_index
                       progress printTime) ;;
      if go_on : bool then
        self <~ get ;;
        total <~ lift (match _current_total_printTime self with
                       | Some total => Ret total
                       | None => Raise TypeError       (* None - printTime *)
                       end) ;;
        let remaining_print_time := (total - printTime)%Qc in
        mret (Some (Some remaining_print_time, Some "genius"%string))
      else mret None
  end end end.

(** [estimate].  [default_result] is what the base class's [estimate]
    returned for the same arguments ([None] stands for any falsy value);
    the logging calls are left out. *)
Definition estimate (file_manager : FileManager)
    (default_result : option estimate_t) (progress printTime : Qc)
  : M Estimator (option estimate_t) :=
  mtry
    (genius_result <~ _genius_estimate file_manager progress printTime ;;
     match genius_result with
     | Some r => mret (Some r)          (* result = genius_result *)
     | None => mret default_result
     end)
    (fun _ => mret default_result).

(** A job's ticks, fed to [estimate] one after the other; the outcome of
    each tick is collected. *)
Record Tick : Type := {
  tick_default : option estimate_t;
  tick_progress : Qc;
  tick_printTime : Qc
}.

Fixpoint run (file_manager : FileManager) (ticks : list Tick) (self : Estimator)
  : Estimator * list (res (option estimate_t)) :=
  match ticks with
  | [] => (self, [])
  | t :: ticks' =>
      let (self1, r) :=
        estimate file_manager (tick_default t) (tick_progress t)
          (tick_printTime t) self in
      let (self2, rs) := run file_manager ticks' self1 in
      (self2, r :: rs)
  end.

(** ** [analyze_progress.py]: [main], from the parsed [Progress:] lines on

    The four keys that [main] assigns after the loop ([firstFilament],
    [lastFilament], [progress], [estimatedPrintTime]) depend on the
    [Progress:] lines only, whatever an [Analysis:] line merged before. *)

Module Sample.
(** [(filepos, filament, time) = map(float, line.split(","))] *)
Record t : Type := {
  filepos : Qc;
  filament : Qc;
  time : Qc
}.
End Sample.

(** [not v] for a variable that holds [None] or a float. *)
Definition falsy (v : option Qc) : bool :=
  match v with
  | None => true
  | Some q => num_eqb q 0%Qc
  end.

(** [a == v] for a float [a] and a variable that holds [None] or a float. *)
Definition eq_opt (a : Qc) (v : option Qc) : bool :=
  match v with
  | None => false
  | Some q => num_eqb a q
  end.

Module Scan.
(** The local variables of the first loop. *)
Record t : Type := {
  progress : progress_map;
  first_filament : option Qc;
  last_filament : option Qc;
  max_filament : option Qc
}.

Definition start : t :=
  {| progress := []; first_filament := None; last_filament := None;
     max_filament := None |}.
End Scan.

(** One [Progress:] line of the first loop. *)
Definition scan_line (st : Scan.t) (s : Sample.t) : Scan.t :=
  let first_filament :=
    if num_ltb 0%Qc (Sample.filament s) && falsy (Scan.first_filament st)
    then Some (Sample.filepos s)
    else Scan.first_filament st in
  let grows :=
    falsy (Scan.max_filament st) ||
    match Scan.max_filament st with
    | Some m => num_ltb m (Sample.filament s)
    | None => false
    end in
  {| Scan.progress := Scan.progress st ++ [[Sample.filepos s; Sample.time s]];
     Scan.first_filament := first_filament;
     Scan.last_filament :=
       if grows then Some (Sample.filepos s) else Scan.last_filament st;
     Scan.max_filament :=
       if grows then Some (Sample.filament s) else Scan.max_filament st |}.

Definition scan (samples : list Sample.t) : Scan.t :=
  fold_left scan_line samples Scan.start.

(** The second loop: the entries appended to [result["progress"]].
    [most_recent_progress] is [None] for [float("-inf")], and
    [-inf + 60 < t] holds for every number [t]; otherwise the sum is the
    float sum [fadd]. *)
Fixpoint emit (first_filament last_filament : option Qc) (total_time : Qc)
    (most_recent_progress : option Qc) (entries : progress_map)
  : res progress_map :=
  match entries with
  | [] => Ret []
  | progress_entry :: rest =>
      e1 <- getitem progress_entry 1 ;;
      e0 <- getitem progress_entry 0 ;;
      if match most_recent_progress with
         | None => true
         | Some m => binary64_ltb (fadd m (qz 60)) e1
         end
         || eq_opt e0 first_filament
         || eq_opt e0 last_filament
      then
        rest' <- emit first_filament last_filament total_time (Some e1) rest ;;
        Ret ([e0; (total_time - e1)%Qc] :: rest')
      else
        emit first_filament last_filament total_time most_recent_progress rest
  end.

Module Result.
(** The four keys of [result] that [main] assigns; here [None] is the
    Python value [None] (JSON [null]). *)
Record t : Type := {
  firstFilament : option Qc;
  lastFilament : option Qc;
  progress : progress_map;
  estimatedPrintTime : Qc
}.
End Result.

Definition main (samples : list Sample.t) : res Result.t :=
  let st := scan samples in
  last_entry <- getitem (Scan.progress st) (-1) ;;
  total_time <- getitem last_entry 1 ;;
  emitted <- emit (Scan.first_filament st) (Scan.last_filament st) total_time
               None (Scan.progress st) ;;
  Ret {| Result.firstFilament := Scan.first_filament st;
         Result.lastFilament := Scan.last_filament st;
         Result.progress := [[qz 0; total_time]] ++ emitted ++ [[qz 1; qz 0]];
         Result.estimatedPrintTime := total_time |}.

(** ** [PrintTimeGeniusPlugin.on_event] *)

Module Plugin.
(** The plugin, as far as [on_event] touches it: the [print_history]
    setting ([None] when the setting does not exist) and
    [_current_history] ([None] is Python's [None]).  The dict under
    [_current_history] is the one the running job's estimator fills. *)
Record t : Type := {
  print_history : option (list History.t);
  _current_history : option History.t
}.

Definition set_print_history (v : list History.t) (p : t) : t :=
  {| print_history := Some v; _current_history := _current_history p |}.

Definition set_current_history (v : option History.t) (p : t) : t :=
  {| print_history := print_history p; _current_history := v |}.
End Plugin.

(** Where [x] goes in a list already in descending order of keys: before
    the first entry whose key is not larger. *)
Fixpoint insert_desc (k : Qc) (x : History.t) (l : list (Qc * History.t))
  : list (Qc * History.t) :=
  match l with
  | [] => [(k, x)]
  | (k', y) :: rest =>
      if num_ltb k k' then (k', y) :: insert_desc k x rest
      else (k, x) :: l
  end.

(** The stable sort in descending order of keys: entries with equal keys
    keep the order they had, as [list.sort(reverse=True)] guarantees. *)
Definition sort_desc (l : list (Qc * History.t)) : list (Qc * History.t) :=
  fold_right (fun kx acc => insert_desc (fst kx) (snd kx) acc) [] l.

(** [l.sort(key=lambda x: x["timestamp"], reverse=True)]: the keys are
    computed first, for every entry. *)
Definition sort_by_timestamp (l : list History.t) : res (list History.t) :=
  keys <- mapM (fun x => getkey (History.timestamp x)) l ;;
  Ret (map snd (sort_desc (combine keys l))).

Definition MAX_HISTORY_ITEMS : nat := 5.

(** [on_event]; [now] is the value of [time.time()].  No exception is
    caught here.  The five assignments to the job's dict are made in one
    step, [History.complete], once the three keys of the analysis have
    been read: a [KeyError] among them leaves the handler before anything
    is appended or persisted. *)
Definition on_event (file_manager : FileManager) (now : Qc)
    (event : string) (payload : Payload.t) : M Plugin.t unit :=
  if String.eqb event "PrintDone" then
    self <~ get ;;
    let print_history :=
      match Plugin.print_history self with
      | None => []
      | Some h => h
      end in
    match file_manager (Payload.origin payload) (Payload.path payload) with
    | None => lift (Raise TypeError)     (* "analysis" in None *)
    | Some metadata =>
    match Metadata.analysis metadata with
    | None => mret tt
    | Some an =>
        if negb (has_key (Analysis.analysisPrintTime an)) then mret tt else
        current <~ lift (match Plugin._current_history self with
                         | Some h => Ret h
                         | None => Raise TypeError   (* None["payload"] = ... *)
                         end) ;;
        apt <~ lift (getkey (Analysis.analysisPrintTime an)) ;;
        afft <~ lift (getkey (Analysis.analysisFirstFilamentPrintTime an)) ;;
        alft <~ lift (getkey (Analysis.analysisLastFilamentPrintTime an)) ;;
        let current := History.complete payload now apt afft alft current in
        let print_history := print_history ++ [current] in
        _ <~ modify (Plugin.set_current_history None) ;;
        print_history <~ lift (sort_by_timestamp print_history) ;;
        let print_history := firstn MAX_HISTORY_ITEMS print_history in
        modify (Plugin.set_print_history print_history)
    end end
  else mret tt.
(** ** Vocabulary of the statements *)

(** [l[0]] and [l[-1]] of a non-empty map. *)
Definition first_point (l : progress_map) : point := hd [] l.
Definition last_point (l : progress_map) : point := last l [].

(** ** Data of the examples *)

(** The map [[[0,100],[0.5,50],[1,0]]]. *)
Definition map_100 : progress_map :=
  [[qz 0; qz 100]; [qf 1 2; qz 50]; [qz 1; qz 0]].

(** ** The compensation, in the words of the specification

    These definitions are not taken from the source: they say what the
    specification says the compensation computes, for comparison with
    [compensate_analysis]. *)

(** The number under a key that is present. *)
Definition value (field : option Qc) : Qc :=
  match field with
  | Some v => v
  | None => 0%Qc
  end.

(** [heatUp_i = record.firstFilamentPrintTime] *)
Definition spec_heatUp (ph : History.t) : Qc :=
  value (History.firstFilamentPrintTime ph).

(** [coolDown_i = record.payload.actualTotalTime - record.lastFilamentPrintTime] *)
Definition spec_coolDown (ph : History.t) : Qc :=
  (match History.payload ph with
   | Some pl => value (Payload.time pl)
   | None => 0
   end - value (History.lastFilamentPrintTime ph))%Qc.

(** [scale_i = (last - first) / (analysisLast - analysisFirst)] *)
Definition spec_scale (ph : History.t) : Qc :=
  ((value (History.lastFilamentPrintTime ph)
    - value (History.firstFilamentPrintTime ph))
   / (value (History.analysisLastFilamentPrintTime ph)
      - value (History.analysisFirstFilamentPrintTime ph)))%Qc.

(** The arithmetic mean. *)
Definition mean (l : list Qc) : Qc :=
  (py_sum l / qz (Z.of_nat (length l)))%Qc.

(** A well-formed record: every key the compensation reads is there, and
    the analysed mid-print duration is not zero. *)
Definition well_formed_record (ph : History.t) : bool :=
  has_key (History.firstFilamentPrintTime ph)
  && has_key (History.lastFilamentPrintTime ph)
  && match History.payload ph with
     | Some pl => has_key (Payload.time pl)
     | None => false
     end
  && has_key (History.analysisFirstFilamentPrintTime ph)
  && has_key (History.analysisLastFilamentPrintTime ph)
  && negb (num_eqb (value (History.analysisLastFilamentPrintTime ph)
                    - value (History.analysisFirstFilamentPrintTime ph))%Qc
                   0%Qc).

(** [firstFilamentPos <= position < lastFilamentPos] *)
Definition kept (first_pos last_pos : Qc) (p : point) : bool :=
  num_leb first_pos (pos p) && num_ltb (pos p) last_pos.

(** [newValue = (value - tailRemaining) * avgScale + avgCoolDown] *)
Definition rescaled (tailRemaining avgScale avgCoolDown : Qc) (p : point) : point :=
  [pos p; ((val p - tailRemaining) * avgScale + avgCoolDown)%Qc].

(** The rewritten map: kept points rescaled, [(0, firstKept + avgHeatUp)]
    in front, [(1, 0)] behind. *)
Definition spec_compensated (l : progress_map) (first_pos last_pos : Qc)
    (tailRemaining avgHeatUp avgScale avgCoolDown : Qc) : progress_map :=
  let new_points :=
    map (rescaled tailRemaining avgScale avgCoolDown)
        (filter (kept first_pos last_pos) l) in
  [qz 0; (val (first_point new_points) + avgHeatUp)%Qc]
    :: new_points ++ [[qz 1; qz 0]].

(** Some point of the map sits at position [x]. *)
Definition has_position (l : progress_map) (x : Qc) : bool :=
  existsb (fun p => num_eqb (pos p) x) l.


(** A finished print: extrusion from 30 s to 500 s of 520 s, analysed as
    20 s to 420 s of 450 s. *)
Definition record_good : History.t :=
  {| History.firstFilamentPrintTime := Some (qz 30);
     History.lastFilamentPrintTime := Some (qz 500);
     History.payload :=
       Some {| Payload.origin := "local"; Payload.path := "a.gcode";
               Payload.time := Some (qz 520) |};
     History.timestamp := Some (qz 1000);
     History.analysisPrintTime := Some (qz 450);
     History.analysisFirstFilamentPrintTime := Some (qz 20);
     History.analysisLastFilamentPrintTime := Some (qz 420) |}.

(** The same print, analysed with first and last filament at the same time. *)
Definition record_degenerate : History.t :=
  {| History.firstFilamentPrintTime := Some (qz 30);
     History.lastFilamentPrintTime := Some (qz 500);
     History.payload :=
       Some {| Payload.origin := "local"; Payload.path := "a.gcode";
               Payload.time := Some (qz 520) |};
     History.timestamp := Some (qz 1000);
     History.analysisPrintTime := Some (qz 450);
     History.analysisFirstFilamentPrintTime := Some (qz 100);
     History.analysisLastFilamentPrintTime := Some (qz 100) |}.

(** An analysis over [map_100] with the given filament positions. *)
Definition analysis_100 (first_pos last_pos : Qc) : Analysis.t :=
  {| Analysis.progress := Some map_100;
     Analysis.firstFilament := Some first_pos;
     Analysis.lastFilament := Some last_pos;
     Analysis.estimatedPrintTime := Some (qz 100);
     Analysis.analysisPrintTime := Some (qz 100);
     Analysis.analysisFirstFilamentPrintTime := None;
     Analysis.analysisLastFilamentPrintTime := None |}.


(** ** Vocabulary for the estimator's ticks *)

(** The progress a tick works with: the first call of a job pretends 0. *)
Definition effective_progress (self : Estimator) (progress : Qc) : Qc :=
  if _called_genius_yet self then progress else qz 0.

(** The analysis, the map and the index the cursor search ends on, when the
    metadata has a map and the search raises nothing. *)
Definition cursor_target (file_manager : FileManager) (self : Estimator)
    (progress : Qc) : option (Analysis.t * progress_map * Z) :=
  match file_manager (_origin self) (_path self) with
  | None => None
  | Some metadata =>
      match Metadata.analysis metadata with
      | None => None
      | Some an =>
          match Analysis.progress an with
          | None => None
          | Some filepos_to_progress =>
              match advance (effective_progress self progress)
                      (skipn (Z.to_nat (_current_progress_index self + 1))
                             filepos_to_progress)
                      (_current_progress_index self) with
              | Ret i => Some (an, filepos_to_progress, i)
              | Raise _ => None
              end
          end
      end
  end.

(** The cursor index changes at this tick. *)
Definition cursor_moves (file_manager : FileManager) (self : Estimator)
    (progress : Qc) : bool :=
  match cursor_target file_manager self progress with
  | Some (_, _, i) => (0 <=? i)%Z && negb (i =? _current_progress_index self)%Z
  | None => false
  end.

(** The tick is one that stores its elapsed time as
    [lastFilamentPrintTime]: the cursor index changes, the analysis has its
    [firstFilament] (read just before), and either nothing is stored yet
    or the progress is at most [lastFilament]. *)
Definition stores_last (file_manager : FileManager) (self : Estimator)
    (progress : Qc) : bool :=
  match cursor_target file_manager self progress with
  | Some (an, _, i) =>
      (0 <=? i)%Z && negb (i =? _current_progress_index self)%Z
      && has_key (Analysis.firstFilament an)
      && (negb (has_key (History.lastFilamentPrintTime (_current_history self)))
          || match Analysis.lastFilament an with
             | Some lf => num_leb (effective_progress self progress) lf
             | None => false
             end)
  | None => false
  end.

(** The state a job is in after its ticks. *)
Definition after (file_manager : FileManager) (ticks : list Tick)
    (self : Estimator) : Estimator :=
  fst (run file_manager ticks self).

(** No tick of the list stores a [lastFilamentPrintTime]. *)
Fixpoint none_stores_last (file_manager : FileManager) (ticks : list Tick)
    (self : Estimator) : bool :=
  match ticks with
  | [] => true
  | t :: ticks' =>
      negb (stores_last file_manager self (tick_progress t))
      && none_stores_last file_manager ticks'
           (after file_manager [t] self)
  end.

(** The file manager of the examples: every file has [map_100], first
    filament at 0.1, last filament at 0.9. *)
Definition files_100 : FileManager :=
  fun _ _ => Some {| Metadata.analysis := Some (analysis_100 (qf 1 10) (qf 9 10)) |}.

Definition tick (progress printTime : Qc) : Tick :=
  {| tick_default := Some (None, None);
     tick_progress := progress; tick_printTime := printTime |}.

(** A job on one of these files, before its first tick. *)
Definition job_100 : Estimator := init "a.gcode" "local" History.empty.


(** A file manager whose analysis has a map but no [firstFilament]. *)
Definition files_without_first : FileManager :=
  fun _ _ =>
    Some {| Metadata.analysis :=
              Some {| Analysis.progress := Some map_100;
                      Analysis.firstFilament := None;
                      Analysis.lastFilament := None;
                      Analysis.estimatedPrintTime := Some (qz 100);
                      Analysis.analysisPrintTime := None;
                      Analysis.analysisFirstFilamentPrintTime := None;
                      Analysis.analysisLastFilamentPrintTime := None |} |}.


(** [self._current_history["lastFilamentPrintTime"]], [None] when absent. *)
Definition stored_last (self : Estimator) : option Qc :=
  History.lastFilamentPrintTime (_current_history self).


(** ** Vocabulary for the builder *)

(** The point the second loop emits for a sample. *)
Definition emitted_point (total_time : Qc) (s : Sample.t) : point :=
  [Sample.filepos s; (total_time - Sample.time s)%Qc].

(** The elapsed time of the final sample. *)
Definition final_time (samples : list Sample.t) : Qc :=
  last (map Sample.time samples) 0%Qc.

(** More than 60 s have passed at time [t] since the sample emitted last,
    at time [since], as the code tests it: [t] is above the float sum of
    [since] and 60.  Before any sample was emitted, [since] is [None] and
    the test holds. *)
Definition more_than_60 (since : option Qc) (t : Qc) : bool :=
  match since with
  | None => true
  | Some m => binary64_ltb (fadd m (qz 60)) t
  end.

(** "At least 60 s have passed", in the words of the specification. *)
Definition at_least_60 (since : option Qc) (t : Qc) : bool :=
  match since with
  | None => true
  | Some m => num_leb (m + qz 60)%Qc t
  end.

(** The samples a density rule [due] selects: a sample is taken when the
    rule holds of the time since the sample taken last, or its position
    is [first_pos], or it is [last_pos]. *)
Fixpoint selected (due : option Qc -> Qc -> bool) (first_pos last_pos : option Qc)
    (since : option Qc) (samples : list Sample.t) : list Sample.t :=
  match samples with
  | [] => []
  | s :: rest =>
      if due since (Sample.time s)
         || eq_opt (Sample.filepos s) first_pos
         || eq_opt (Sample.filepos s) last_pos
      then s :: selected due first_pos last_pos (Some (Sample.time s)) rest
      else selected due first_pos last_pos since rest
  end.

Definition sample (filepos filament time : Qc) : Sample.t :=
  {| Sample.filepos := filepos; Sample.filament := filament;
     Sample.time := time |}.

(** Three samples, the second exactly 60 s after the first. *)
Definition trace_60 : list Sample.t :=
  [sample (qf 1 10) (qz 1) (qz 0);
   sample (qf 1 5) (qz 1) (qz 60);
   sample (qf 3 10) (qz 1) (qz 61)].

(** Two samples, the first extruding at position 0. *)
Definition trace_from_0 : list Sample.t :=
  [sample (qz 0) (qz 1) (qz 0);
   sample (qf 1 2) (qz 2) (qz 10)].


(** [firstFilamentPos] in the words of the specification: the position of
    the first sample with cumulative filament above zero ([None] when
    there is none). *)
Definition spec_firstFilamentPos (samples : list Sample.t) : option Qc :=
  option_map Sample.filepos
    (find (fun s => num_ltb 0%Qc (Sample.filament s)) samples).


(** ** Vocabulary for the history *)

(** [a] is at least as recent as [b]. *)
Definition as_recent_as (a b : History.t) : Prop :=
  (value (History.timestamp b) <= value (History.timestamp a))%Qc.

(** Most recent first: every record is at least as recent as all that
    follow it. *)
Definition most_recent_first (l : list History.t) : Prop :=
  StronglySorted as_recent_as l.

(** The same order on the decorated list the sort works on. *)
Definition key_ge (a b : Qc * History.t) : Prop := (fst b <= fst a)%Qc.

(** A record is decorated with its own timestamp. *)
Definition own_key (kx : Qc * History.t) : Prop :=
  fst kx = value (History.timestamp (snd kx)).

(** The history before the event: [[]] when the setting does not exist. *)
Definition stored_history (self : Plugin.t) : list History.t :=
  match Plugin.print_history self with
  | None => []
  | Some h => h
  end.

(** A finished print with the given timestamp. *)
Definition record_at (timestamp : Qc) : History.t :=
  {| History.firstFilamentPrintTime := Some (qz 30);
     History.lastFilamentPrintTime := Some (qz 500);
     History.payload := None;
     History.timestamp := Some timestamp;
     History.analysisPrintTime := Some (qz 450);
     History.analysisFirstFilamentPrintTime := Some (qz 20);
     History.analysisLastFilamentPrintTime := Some (qz 420) |}.

(** A plugin with five prints in its history and a job that just ended. *)
Definition plugin_5 : Plugin.t :=
  {| Plugin.print_history :=
       Some [record_at (qz 50); record_at (qz 40); record_at (qz 30);
             record_at (qz 20); record_at (qz 10)];
     Plugin._current_history :=
       Some (History.set_lastFilamentPrintTime (qz 500)
               (History.set_firstFilamentPrintTime (qz 30) History.empty)) |}.

(** A file manager whose files carry the three calibration times. *)
Definition files_analysed : FileManager :=
  fun _ _ =>
    Some {| Metadata.analysis :=
              Some {| Analysis.progress := Some map_100;
                      Analysis.firstFilament := Some (qf 1 10);
                      Analysis.lastFilament := Some (qf 9 10);
                      Analysis.estimatedPrintTime := Some (qz 100);
                      Analysis.analysisPrintTime := Some (qz 100);
                      Analysis.analysisFirstFilamentPrintTime := Some (qz 10);
                      Analysis.analysisLastFilamentPrintTime := Some (qz 90) |} |}.

Definition payload_done : Payload.t :=
  {| Payload.origin := "local"; Payload.path := "a.gcode";
     Payload.time := Some (qz 520) |}.


(** ** [GeniusAnalysisQueue._do_analysis]

    The analysis dict is kept to the seven keys the plugin reads, each
    holding a number (or the map) or absent; what the built-in analysis
    and the analyzers put under other keys plays no role in this file.
    The calls of [_finished_callback] hand the dict to the host and are
    left out with the logging. *)

(** [results["analysisPrintTime"] = v] *)
Definition set_analysisPrintTime (v : Qc) (a : Analysis.t) : Analysis.t :=
  {| Analysis.progress := Analysis.progress a;
     Analysis.firstFilament := Analysis.firstFilament a;
     Analysis.lastFilament := Analysis.lastFilament a;
     Analysis.estimatedPrintTime := Analysis.estimatedPrintTime a;
     Analysis.analysisPrintTime := Some v;
     Analysis.analysisFirstFilamentPrintTime :=
       Analysis.analysisFirstFilamentPrintTime a;
     Analysis.analysisLastFilamentPrintTime :=
       Analysis.analysisLastFilamentPrintTime a |}.

(** [results["analysisFirstFilamentPrintTime"] = v] *)
Definition set_analysisFirstFilamentPrintTime (v : Qc) (a : Analysis.t)
  : Analysis.t :=
  {| Analysis.progress := Analysis.progress a;
     Analysis.firstFilament := Analysis.firstFilament a;
     Analysis.lastFilament := Analysis.lastFilament a;
     Analysis.estimatedPrintTime := Analysis.estimatedPrintTime a;
     Analysis.analysisPrintTime := Analysis.analysisPrintTime a;
     Analysis.analysisFirstFilamentPrintTime := Some v;
     Analysis.analysisLastFilamentPrintTime :=
       Analysis.analysisLastFilamentPrintTime a |}.

(** [results["analysisLastFilamentPrintTime"] = v] *)
Definition set_analysisLastFilamentPrintTime (v : Qc) (a : Analysis.t)
  : Analysis.t :=
  {| Analysis.progress := Analysis.progress a;
     Analysis.firstFilament := Analysis.firstFilament a;
     Analysis.lastFilament := Analysis.lastFilament a;
     Analysis.estimatedPrintTime := Analysis.estimatedPrintTime a;
     Analysis.analysisPrintTime := Analysis.analysisPrintTime a;
     Analysis.analysisFirstFilamentPrintTime :=
       Analysis.analysisFirstFilamentPrintTime a;
     Analysis.analysisLastFilamentPrintTime := Some v |}.

(** One key of [d.update(e)]: the value of [e] where [e] has the key. *)
Definition update_key {A : Type} (old new : option A) : option A :=
  match new with
  | Some v => Some v
  | None => old
  end.

(** [results.update(new_results)] *)
Definition update (results new_results : Analysis.t) : Analysis.t :=
  {| Analysis.progress :=
       update_key (Analysis.progress results) (Analysis.progress new_results);
     Analysis.firstFilament :=
       update_key (Analysis.firstFilament results)
         (Analysis.firstFilament new_results);
     Analysis.lastFilament :=
       update_key (Analysis.lastFilament results)
         (Analysis.lastFilament new_results);
     Analysis.estimatedPrintTime :=
       update_key (Analysis.estimatedPrintTime results)
         (Analysis.estimatedPrintTime new_results);
     Analysis.analysisPrintTime :=
       update_key (Analysis.analysisPrintTime results)
         (Analysis.analysisPrintTime new_results);
     Analysis.analysisFirstFilamentPrintTime :=
       update_key (Analysis.analysisFirstFilamentPrintTime results)
         (Analysis.analysisFirstFilamentPrintTime new_results);
     Analysis.analysisLastFilamentPrintTime :=
       update_key (Analysis.analysisLastFilamentPrintTime results)
         (Analysis.analysisLastFilamentPrintTime new_results) |}.

Module Analyzer.
(** One entry of the [analyzers] setting, a dict, with what its use
    gives.  [command] is the outcome of
    [analyzer["command"].format(gcode=...)]: the command line, or the
    exception of the lookup or of [str.format] ([KeyError] for a field
    other than [gcode], as in [awk '{print $1}'], [IndexError] for a
    positional field, [ValueError] for a lone brace).  [enabled] is the
    key [enabled].  [output] is the dict
    [json.loads(subprocess.check_output(...))], or [None] when the
    command or the parsing of its output raises. *)
Record t : Type := {
  command : res string;
  enabled : option bool;
  output : option Analysis.t
}.
End Analyzer.

(** One turn of the loop over the analyzers.  The command is formatted
    and [enabled] is read before the [try]: what they raise leaves
    [_do_analysis].  [results] is [None] for Python's [None]: then
    [results.update] raises, inside the [try], and the handler only
    logs. *)
Definition run_analyzer (results : option Analysis.t) (analyzer : Analyzer.t)
  : res (option Analysis.t) :=
  command <- Analyzer.command analyzer ;;
  enabled <- getkey (Analyzer.enabled analyzer) ;;
  if negb enabled then Ret results                      (* continue *)
  else
    match Analyzer.output analyzer with
    | None => Ret results                               (* except: log *)
    | Some new_results =>
        match results with
        | None => Ret None                              (* except: log *)
        | Some r => Ret (Some (update r new_results))
        end
    end.

(** [for analyzer in self._plugin._settings.get(["analyzers"]): ...] *)
Fixpoint run_analyzers (analyzers : list Analyzer.t)
    (results : option Analysis.t) : res (option Analysis.t) :=
  match analyzers with
  | [] => Ret results
  | analyzer :: rest =>
      results <- run_analyzer results analyzer ;;
      run_analyzers rest results
  end.

(** [results[key] = results["analysisPrintTime"] - _interpolate(
    results["progress"], results[filament_key])[1]] *)
Definition analysis_time_at (results : Analysis.t) (filament : option Qc)
  : res Qc :=
  apt <- getkey (Analysis.analysisPrintTime results) ;;
  prog <- getkey (Analysis.progress results) ;;
  x <- getkey filament ;;
  interpolation <- _interpolate prog x ;;
  v <- match interpolation with
       | None => Raise TypeError          (* None[1] *)
       | Some pt => getitem pt 1
       end ;;
  Ret (apt - v)%Qc.

(** The last [try] of [_do_analysis], on a dict [results]. *)
Definition save_and_compensate (settings_print_history : option (list History.t))
  : M Analysis.t unit :=
  mtry
    (results <~ get ;;
     if negb (has_key (Analysis.progress results)
              && has_key (Analysis.firstFilament results)
              && has_key (Analysis.lastFilament results))
     then mret tt                                        (* return results *)
     else
       est <~ lift (getkey (Analysis.estimatedPrintTime results)) ;;
       _ <~ modify (set_analysisPrintTime est) ;;
       results <~ get ;;
       first <~ lift (analysis_time_at results (Analysis.firstFilament results)) ;;
       _ <~ modify (set_analysisFirstFilamentPrintTime first) ;;
       results <~ get ;;
       last <~ lift (analysis_time_at results (Analysis.lastFilament results)) ;;
       _ <~ modify (set_analysisLastFilamentPrintTime last) ;;
       compensate_analysis settings_print_history)
    (fun _ => mret tt).

(** [_do_analysis].  [builtin] is what the base class's [_do_analysis]
    returns when [enableOctoPrintAnalyzer] is set; without it [results]
    stays [None], and [x in None] raises inside the last [try]. *)
Definition _do_analysis (enableOctoPrintAnalyzer : bool) (builtin : Analysis.t)
    (analyzers : list Analyzer.t)
    (settings_print_history : option (list History.t))
  : res (option Analysis.t) :=
  let results := if enableOctoPrintAnalyzer then Some builtin else None in
  results <- run_analyzers analyzers results ;;
  match results with
  | None => Ret None
  | Some r => Ret (Some (fst (save_and_compensate settings_print_history r)))
  end.

(** ** [custom_estimation_factory]

    [make_genius_estimator] puts a fresh dict in the plugin's
    [_current_history] and hands the same dict to the new estimator, which
    fills it during the job.  The estimator's state holds that dict;
    [shared_history] is the plugin as it stands when the job's estimator
    is in state [e]. *)

Definition make_genius_estimator (file_path file_origin : string)
    (plugin : Plugin.t) : Plugin.t * Estimator :=
  (Plugin.set_current_history (Some History.empty) plugin,
   init file_path file_origin History.empty).

Definition shared_history (e : Estimator) (plugin : Plugin.t) : Plugin.t :=
  Plugin.set_current_history (Some (_current_history e)) plugin.

(** A whole job on the file the printer reports as [file_path],
    [file_origin]: the estimator is made, the ticks are fed to it, and the
    [PrintDone] event arrives at time [now]. *)
Definition print_job (file_manager : FileManager)
    (file_path file_origin : string) (ticks : list Tick)
    (now : Qc) (payload : Payload.t) (plugin : Plugin.t)
  : Plugin.t * res unit :=
  let (plugin1, estimator) :=
    make_genius_estimator file_path file_origin plugin in
  let estimator := after file_manager ticks estimator in
  on_event file_manager now "PrintDone" payload
    (shared_history estimator plugin1).

(** ** Vocabulary of the further properties *)

(** The estimator's anchor is there once the cursor is in the map. *)
Definition anchored (self : Estimator) : Prop :=
  (-1 <= _current_progress_index self)%Z /\
  ((0 <= _current_progress_index self)%Z ->
   has_key (_current_total_printTime self) = true).

(** [self._current_history["firstFilamentPrintTime"]], [None] when absent. *)
Definition stored_first (self : Estimator) : option Qc :=
  History.firstFilamentPrintTime (_current_history self).

(** The remaining time of a genius result. *)
Definition genius (remaining : Qc) : option estimate_t :=
  Some (Some remaining, Some "genius"%string).

(** Every stored record has its timestamp. *)
Definition timestamped (l : list History.t) : Prop :=
  Forall (fun h => has_key (History.timestamp h) = true) l.


(** A map out of order: [[[0.5,50],[0,100],[1,0]]]. *)
Definition map_unsorted : progress_map :=
  [[qf 1 2; qz 50]; [qz 0; qz 100]; [qz 1; qz 0]].


(** The analysis and the progress map of the job's file, when the metadata
    has them. *)
Definition job_analysis (file_manager : FileManager) (self : Estimator)
  : option (Analysis.t * progress_map) :=
  match file_manager (_origin self) (_path self) with
  | None => None
  | Some metadata =>
      match Metadata.analysis metadata with
      | None => None
      | Some an =>
          match Analysis.progress an with
          | None => None
          | Some filepos_to_progress => Some (an, filepos_to_progress)
          end
      end
  end.

(** The tick is one that stores its elapsed time as
    [firstFilamentPrintTime]: the cursor index changes, the progress is
    above [firstFilament], and nothing is stored yet. *)
Definition stores_first (file_manager : FileManager) (self : Estimator)
    (progress : Qc) : bool :=
  match cursor_target file_manager self progress with
  | Some (an, _, i) =>
      (0 <=? i)%Z && negb (i =? _current_progress_index self)%Z
      && match Analysis.firstFilament an with
         | Some ff => num_ltb ff (effective_progress self progress)
         | None => false
         end
      && negb (has_key (stored_first self))
  | None => false
  end.


(** A file whose map stops at position 0.5: [[[0,100],[0.5,50]]]. *)
Definition map_half : progress_map := [[qz 0; qz 100]; [qf 1 2; qz 50]].

Definition analysis_half : Analysis.t :=
  {| Analysis.progress := Some map_half;
     Analysis.firstFilament := Some (qf 1 10);
     Analysis.lastFilament := Some (qf 2 5);
     Analysis.estimatedPrintTime := Some (qz 100);
     Analysis.analysisPrintTime := Some (qz 100);
     Analysis.analysisFirstFilamentPrintTime := None;
     Analysis.analysisLastFilamentPrintTime := None |}.

Definition files_half : FileManager :=
  fun _ _ => Some {| Metadata.analysis := Some analysis_half |}.


(** An analyzer whose command formats and whose [enabled] key is there. *)
Definition well_configured (analyzer : Analyzer.t) : bool :=
  match Analyzer.command analyzer with
  | Ret _ => has_key (Analyzer.enabled analyzer)
  | Raise _ => false
  end.

(** An analyzer that is passed over: well configured, and disabled or
    failing in its run. *)
Definition passed_over (analyzer : Analyzer.t) : bool :=
  well_configured analyzer
  && match Analyzer.enabled analyzer with
     | Some true => negb (has_key (Analyzer.output analyzer))
     | _ => true
     end.

(** A disabled analyzer whose command has a field other than [gcode]. *)
Definition analyzer_awk : Analyzer.t :=
  {| Analyzer.command := Raise KeyError;
     Analyzer.enabled := Some false;
     Analyzer.output := None |}.

(** An analyzer that is enabled and reports [map_100]. *)
Definition analyzer_100 : Analyzer.t :=
  {| Analyzer.command := Ret "analyze_progress.py marlin-calc a.gcode"%string;
     Analyzer.enabled := Some true;
     Analyzer.output := Some (analysis_100 (qf 1 10) (qf 9 10)) |}.

(** An analysis over [map_half] with [firstFilament] beyond the map. *)
Definition analysis_beyond : Analysis.t :=
  {| Analysis.progress := Some map_half;
     Analysis.firstFilament := Some (qf 3 5);
     Analysis.lastFilament := Some (qf 4 5);
     Analysis.estimatedPrintTime := Some (qz 100);
     Analysis.analysisPrintTime := None;
     Analysis.analysisFirstFilamentPrintTime := None;
     Analysis.analysisLastFilamentPrintTime := None |}.


(** The timestamp a stored record is sorted by. *)
Definition stamp (x : History.t) : Qc := value (History.timestamp x).

(** [result["progress"]] as [main] leaves it for a trace. *)
Definition builder_progress (samples : list Sample.t) : progress_map :=
  [[qz 0; final_time samples]]
    ++ map (emitted_point (final_time samples))
         (selected more_than_60 (Scan.first_filament (scan samples))
            (Scan.last_filament (scan samples)) None samples)
    ++ [[qz 1; qz 0]].




(** The doubles of the literals [0.1] and [60.1]. *)
Definition double_0_1 : Qc := Q2Qc (3602879701896397 # 36028797018963968).
Definition double_60_1 : Qc := Q2Qc (8458323050155213 # 140737488355328).

(** Three samples, the second 60 s and a little after the first, where
    [0.1 + 60] is [60.1] as floats. *)
Definition trace_rounded : list Sample.t :=
  [sample (qf 1 4) (qz 1) double_0_1;
   sample (qf 1 2) (qz 1) double_60_1;
   sample (qf 3 4) (qz 1) (qz 61)].


(** ** The float sum against the Standard Library's specification

    [SpecFloat.SFadd 53 1024] is the library's specification of binary64
    addition; these definitions read its floats as numbers, for the
    comparison with [fadd] on examples. *)

Definition of_spec_float (f : SpecFloat.spec_float) : option binary64 :=
  match f with
  | SpecFloat.S754_zero _ => Some (finite 0%Qc)
  | SpecFloat.S754_infinity negative => Some (infinity negative)
  | SpecFloat.S754_nan => None
  | SpecFloat.S754_finite negative m e =>
      Some (finite (Q2Qc (((if negative then Z.neg m else Z.pos m) # 1)
                          * inject_Z 2 ^ e)))
  end.

Definition binary64_eqb (a : option binary64) (b : binary64) : bool :=
  match a, b with
  | Some (finite x), finite y => num_eqb x y
  | Some (infinity s), infinity s' => Bool.eqb s s'
  | _, _ => false
  end.

(** The sum of two finite floats, by the library and by [fadd]. *)
Definition sums_agree (a b : SpecFloat.spec_float) : bool :=
  match of_spec_float a, of_spec_float b with
  | Some (finite x), Some (finite y) =>
      binary64_eqb (of_spec_float (SpecFloat.SFadd 53 1024 a b)) (fadd x y)
  | _, _ => false
  end.



(** * Facts about the embedding *)

Section Numbers.

Lemma num_ltb_lt (x y : Qc) : num_ltb x y = true <-> (x < y)%Qc.
Proof.
  unfold num_ltb; rewrite Qclt_alt.
  destruct (x ?= y)%Qc; split; congruence.
Qed.

Lemma num_ltb_ge (x y : Qc) : num_ltb x y = false <-> (y <= x)%Qc.
Proof.
  split; intros H.
  - apply Qcnot_lt_le; intros L; apply num_ltb_lt in L; congruence.
  - destruct (num_ltb x y) eqn:E; [|reflexivity].
    apply num_ltb_lt in E. exfalso; exact (Qcle_not_lt _ _ H E).
Qed.

Lemma num_eqb_eq (x y : Qc) : num_eqb x y = true <-> x = y.
Proof.
  unfold num_eqb; rewrite Qceq_alt.
  destruct (x ?= y)%Qc; split; congruence.
Qed.

Lemma num_eqb_neq (x y : Qc) : num_eqb x y = false <-> x <> y.
Proof.
  split; intros H.
  - intros E; apply num_eqb_eq in E; congruence.
  - destruct (num_eqb x y) eqn:E; [|reflexivity].
    apply num_eqb_eq in E; contradiction.
Qed.

Lemma num_eqb_refl (x : Qc) : num_eqb x x = true.
Proof. now apply num_eqb_eq. Qed.

Lemma num_leb_le (x y : Qc) : num_leb x y = true <-> (x <= y)%Qc.
Proof.
  unfold num_leb; rewrite Qcle_alt.
  destruct (x ?= y)%Qc; split; congruence.
Qed.

Lemma num_leb_gt (x y : Qc) : num_leb x y = false <-> (y < x)%Qc.
Proof.
  split; intros H.
  - apply Qcnot_le_lt; intros L; apply num_leb_le in L; congruence.
  - destruct (num_leb x y) eqn:E; [|reflexivity].
    apply num_leb_le in E. exfalso; exact (Qclt_not_le _ _ H E).
Qed.

Lemma Qclt_neq (x y : Qc) : (x < y)%Qc -> x <> y.
Proof. intros L E; subst; exact (Qclt_not_le _ _ L (Qcle_refl _)). Qed.

(** [[x] < p] for a point [p]: what the bisection compares. *)
Lemma list_lt_single_pair (x : Qc) (p : point) :
  is_pair p = true -> list_lt [x] p = num_leb x (pos p).
Proof.
  destruct p as [|a [|b [|c p]]]; cbn; try discriminate; intros _.
  destruct (num_eqb x a) eqn:E.
  - apply num_eqb_eq in E; subst. symmetry; apply num_leb_le, Qcle_refl.
  - apply num_eqb_neq in E.
    destruct (num_ltb x a) eqn:L.
    + apply num_ltb_lt in L. symmetry; apply num_leb_le, Qclt_le_weak, L.
    + apply num_ltb_ge in L. symmetry; apply num_leb_gt.
      destruct (Qcle_lt_or_eq _ _ L) as [H|H]; [exact H|congruence].
Qed.

End Numbers.

Section Indexing.

Context {A : Type}.

Lemma getitem_nat (l : list A) (i : nat) (a : A) :
  nth_error l i = Some a -> getitem l (Z.of_nat i) = Ret a.
Proof.
  intros H. unfold getitem.
  assert (i < length l) by (apply nth_error_Some; congruence).
  destruct (Z.ltb_spec (Z.of_nat i) 0); [lia|].
  destruct (Z.leb_spec 0 (Z.of_nat i)); [|lia].
  destruct (Z.ltb_spec (Z.of_nat i) (Z.of_nat (length l))); [|lia].
  cbn. now rewrite Nat2Z.id, H.
Qed.

Lemma getitem_last (l : list A) (a d : A) :
  l <> [] -> getitem l (-1) = Ret (last l d).
Proof.
  intros H. unfold getitem.
  assert (0 < length l) by (destruct l; [congruence|cbn; lia]).
  change (-1 <? 0)%Z with true; cbv iota.
  destruct (Z.leb_spec 0 (-1 + Z.of_nat (length l))); [|lia].
  destruct (Z.ltb_spec (-1 + Z.of_nat (length l)) (Z.of_nat (length l))); [|lia].
  cbn [andb].
  replace (Z.to_nat (-1 + Z.of_nat (length l))) with (length l - 1) by lia.
  destruct (nth_error l (length l - 1)) eqn:E.
  - f_equal. destruct (exists_last H) as [l' [b ->]].
    rewrite last_last. rewrite length_app in E; cbn in E.
    replace (length l' + 1 - 1) with (length l') in E by lia.
    rewrite nth_error_app2 in E by lia.
    rewrite Nat.sub_diag in E; cbn in E. congruence.
  - apply nth_error_None in E; lia.
Qed.

Lemma getitem_head (a : A) (l : list A) : getitem (a :: l) 0 = Ret a.
Proof. apply (getitem_nat (a :: l) 0); reflexivity. Qed.

End Indexing.

Section Bisection.

(** Whatever the list, the loop stops between its bounds, just right of
    an entry that is not above [x] and on an entry that is above [x]. *)
Lemma bisect_loop_bracket (a : progress_map) (x : point) (lo hi : nat) :
  lo <= hi ->
  lo <= bisect_loop a x lo hi <= hi /\
  (lo < bisect_loop a x lo hi ->
     list_lt x (nth (bisect_loop a x lo hi - 1) a []) = false) /\
  (bisect_loop a x lo hi < hi ->
     list_lt x (nth (bisect_loop a x lo hi) a []) = true).
Proof.
  funelim (bisect_loop a x lo hi); intros Hle.
  - assert (Hm : lo <= (lo + hi) / 2 < hi).
    { split; [apply Nat.div_le_lower_bound|apply Nat.Div0.div_lt_upper_bound];
        lia. }
    clear Heqcall Heq.
    destruct (list_lt x (nth ((lo + hi) / 2) a [])) eqn:E.
    + destruct H as (Hr & Hl & Hu); [lia|].
      repeat split; try lia; [exact Hl|].
      intros _.
      destruct (Nat.eq_dec (bisect_loop a x lo ((lo + hi) / 2)) ((lo + hi) / 2))
        as [->|Hne]; [exact E|apply Hu; lia].
    + destruct H0 as (Hr & Hl & Hu); [lia|].
      repeat split; try lia; [|exact Hu].
      intros _.
      destruct (Nat.eq_dec (bisect_loop a x (S ((lo + hi) / 2)) hi)
                  (S ((lo + hi) / 2))) as [->|Hne].
      * now rewrite Nat.sub_1_r.
      * apply Hl; lia.
  - repeat split; lia.
Qed.

End Bisection.

Section Shapes.

Lemma is_pair_eta (p : point) : is_pair p = true -> p = [pos p; val p].
Proof. destruct p as [|a [|b [|c p]]]; cbn; congruence. Qed.

Lemma getitem_pair_0 (p : point) : is_pair p = true -> getitem p 0 = Ret (pos p).
Proof. intros H; rewrite (is_pair_eta p H) at 1; reflexivity. Qed.

Lemma getitem_pair_1 (p : point) : is_pair p = true -> getitem p 1 = Ret (val p).
Proof. intros H; rewrite (is_pair_eta p H) at 1; reflexivity. Qed.

Lemma well_shaped_In (l : progress_map) (p : point) :
  well_shaped l = true -> In p l -> is_pair p = true.
Proof. unfold well_shaped; rewrite forallb_forall; auto. Qed.

Lemma well_shaped_nth_error (l : progress_map) (i : nat) (p : point) :
  well_shaped l = true -> nth_error l i = Some p -> is_pair p = true.
Proof. intros H E; eapply well_shaped_In; eauto using nth_error_In. Qed.

Lemma well_shaped_first (l : progress_map) :
  well_shaped l = true -> l <> [] -> is_pair (first_point l) = true.
Proof.
  destruct l as [|p l]; [congruence|]; intros H _.
  apply (well_shaped_In (p :: l)); [exact H|now left].
Qed.

Lemma last_In {A : Type} (l : list A) (d : A) : l <> [] -> In (last l d) l.
Proof.
  intros H; destruct (exists_last H) as [l' [a ->]].
  rewrite last_last; apply in_or_app; right; now left.
Qed.

Lemma well_shaped_last (l : progress_map) :
  well_shaped l = true -> l <> [] -> is_pair (last_point l) = true.
Proof. intros H N; eapply well_shaped_In; [exact H|now apply last_In]. Qed.

Lemma nth_last {A : Type} (l : list A) (d : A) :
  nth (length l - 1) l d = last l d.
Proof.
  destruct l as [|a l]; [reflexivity|].
  assert (N : a :: l <> []) by congruence.
  destruct (exists_last N) as [l' [b E]]; rewrite E.
  rewrite last_last, length_app; cbn.
  rewrite app_nth2 by lia.
  now replace (length l' + 1 - 1 - length l') with 0 by lia.
Qed.

End Shapes.

Section Interpolation.

Lemma Qcminus_neq_0 (a b : Qc) : (b < a)%Qc -> (a - b)%Qc <> 0%Qc.
Proof.
  intros L E. apply (Qclt_neq _ _ L).
  replace a with ((a - b) + b)%Qc by ring. rewrite E; ring.
Qed.

(** The four tests at the head of [_interpolate], on a map of pairs. *)
Lemma interpolate_tests (l : progress_map) (x : Qc) :
  well_shaped l = true -> l <> [] ->
  _interpolate l x =
    if num_ltb x (pos (first_point l)) then Ret None else
    if num_ltb (pos (last_point l)) x then Ret None else
    if num_eqb x (pos (first_point l)) then Ret (Some (first_point l)) else
    if num_eqb x (pos (last_point l)) then Ret (Some (last_point l)) else
    let right_index := Z.of_nat (bisect_right l [x]) in
    let left_index := (right_index - 1)%Z in
    pl <- getitem l left_index ;;
    pl0 <- getitem pl 0 ;;
    pr <- getitem l right_index ;;
    pr0 <- getitem pr 0 ;;
    ratio <- py_div (x - pl0)%Qc (pr0 - pl0)%Qc ;;
    pl' <- getitem l left_index ;;
    pr' <- getitem l right_index ;;
    Ret (Some (blend ratio pl' pr')).
Proof.
  intros W N. unfold _interpolate.
  assert (E0 : getitem l 0 = Ret (first_point l)).
  { destruct l; [congruence|apply getitem_head]. }
  rewrite E0; cbn [bind].
  rewrite (getitem_pair_0 _ (well_shaped_first l W N)); cbn [bind].
  destruct (num_ltb x (pos (first_point l))); [reflexivity|].
  rewrite (getitem_last l [] [] N); cbn [bind]. fold (last_point l).
  rewrite (getitem_pair_0 _ (well_shaped_last l W N)); cbn [bind].
  reflexivity.
Qed.

(** Strictly inside the range of a map of pairs, sorted or not, the
    bisection lands on two neighbours around [x] and the blend is defined. *)
Lemma interpolate_inside (l : progress_map) (x : Qc) :
  well_shaped l = true -> l <> [] ->
  (pos (first_point l) < x)%Qc -> (x < pos (last_point l))%Qc ->
  exists (i : nat) (left right : point),
    bisect_right l [x] = S i /\
    nth_error l i = Some left /\ nth_error l (S i) = Some right /\
    (pos left < x)%Qc /\ (x <= pos right)%Qc /\
    _interpolate l x =
      Ret (Some (blend ((x - pos left) / (pos right - pos left))%Qc left right)).
Proof.
  intros W N Lf Ll.
  assert (Hlen : 0 < length l) by (destruct l; [congruence|cbn; lia]).
  destruct (bisect_loop_bracket l [x] 0 (length l) (Nat.le_0_l (length l)))
    as (Hr & Hlo & Hhi).
  fold (bisect_right l [x]) in Hr, Hlo, Hhi.
  remember (bisect_right l [x]) as r eqn:Hr0.
  assert (Pin : forall j, j < length l ->
             exists p, nth_error l j = Some p /\ nth j l [] = p /\
                       is_pair p = true).
  { intros j Hj. destruct (nth_error l j) as [p|] eqn:E.
    - exists p; repeat split.
      + now apply nth_error_nth.
      + eapply well_shaped_nth_error; eauto.
    - apply nth_error_None in E; lia. }
  assert (R0 : r <> 0).
  { intros E0. rewrite E0 in Hhi. specialize (Hhi Hlen).
    destruct (Pin 0 Hlen) as (p & E & En & Hp).
    assert (Ep : p = first_point l) by (destruct l; cbn in *; congruence).
    rewrite En, (list_lt_single_pair x _ Hp), Ep in Hhi.
    apply num_leb_le in Hhi. exact (Qclt_not_le _ _ Lf Hhi). }
  assert (Rn : r <> length l).
  { intros En. assert (Hp : 0 < r) by lia. specialize (Hlo Hp).
    rewrite En, nth_last in Hlo. fold (last_point l) in Hlo.
    rewrite (list_lt_single_pair x _ (well_shaped_last l W N)) in Hlo.
    apply num_leb_gt in Hlo. exact (Qclt_not_le _ _ Ll (Qclt_le_weak _ _ Hlo)). }
  destruct r as [|i]; [congruence|].
  destruct (Pin i ltac:(lia)) as (left & El & Enl & Hpl).
  destruct (Pin (S i) ltac:(lia)) as (right & Er & Enr & Hpr).
  exists i, left, right.
  assert (Bl : (pos left < x)%Qc).
  { specialize (Hlo ltac:(lia)). replace (S i - 1) with i in Hlo by lia.
    rewrite Enl, (list_lt_single_pair x _ Hpl) in Hlo.
    now apply num_leb_gt. }
  assert (Br : (x <= pos right)%Qc).
  { specialize (Hhi ltac:(lia)).
    rewrite Enr, (list_lt_single_pair x _ Hpr) in Hhi.
    now apply num_leb_le. }
  repeat split; try assumption.
  rewrite (interpolate_tests l x W N).
  rewrite (proj2 (num_ltb_ge _ _) (Qclt_le_weak _ _ Lf)).
  rewrite (proj2 (num_ltb_ge _ _) (Qclt_le_weak _ _ Ll)).
  rewrite (proj2 (num_eqb_neq _ _)) by (intros E; symmetry in E; revert E; apply Qclt_neq, Lf).
  rewrite (proj2 (num_eqb_neq _ _)) by (apply Qclt_neq, Ll).
  cbv zeta. rewrite <- Hr0.
  replace (Z.of_nat (S i) - 1)%Z with (Z.of_nat i) by lia.
  rewrite (getitem_nat _ _ _ El), (getitem_nat _ _ _ Er); cbn [bind].
  rewrite (getitem_pair_0 _ Hpl), (getitem_pair_0 _ Hpr); cbn [bind].
  unfold py_div.
  rewrite (proj2 (num_eqb_neq _ _))
    by (apply Qcminus_neq_0; exact (Qclt_le_trans _ _ _ Bl Br)).
  reflexivity.
Qed.

End Interpolation.

Section SortedMaps.

Lemma strictly_increasing_tail (p : point) (l : progress_map) :
  strictly_increasing (p :: l) = true -> strictly_increasing l = true.
Proof.
  destruct l as [|q l]; [reflexivity|].
  cbn [strictly_increasing]. intros H; apply andb_prop in H; tauto.
Qed.

Lemma strictly_increasing_head (p : point) (l : progress_map) (q : point) :
  strictly_increasing (p :: l) = true -> In q l -> (pos p < pos q)%Qc.
Proof.
  revert p; induction l as [|r l IH]; intros p H I; [contradiction|].
  cbn [strictly_increasing] in H. apply andb_prop in H as [H1 H2].
  apply num_ltb_lt in H1.
  destruct I as [->|I]; [exact H1|].
  eapply Qclt_trans; [exact H1|]. now apply IH.
Qed.

(** Positions grow with the index. *)
Lemma strictly_increasing_nth (l : progress_map) :
  strictly_increasing l = true ->
  forall (i j : nat) (p q : point),
    i < j -> nth_error l i = Some p -> nth_error l j = Some q ->
    (pos p < pos q)%Qc.
Proof.
  induction l as [|a l IH]; intros S i j p q Hij Ei Ej.
  - destruct i; discriminate.
  - destruct j as [|j]; [lia|]. cbn in Ej.
    destruct i as [|i]; cbn in Ei.
    + injection Ei as <-.
      eapply strictly_increasing_head; eauto using nth_error_In.
    + eapply (IH (strictly_increasing_tail _ _ S) i j); eauto; lia.
Qed.

Lemma nth_error_first (l : progress_map) :
  l <> [] -> nth_error l 0 = Some (first_point l).
Proof. destruct l; [congruence|reflexivity]. Qed.

Lemma nth_error_last (l : progress_map) :
  l <> [] -> nth_error l (length l - 1) = Some (last_point l).
Proof.
  intros N. destruct (nth_error l (length l - 1)) eqn:E.
  - apply (nth_error_nth _ _ []) in E. rewrite nth_last in E.
    unfold last_point. f_equal. symmetry; exact E.
  - apply nth_error_None in E. destruct l; [congruence|cbn in E; lia].
Qed.

Lemma strictly_increasing_ends (l : progress_map) :
  strictly_increasing l = true -> 2 <= length l ->
  (pos (first_point l) < pos (last_point l))%Qc.
Proof.
  intros S L.
  assert (N : l <> []) by (destruct l; [cbn in L; lia|congruence]).
  apply (strictly_increasing_nth l S 0 (length l - 1));
    [lia|now apply nth_error_first|now apply nth_error_last].
Qed.

(** A blend at ratio 1 is the right-hand point. *)
Lemma blend_one (left right : point) :
  is_pair left = true -> is_pair right = true ->
  blend 1%Qc left right = right.
Proof.
  intros Hl Hr. rewrite (is_pair_eta _ Hl), (is_pair_eta _ Hr).
  unfold blend; cbn. f_equal; [ring|f_equal; ring].
Qed.

Lemma blend_pair (ratio : Qc) (left right : point) :
  is_pair left = true -> is_pair right = true ->
  blend ratio left right =
    [ (pos left * (1 - ratio) + pos right * ratio)%Qc;
      (val left * (1 - ratio) + val right * ratio)%Qc ].
Proof.
  intros Hl Hr. rewrite (is_pair_eta _ Hl), (is_pair_eta _ Hr). reflexivity.
Qed.

End SortedMaps.

Section InterpolationResults.

Variable l : progress_map.
Hypothesis shaped : well_shaped l = true.
Hypothesis nonempty : l <> [].

Lemma interpolate_below (x : Qc) :
  (x < pos (first_point l))%Qc -> _interpolate l x = Ret None.
Proof.
  intros H. rewrite (interpolate_tests l x shaped nonempty).
  now rewrite (proj2 (num_ltb_lt _ _) H).
Qed.

Lemma interpolate_above (x : Qc) :
  (pos (last_point l) < x)%Qc -> _interpolate l x = Ret None.
Proof.
  intros H. rewrite (interpolate_tests l x shaped nonempty).
  rewrite (proj2 (num_ltb_lt _ _) H).
  now destruct (num_ltb x (pos (first_point l))).
Qed.

Lemma interpolate_first (x : Qc) :
  x = pos (first_point l) -> (x <= pos (last_point l))%Qc ->
  _interpolate l x = Ret (Some (first_point l)).
Proof.
  intros E H. rewrite (interpolate_tests l x shaped nonempty).
  rewrite <- E.
  rewrite (proj2 (num_ltb_ge _ _) (Qcle_refl x)).
  rewrite (proj2 (num_ltb_ge _ _) H).
  now rewrite num_eqb_refl.
Qed.

Lemma interpolate_last (x : Qc) :
  x = pos (last_point l) -> (pos (first_point l) < x)%Qc ->
  _interpolate l x = Ret (Some (last_point l)).
Proof.
  intros E H. rewrite (interpolate_tests l x shaped nonempty).
  rewrite (proj2 (num_ltb_ge _ _) (Qclt_le_weak _ _ H)).
  rewrite (proj2 (num_eqb_neq _ _))
    by (intros E'; symmetry in E'; revert E'; apply Qclt_neq, H).
  rewrite <- E.
  rewrite (proj2 (num_ltb_ge _ _) (Qcle_refl x)).
  now rewrite num_eqb_refl.
Qed.

(** In range, [_interpolate] returns a point: no [None], no exception. *)
Lemma interpolate_in_range (x : Qc) :
  (pos (first_point l) <= x)%Qc -> (x <= pos (last_point l))%Qc ->
  exists p : point, _interpolate l x = Ret (Some p).
Proof.
  intros Hf Hl.
  destruct (Qcle_lt_or_eq _ _ Hf) as [Lf|Ef].
  - destruct (Qcle_lt_or_eq _ _ Hl) as [Ll|El].
    + destruct (interpolate_inside l x shaped nonempty Lf Ll)
        as (i & left & right & _ & _ & _ & _ & _ & E).
      eauto.
    + eauto using interpolate_last.
  - eauto using interpolate_first.
Qed.

End InterpolationResults.




(** C7.  On a map of two-element points with strictly increasing
    positions and at least two points, for a query strictly between the
    first and the last position: a query equal to a knot's position gets
    that knot's point itself; any other query gets the componentwise blend
    of the one pair of neighbours that brackets it, at ratio
    [(x - left.position) / (right.position - left.position)]. *)
Theorem interpolate_between_ends (l : progress_map) (x : Qc) :
  well_shaped l = true -> strictly_increasing l = true -> 2 <= length l ->
  (pos (first_point l) < x)%Qc -> (x < pos (last_point l))%Qc ->
  (forall (k : nat) (knot : point),
      nth_error l k = Some knot -> pos knot = x ->
      _interpolate l x = Ret (Some knot)) /\
  ((forall knot : point, In knot l -> pos knot <> x) ->
   exists (i : nat) (left right : point),
     nth_error l i = Some left /\ nth_error l (S i) = Some right /\
     (pos left < x)%Qc /\ (x < pos right)%Qc /\
     (forall (j : nat) (lj rj : point),
         nth_error l j = Some lj -> nth_error l (S j) = Some rj ->
         (pos lj < x)%Qc -> (x < pos rj)%Qc -> j = i) /\
     let ratio := ((x - pos left) / (pos right - pos left))%Qc in
     _interpolate l x = Ret (Some (blend ratio left right)) /\
     blend ratio left right =
       [ (pos left * (1 - ratio) + pos right * ratio)%Qc;
         (val left * (1 - ratio) + val right * ratio)%Qc ]).
Proof.
  intros W Inc L Lf Ll.
  assert (N : l <> []) by (destruct l; [cbn in L; lia|congruence]).
  destruct (interpolate_inside l x W N Lf Ll)
    as (i & left & right & _ & El & Er & Bl & Br & E).
  pose proof (well_shaped_nth_error l i left W El) as Pl.
  pose proof (well_shaped_nth_error l (S i) right W Er) as Pr.
  split.
  - intros k knot Ek Hk.
    assert (k = S i).
    { destruct (Nat.lt_trichotomy k (S i)) as [H|[H|H]]; [|exact H|];
        exfalso.
      - assert (pos knot <= pos left)%Qc.
        { destruct (Nat.eq_dec k i) as [->|Hne].
          - replace knot with left by congruence. apply Qcle_refl.
          - apply Qclt_le_weak.
            apply (strictly_increasing_nth l Inc k i); [lia|assumption..]. }
        rewrite Hk in H0. exact (Qclt_not_le _ _ Bl H0).
      - pose proof (strictly_increasing_nth l Inc (S i) k right knot H Er Ek)
          as H0.
        rewrite Hk in H0. exact (Qclt_not_le _ _ H0 Br). }
    subst k. assert (knot = right) by congruence. subst knot.
    rewrite E, Hk. f_equal; f_equal.
    replace ((x - pos left) / (x - pos left))%Qc with 1%Qc.
    + now apply blend_one.
    + field. now apply Qcminus_neq_0.
  - intros Hno.
    assert (Br' : (x < pos right)%Qc).
    { destruct (Qcle_lt_or_eq _ _ Br) as [H|H]; [exact H|].
      exfalso. apply (Hno right); [eauto using nth_error_In|congruence]. }
    exists i, left, right. repeat split; try assumption.
    + intros j lj rj Ej Esj Hl Hr.
      destruct (Nat.lt_trichotomy j i) as [H|[H|H]]; [|exact H|]; exfalso.
      * assert (pos rj <= pos left)%Qc.
        { destruct (Nat.eq_dec (S j) i) as [Heq|Hne].
          - rewrite Heq in Esj. replace rj with left by congruence.
            apply Qcle_refl.
          - apply Qclt_le_weak.
            apply (strictly_increasing_nth l Inc (S j) i);
              [lia|assumption..]. }
        exact (Qclt_not_le _ _ (Qclt_trans _ _ _ Bl Hr) H0).
      * assert (pos right <= pos lj)%Qc.
        { destruct (Nat.eq_dec (S i) j) as [Heq|Hne].
          - rewrite Heq in Er. replace lj with right by congruence.
            apply Qcle_refl.
          - apply Qclt_le_weak.
            apply (strictly_increasing_nth l Inc (S i) j);
              [lia|assumption..]. }
        exact (Qclt_not_le _ _ (Qclt_trans _ _ _ Hl Br') H0).
    + now apply blend_pair.
Qed.

Lemma interpolate_between_ends_witness :
  _interpolate map_100 (qf 1 2) = Ret (Some [qf 1 2; qz 50]).
Proof.
  apply (proj1 (interpolate_between_ends map_100 (qf 1 2)
                  eq_refl eq_refl ltac:(simpl; lia) eq_refl eq_refl) 1%nat).
  - reflexivity.
  - reflexivity.
Defined.

Section Outcomes.

Context {A B : Type}.

Lemma mapM_ret (f : A -> res B) (g : A -> B) (l : list A) :
  (forall x, In x l -> f x = Ret (g x)) -> mapM f l = Ret (map g l).
Proof.
  induction l as [|a l IH]; intros H; [reflexivity|].
  cbn. rewrite (H a) by now left. cbn.
  rewrite IH by (intros x I; apply H; now right). reflexivity.
Qed.

(** One element on which [f] raises makes the whole loop raise. *)
Lemma mapM_raise (f : A -> res B) (l : list A) (a : A) :
  In a l -> (exists e, f a = Raise e) -> exists e, mapM f l = Raise e.
Proof.
  induction l as [|b l IH]; intros I R; [contradiction|].
  cbn. destruct I as [->|I].
  - destruct R as [e ->]. now exists e.
  - destruct (f b) as [y|e]; cbn; [|now exists e].
    destruct (IH I R) as [e ->]. now exists e.
Qed.

Lemma bind_raise (c : res A) (k : A -> res B) :
  (forall a, exists e, k a = Raise e) -> exists e, bind c k = Raise e.
Proof. intros H; destruct c as [a|e]; cbn; [apply H|now exists e]. Qed.

End Outcomes.

Section Averages.

Lemma qz_neq_0 (z : Z) : z <> 0%Z -> qz z <> 0%Qc.
Proof.
  intros H E. unfold qz in E. change 0%Qc with (Q2Qc 0) in E.
  apply Q2Qc_eq_iff in E. unfold Qeq in E; cbn in E. lia.
Qed.

Lemma average_nonempty (l : list Qc) : l <> [] -> average l = Ret (mean l).
Proof.
  intros N. unfold average, py_div.
  rewrite (proj2 (num_eqb_neq _ _)); [reflexivity|].
  apply qz_neq_0. destruct l; [congruence|cbn; lia].
Qed.

End Averages.

Section DegenerateScale.

(** A record whose analysed mid-print duration is zero has no scale. *)
Lemma degenerate_record_raises (ph : History.t) :
  History.analysisLastFilamentPrintTime ph
    = History.analysisFirstFilamentPrintTime ph ->
  exists e, (nd <- actual_vs_predicted ph ;; py_div (fst nd) (snd nd)) = Raise e.
Proof.
  intros E. unfold actual_vs_predicted. rewrite E.
  destruct (History.lastFilamentPrintTime ph) as [l|]; cbn; eauto.
  destruct (History.firstFilamentPrintTime ph) as [f|]; cbn; eauto.
  destruct (History.analysisFirstFilamentPrintTime ph) as [af|]; cbn; eauto.
  unfold py_div. replace (af - af)%Qc with 0%Qc by ring.
  rewrite num_eqb_refl. eauto.
Qed.

Lemma degenerate_history_raises (print_history : list History.t)
    (analysis : Analysis.t) (ph : History.t) :
  In ph print_history ->
  History.analysisLastFilamentPrintTime ph
    = History.analysisFirstFilamentPrintTime ph ->
  exists e, compensate_new_progress print_history analysis = Raise e.
Proof.
  intros I E. unfold compensate_new_progress.
  do 5 (apply bind_raise; intros ?).
  destruct (mapM_raise
              (fun ph => nd <- actual_vs_predicted ph ;; py_div (fst nd) (snd nd))
              print_history ph I (degenerate_record_raises ph E)) as [e R].
  unfold print_time_factor. rewrite R. now exists e.
Qed.

End DegenerateScale.

(** C2.  When the history holds a record whose
    [analysisLastFilamentPrintTime] equals its
    [analysisFirstFilamentPrintTime], [compensate_analysis] returns
    normally and leaves [analysis] (its progress map and
    [estimatedPrintTime] included) exactly as it was. *)
Theorem compensate_degenerate_scale (print_history : list History.t)
    (analysis : Analysis.t) (ph : History.t) :
  In ph print_history ->
  History.analysisLastFilamentPrintTime ph
    = History.analysisFirstFilamentPrintTime ph ->
  compensate_analysis (Some print_history) analysis = (analysis, Ret tt).
Proof.
  intros I E.
  destruct (degenerate_history_raises print_history analysis ph I E) as [e R].
  unfold compensate_analysis, mtry.
  destruct print_history as [|h t]; [contradiction|].
  unfold compensate_body, mbind, get, lift. now rewrite R.
Qed.

Section CompensationRewrite.

Lemma interpolate_pair (l : progress_map) (x : Qc) (p : point) :
  well_shaped l = true -> l <> [] ->
  _interpolate l x = Ret (Some p) -> is_pair p = true.
Proof.
  intros W N E.
  destruct (Qclt_le_dec x (pos (first_point l))) as [A|A].
  { rewrite (interpolate_below l W N x A) in E; discriminate. }
  destruct (Qclt_le_dec (pos (last_point l)) x) as [B|B].
  { rewrite (interpolate_above l W N x B) in E; discriminate. }
  destruct (Qcle_lt_or_eq _ _ A) as [Lf|Ef].
  - destruct (Qcle_lt_or_eq _ _ B) as [Ll|El].
    + destruct (interpolate_inside l x W N Lf Ll)
        as (i & left & right & _ & Hl & Hr & _ & _ & E').
      rewrite E' in E. injection E as <-.
      rewrite blend_pair; eauto using well_shaped_nth_error.
    + rewrite (interpolate_last l W N x El Lf) in E. injection E as <-.
      now apply well_shaped_last.
  - rewrite (interpolate_first l W N x (eq_sym Ef) B) in E. injection E as <-.
    now apply well_shaped_first.
Qed.

Lemma non_decreasing_tail (p : point) (l : progress_map) :
  non_decreasing (p :: l) = true -> non_decreasing l = true.
Proof.
  destruct l as [|q l]; [reflexivity|].
  cbn [non_decreasing]. intros H; apply andb_prop in H; tauto.
Qed.

Lemma non_decreasing_head (p : point) (l : progress_map) (q : point) :
  non_decreasing (p :: l) = true -> In q l -> (pos p <= pos q)%Qc.
Proof.
  revert p; induction l as [|r l IH]; intros p H I; [contradiction|].
  cbn [non_decreasing] in H. apply andb_prop in H as [H1 H2].
  apply num_leb_le in H1.
  destruct I as [->|I]; [exact H1|].
  eapply Qcle_trans; [exact H1|]. now apply IH.
Qed.

Lemma non_decreasing_last (l : progress_map) (q : point) :
  non_decreasing l = true -> In q l -> (pos q <= pos (last_point l))%Qc.
Proof.
  induction l as [|p l IH]; intros H I; [contradiction|].
  destruct l as [|r l].
  - destruct I as [->|[]]. apply Qcle_refl.
  - change (last_point (p :: r :: l)) with (last_point (r :: l)).
    destruct I as [->|I].
    + apply (non_decreasing_head q (r :: l)); [exact H|].
      apply last_In; congruence.
    + apply IH; [eapply non_decreasing_tail; eauto|exact I].
Qed.

Lemma non_decreasing_first (l : progress_map) (q : point) :
  non_decreasing l = true -> In q l -> (pos (first_point l) <= pos q)%Qc.
Proof.
  destruct l as [|p l]; intros H I; [contradiction|].
  destruct I as [->|I]; [apply Qcle_refl|].
  now apply (non_decreasing_head p l).
Qed.

Lemma has_position_In (l : progress_map) (x : Qc) :
  has_position l x = true -> exists p, In p l /\ pos p = x.
Proof.
  unfold has_position. rewrite existsb_exists.
  intros (p & I & E). apply num_eqb_eq in E. eauto.
Qed.

Lemma filter_none {A : Type} (f : A -> bool) (l : list A) :
  (forall a, In a l -> f a = false) -> filter f l = [].
Proof.
  induction l as [|a l IH]; intros H; [reflexivity|].
  cbn. rewrite (H a) by now left. apply IH. intros b I; apply H; now right.
Qed.

Variable analysis : Analysis.t.
Variables first_pos last_pos : Qc.
Hypothesis first_key : Analysis.firstFilament analysis = Some first_pos.
Hypothesis last_key : Analysis.lastFilament analysis = Some last_pos.
Variables tail scale cool : Qc.

(** On a sorted map of pairs, [continue] and [break] together keep the
    points from [first_pos] on and below [last_pos]. *)
Lemma compensate_loop_sorted (l : progress_map) :
  well_shaped l = true -> non_decreasing l = true ->
  compensate_loop analysis tail scale cool l =
    Ret (map (rescaled tail scale cool) (filter (kept first_pos last_pos) l)).
Proof.
  induction l as [|p l IH]; intros W S; [reflexivity|].
  assert (Hp : is_pair p = true) by (apply (well_shaped_In (p :: l)); [exact W|now left]).
  assert (W' : well_shaped l = true) by (cbn in W; apply andb_prop in W; tauto).
  pose proof (non_decreasing_tail p l S) as S'.
  cbn [compensate_loop].
  rewrite (getitem_pair_0 p Hp), first_key, last_key; cbn [bind getkey].
  cbn [filter]. unfold kept at 1.
  destruct (num_ltb (pos p) first_pos) eqn:Lt.
  - apply num_ltb_lt in Lt.
    rewrite (proj2 (num_leb_gt _ _) Lt); cbn [andb]. now apply IH.
  - apply num_ltb_ge in Lt. rewrite (proj2 (num_leb_le _ _) Lt); cbn [andb].
    destruct (num_leb last_pos (pos p)) eqn:Ge.
    + apply num_leb_le in Ge. rewrite (proj2 (num_ltb_ge _ _) Ge).
      replace (filter (kept first_pos last_pos) l) with (@nil point);
        [reflexivity|].
      symmetry. apply filter_none. intros q I. unfold kept.
      pose proof (non_decreasing_head p l q S I) as Hq.
      rewrite (proj2 (num_ltb_ge (pos q) last_pos) (Qcle_trans _ _ _ Ge Hq)).
      now rewrite andb_false_r.
    + apply num_leb_gt in Ge. rewrite (proj2 (num_ltb_lt _ _) Ge).
      rewrite (getitem_pair_1 p Hp); cbn [bind].
      rewrite (IH W' S'). reflexivity.
Qed.

End CompensationRewrite.

Section WellFormedHistory.

Ltac open_record ph H :=
  destruct ph as [f l [[o pa [ti|]]|] ts ap [af|] [al|]];
  destruct f, l; cbn in H; try discriminate H; cbn.

Lemma well_formed_heat_up (ph : History.t) :
  well_formed_record ph = true ->
  getkey (History.firstFilamentPrintTime ph) = Ret (spec_heatUp ph).
Proof. intros H; open_record ph H; reflexivity. Qed.

Lemma well_formed_cool_down (ph : History.t) :
  well_formed_record ph = true ->
  (pl <- getkey (History.payload ph) ;;
   t <- getkey (Payload.time pl) ;;
   l <- getkey (History.lastFilamentPrintTime ph) ;;
   Ret (t - l)%Qc) = Ret (spec_coolDown ph).
Proof. intros H; open_record ph H; reflexivity. Qed.

Lemma well_formed_actual_vs_predicted (ph : History.t) :
  well_formed_record ph = true ->
  actual_vs_predicted ph =
    Ret ((value (History.lastFilamentPrintTime ph)
          - value (History.firstFilamentPrintTime ph))%Qc,
         (value (History.analysisLastFilamentPrintTime ph)
          - value (History.analysisFirstFilamentPrintTime ph))%Qc).
Proof. intros H; open_record ph H; reflexivity. Qed.

Lemma well_formed_scale (ph : History.t) :
  well_formed_record ph = true ->
  (nd <- actual_vs_predicted ph ;; py_div (fst nd) (snd nd))
    = Ret (spec_scale ph).
Proof.
  intros H. rewrite (well_formed_actual_vs_predicted ph H); cbn [bind fst snd].
  unfold well_formed_record in H.
  apply andb_prop in H as [_ H]. apply negb_true_iff in H.
  unfold py_div. now rewrite H.
Qed.

Variable print_history : list History.t.
Hypothesis some_history : print_history <> [].
Hypothesis well_formed : forallb well_formed_record print_history = true.

Lemma well_formed_In (ph : History.t) :
  In ph print_history -> well_formed_record ph = true.
Proof. revert ph. now apply forallb_forall. Qed.

Lemma map_nonempty {A B : Type} (g : A -> B) (l : list A) :
  l <> [] -> map g l <> [].
Proof. destruct l; [congruence|discriminate]. Qed.

(** The three lists of per-record quantities on a well-formed history. *)
Lemma heat_up_times_spec :
  heat_up_times print_history = Ret (map spec_heatUp print_history).
Proof.
  apply mapM_ret. intros ph I; apply well_formed_heat_up, well_formed_In, I.
Qed.

Lemma cool_down_times_spec :
  cool_down_times print_history = Ret (map spec_coolDown print_history).
Proof.
  apply (mapM_ret _ spec_coolDown).
  intros ph I; apply well_formed_cool_down, well_formed_In, I.
Qed.

Lemma print_time_factor_spec :
  print_time_factor print_history = Ret (map spec_scale print_history).
Proof.
  apply (mapM_ret _ spec_scale).
  intros ph I; apply well_formed_scale, well_formed_In, I.
Qed.

Lemma average_map {A : Type} (g : A -> Qc) (l : list A) :
  l <> [] -> average (map g l) = Ret (mean (map g l)).
Proof. intros N; apply average_nonempty, map_nonempty, N. Qed.

(** With the keys of [analysis] in place and a sorted map of pairs that
    has a point at each of the two filament positions, the first of them
    strictly below the second, [new_progress] is the map of the
    specification. *)
Lemma compensate_new_progress_spec (analysis : Analysis.t) (l : progress_map)
    (first_pos last_pos : Qc) :
  Analysis.progress analysis = Some l ->
  Analysis.firstFilament analysis = Some first_pos ->
  Analysis.lastFilament analysis = Some last_pos ->
  well_shaped l = true -> non_decreasing l = true ->
  has_position l first_pos = true -> has_position l last_pos = true ->
  (first_pos < last_pos)%Qc ->
  exists tail_point : point,
    _interpolate l last_pos = Ret (Some tail_point) /\
    compensate_new_progress print_history analysis =
      Ret (spec_compensated l first_pos last_pos (val tail_point)
             (mean (map spec_heatUp print_history))
             (mean (map spec_scale print_history))
             (mean (map spec_coolDown print_history))).
Proof.
  intros Kp Kf Kl W S Hf Hl Lt.
  destruct (has_position_In l _ Hf) as (pf & If & Ef).
  destruct (has_position_In l _ Hl) as (pl & Il & El).
  assert (N : l <> []) by (destruct l; [contradiction|congruence]).
  destruct (interpolate_in_range l W N last_pos) as [tp Et].
  { rewrite <- El. now apply non_decreasing_first. }
  { rewrite <- El. now apply non_decreasing_last. }
  pose proof (interpolate_pair l last_pos tp W N Et) as Ptp.
  exists tp; split; [exact Et|].
  unfold compensate_new_progress.
  rewrite heat_up_times_spec; cbn [bind].
  rewrite (average_map _ _ some_history); cbn [bind].
  rewrite cool_down_times_spec; cbn [bind].
  rewrite (average_map _ _ some_history); cbn [bind].
  rewrite (mapM_ret actual_vs_predicted _ print_history
             (fun ph I => well_formed_actual_vs_predicted ph (well_formed_In ph I)));
    cbn [bind].
  rewrite print_time_factor_spec; cbn [bind].
  rewrite (average_map _ _ some_history); cbn [bind].
  rewrite Kp, Kl; cbn [bind getkey]. rewrite Et; cbn [bind].
  rewrite (getitem_pair_1 tp Ptp); cbn [bind].
  rewrite (compensate_loop_sorted analysis first_pos last_pos Kf Kl _ _ _ l W S);
    cbn [bind].
  assert (Kept : In pf (filter (kept first_pos last_pos) l)).
  { apply filter_In; split; [exact If|]. unfold kept. rewrite Ef.
    rewrite (proj2 (num_leb_le _ _) (Qcle_refl _)).
    now rewrite (proj2 (num_ltb_lt _ _) Lt). }
  unfold spec_compensated.
  destruct (filter (kept first_pos last_pos) l) as [|k ks]; [contradiction|].
  reflexivity.
Qed.

End WellFormedHistory.

(** C1 (as amended).  For an analysis whose progress map is made of
    pairs with non-decreasing positions and has a point at
    [firstFilament] and a point at [lastFilament], with
    [firstFilament < lastFilament], and for a non-empty history of
    well-formed records: [compensate_analysis] returns normally and has
    replaced the map by the rescaled points of [firstFilament <= position
    < lastFilament], with [(0, firstKept + avgHeatUp)] in front and
    [(1, 0)] behind, where the tail is the value [_interpolate] gives at
    [lastFilament] on the original map; [estimatedPrintTime] is the value
    of the new first point; no other key changes. *)
Theorem compensate_rewrites_map (print_history : list History.t)
    (analysis : Analysis.t) (l : progress_map) (first_pos last_pos : Qc) :
  print_history <> [] ->
  forallb well_formed_record print_history = true ->
  Analysis.progress analysis = Some l ->
  Analysis.firstFilament analysis = Some first_pos ->
  Analysis.lastFilament analysis = Some last_pos ->
  well_shaped l = true -> non_decreasing l = true ->
  has_position l first_pos = true -> has_position l last_pos = true ->
  (first_pos < last_pos)%Qc ->
  exists tail_point : point,
    _interpolate l last_pos = Ret (Some tail_point) /\
    let new_map :=
      spec_compensated l first_pos last_pos (val tail_point)
        (mean (map spec_heatUp print_history))
        (mean (map spec_scale print_history))
        (mean (map spec_coolDown print_history)) in
    compensate_analysis (Some print_history) analysis =
      (Analysis.set_estimatedPrintTime (val (first_point new_map))
         (Analysis.set_progress new_map analysis),
       Ret tt).
Proof.
  intros N WF Kp Kf Kl W S Hf Hl Lt.
  destruct (compensate_new_progress_spec print_history N WF analysis l
              first_pos last_pos Kp Kf Kl W S Hf Hl Lt) as (tp & Et & E).
  exists tp; split; [exact Et|].
  cbv zeta. unfold compensate_analysis, mtry.
  destruct print_history as [|h t]; [congruence|].
  unfold compensate_body, mbind, get, lift, modify. rewrite E.
  reflexivity.
Qed.

Lemma compensate_rewrites_map_witness :
  exists tail_point : point,
    _interpolate map_100 (qf 1 2) = Ret (Some tail_point) /\
    let new_map :=
      spec_compensated map_100 (qz 0) (qf 1 2) (val tail_point)
        (mean (map spec_heatUp [record_good]))
        (mean (map spec_scale [record_good]))
        (mean (map spec_coolDown [record_good])) in
    compensate_analysis (Some [record_good]) (analysis_100 (qz 0) (qf 1 2)) =
      (Analysis.set_estimatedPrintTime (val (first_point new_map))
         (Analysis.set_progress new_map (analysis_100 (qz 0) (qf 1 2))),
       Ret tt).
Proof.
  apply (compensate_rewrites_map [record_good] (analysis_100 (qz 0) (qf 1 2))
           map_100 (qz 0) (qf 1 2)).
  - discriminate.
  - reflexivity.
  - reflexivity.
  - reflexivity.
  - reflexivity.
  - reflexivity.
  - reflexivity.
  - reflexivity.
  - reflexivity.
  - reflexivity.
Defined.

(** C1, as stated, fails when the two filament positions coincide: no
    point satisfies [first <= position < last], [new_progress[0]] raises
    [IndexError], and the handler leaves the three-point map in place,
    whereas a map with a point in front of the kept ones and [(1, 0)]
    behind them would have two points here. *)
Lemma compensate_first_equals_last :
  let analysis := analysis_100 (qf 1 2) (qf 1 2) in
  [record_good] <> [] /\
  forallb well_formed_record [record_good] = true /\
  has_position map_100 (qf 1 2) = true /\
  well_shaped map_100 = true /\ strictly_increasing map_100 = true /\
  compensate_analysis (Some [record_good]) analysis = (analysis, Ret tt) /\
  forall tail heat scale cool : Qc,
    Analysis.progress (fst (compensate_analysis (Some [record_good]) analysis))
    <> Some (spec_compensated map_100 (qf 1 2) (qf 1 2) tail heat scale cool).
Proof.
  cbv zeta.
  assert (E : compensate_analysis (Some [record_good])
                (analysis_100 (qf 1 2) (qf 1 2))
              = (analysis_100 (qf 1 2) (qf 1 2), Ret tt))
    by (vm_compute; reflexivity).
  split; [discriminate|].
  do 4 (split; [reflexivity|]).
  split; [exact E|].
  intros tail heat scale cool. rewrite E. cbn [fst analysis_100 Analysis.progress].
  intros H.
  apply (f_equal (fun o => match o with Some m => length m | None => 0 end)) in H.
  vm_compute in H. discriminate.
Qed.

Lemma compensate_degenerate_scale_witness :
  compensate_analysis (Some [record_good; record_degenerate])
    (analysis_100 (qz 0) (qf 1 2))
  = (analysis_100 (qz 0) (qf 1 2), Ret tt).
Proof.
  apply (compensate_degenerate_scale _ _ record_degenerate).
  - right; left; reflexivity.
  - reflexivity.
Defined.

Section Ticks.

Variable file_manager : FileManager.

(** [estimate] is [_genius_estimate] with its exceptions and its [None]
    turned into the default result. *)
Lemma estimate_outcome (default_result : option estimate_t)
    (progress printTime : Qc) (self : Estimator) :
  estimate file_manager default_result progress printTime self =
    (fst (_genius_estimate file_manager progress printTime self),
     Ret match snd (_genius_estimate file_manager progress printTime self) with
         | Ret (Some r) => Some r
         | Ret None => default_result
         | Raise _ => default_result
         end).
Proof.
  unfold estimate, mtry, mbind, mret.
  destruct (_genius_estimate file_manager progress printTime self)
    as [self' [[r|]|e]]; reflexivity.
Qed.

Lemma run_outcomes (ticks : list Tick) (self : Estimator) :
  Forall (fun r => exists v, r = Ret v) (snd (run file_manager ticks self)).
Proof.
  revert self; induction ticks as [|t ticks IH]; intros self; cbn.
  - constructor.
  - rewrite estimate_outcome.
    specialize (IH (fst (_genius_estimate file_manager (tick_progress t)
                           (tick_printTime t) self))).
    destruct (run file_manager ticks _) as [s rs]; cbn in *.
    constructor; eauto.
Qed.

End Ticks.

(** C3.  Whatever the file manager, the state and the tick,
    [estimate] returns normally: when [_genius_estimate] raises (or
    returns [None]) the result is the default result, otherwise it is
    the genius result; so every tick of every job produces a result. *)
Theorem estimate_never_raises (file_manager : FileManager)
    (default_result : option estimate_t) (progress printTime : Qc)
    (self : Estimator) :
  (exists (self' : Estimator) (result : option estimate_t),
      estimate file_manager default_result progress printTime self
        = (self', Ret result)) /\
  (forall e : exn,
      snd (_genius_estimate file_manager progress printTime self) = Raise e ->
      snd (estimate file_manager default_result progress printTime self)
        = Ret default_result) /\
  (forall r : estimate_t,
      snd (_genius_estimate file_manager progress printTime self) = Ret (Some r) ->
      snd (estimate file_manager default_result progress printTime self)
        = Ret (Some r)) /\
  (forall ticks : list Tick,
      Forall (fun r => exists v, r = Ret v)
             (snd (run file_manager ticks self))).
Proof.
  rewrite estimate_outcome. repeat split.
  - eauto.
  - intros e E; cbn [snd]; now rewrite E.
  - intros r E; cbn [snd]; now rewrite E.
  - intros ticks; apply run_outcomes.
Qed.

Lemma estimate_never_raises_witness :
  snd (_genius_estimate files_without_first (qz 0) (qz 0) job_100)
    = Raise KeyError /\
  snd (estimate files_without_first (Some (Some (qz 7), None)) (qz 0) (qz 0)
         job_100)
    = Ret (Some (Some (qz 7), None)).
Proof.
  split.
  - reflexivity.
  - apply (proj1 (proj2 (estimate_never_raises files_without_first
                           (Some (Some (qz 7), None)) (qz 0) (qz 0) job_100))
             KeyError).
    reflexivity.
Defined.

Section LastFilamentPrintTime.

Variable file_manager : FileManager.

(** One tick: the stored value becomes the tick's elapsed time when the
    tick is one that stores, and stays what it was otherwise, whether
    [_genius_estimate] returns or raises. *)
Lemma genius_estimate_stored_last (progress printTime : Qc) (self : Estimator) :
  stored_last (fst (_genius_estimate file_manager progress printTime self)) =
    if stores_last file_manager self progress
    then Some printTime
    else stored_last self.
Proof.
  unfold stores_last, cursor_target, _genius_estimate, effective_progress,
    stored_last.
  unfold mbind at 1. unfold get at 1. unfold mbind at 1. unfold modify at 1.
  cbn [_origin _path set_called_genius_yet _current_progress_index].
  destruct (file_manager (_origin self) (_path self)) as [metadata|];
    [|reflexivity].
  destruct (Metadata.analysis metadata) as [an|]; [|reflexivity].
  destruct (Analysis.progress an) as [filepos_to_progress|]; [|reflexivity].
  unfold mbind at 1, lift at 1.
  destruct (advance _ _ _) as [i|e]; [|reflexivity].
  destruct (i <? 0)%Z eqn:Neg.
  { apply Z.ltb_lt in Neg. destruct (Z.leb_spec 0 i); [lia|reflexivity]. }
  apply Z.ltb_ge in Neg. destruct (Z.leb_spec 0 i); [|lia].
  destruct (i =? _current_progress_index self)%Z eqn:Same.
  { unfold mbind, mret, get, lift; cbn.
    destruct (_current_total_printTime self); reflexivity. }
  cbn [andb negb].
  unfold new_estimates, mbind, mret, get, lift, modify; cbn.
  destruct (Analysis.firstFilament an) as [ff|]; cbn; [|reflexivity].
  destruct (Analysis.lastFilament an) as [lf|];
    destruct (History.lastFilamentPrintTime (_current_history self))
      as [old|] eqn:Stored;
    destruct (num_ltb ff _ && _); cbn;
    repeat match goal with
           | |- _ => rewrite Stored; cbn
           | |- context [num_leb ?a ?b] => destruct (num_leb a b); cbn
           | |- context [_interpolate ?a ?b] =>
               destruct (_interpolate a b) as [[[|? ?]|]|?]; cbn
           | |- context [getitem ?p 1] => destruct (getitem p 1); cbn
           end;
    reflexivity.
Qed.

Lemma estimate_stored_last (default_result : option estimate_t)
    (progress printTime : Qc) (self : Estimator) :
  stored_last (fst (estimate file_manager default_result progress printTime self)) =
    if stores_last file_manager self progress
    then Some printTime
    else stored_last self.
Proof. rewrite estimate_outcome. apply genius_estimate_stored_last. Qed.

Lemma after_cons (t : Tick) (ticks : list Tick) (self : Estimator) :
  after file_manager (t :: ticks) self =
    after file_manager ticks
      (fst (estimate file_manager (tick_default t) (tick_progress t)
              (tick_printTime t) self)).
Proof.
  unfold after; cbn.
  destruct (estimate file_manager _ _ _ self) as [s1 r]. cbn [fst].
  destruct (run file_manager ticks s1) as [s2 rs]. reflexivity.
Qed.

Lemma after_app (ticks1 ticks2 : list Tick) (self : Estimator) :
  after file_manager (ticks1 ++ ticks2) self =
    after file_manager ticks2 (after file_manager ticks1 self).
Proof.
  revert self; induction ticks1 as [|t ticks1 IH]; intros self;
    [reflexivity|].
  cbn [app]. now rewrite !after_cons, IH.
Qed.

(** Ticks that do not store leave the stored value alone. *)
Lemma none_stores_last_keeps (ticks : list Tick) (self : Estimator) :
  none_stores_last file_manager ticks self = true ->
  stored_last (after file_manager ticks self) = stored_last self.
Proof.
  revert self; induction ticks as [|t ticks IH]; intros self H;
    [reflexivity|].
  cbn [none_stores_last] in H. apply andb_prop in H as [H1 H2].
  apply negb_true_iff in H1.
  rewrite after_cons. rewrite after_cons in H2. change (after file_manager [] ?s) with s in H2.
  rewrite (IH _ H2), estimate_stored_last, H1. reflexivity.
Qed.

End LastFilamentPrintTime.

(** C4 (as amended).  A tick stores its elapsed time as
    [lastFilamentPrintTime] exactly when the cursor index changes at that
    tick and either nothing is stored yet or the progress the tick works
    with is at most [lastFilament]; every other tick leaves the stored
    value as it was.  So after a job's ticks the stored value is the
    elapsed time of the last tick that stored. *)
Theorem last_filament_print_time (file_manager : FileManager) (self : Estimator) :
  (forall (t : Tick),
      stored_last (after file_manager [t] self) =
        if stores_last file_manager self (tick_progress t)
        then Some (tick_printTime t)
        else stored_last self) /\
  (forall (before later : list Tick) (t : Tick),
      stores_last file_manager (after file_manager before self)
        (tick_progress t) = true ->
      none_stores_last file_manager later
        (after file_manager (before ++ [t]) self) = true ->
      stored_last (after file_manager (before ++ t :: later) self)
        = Some (tick_printTime t)).
Proof.
  split.
  - intros t. rewrite after_cons. apply estimate_stored_last.
  - intros before later t Hs Hq.
    replace (before ++ t :: later) with ((before ++ [t]) ++ later)
      by now rewrite <- app_assoc.
    rewrite after_app, (none_stores_last_keeps _ _ _ Hq).
    rewrite after_app, after_cons.
    change (after file_manager [] ?s) with s.
    now rewrite estimate_stored_last, Hs.
Qed.

Lemma last_filament_print_time_witness :
  stored_last
    (after files_100
       ([tick (qf 1 20) (qz 5)] ++ tick (qf 3 5) (qz 300)
          :: [tick (qf 7 10) (qz 400)])
       job_100)
  = Some (tick_printTime (tick (qf 3 5) (qz 300))).
Proof.
  apply (proj2 (last_filament_print_time files_100 job_100)).
  - vm_compute; reflexivity.
  - vm_compute; reflexivity.
Defined.

(** C4, as stated, fails at a tick that leaves the cursor where it is:
    the first tick (taken as progress 0, elapsed 5 s) puts the cursor on
    index 0 and stores 5; the second tick, progress 0.2 <= 0.9 at 10 s,
    does not move the cursor and nothing is stored for it. *)
Lemma tick_without_cursor_change_not_stored :
  let self := after files_100 [tick (qf 1 20) (qz 5); tick (qf 1 5) (qz 10)]
                job_100 in
  Analysis.lastFilament (analysis_100 (qf 1 10) (qf 9 10)) = Some (qf 9 10) /\
  (qf 1 5 <= qf 9 10)%Qc /\
  stored_last self = Some (qz 5) /\
  stored_last self <> Some (qz 10).
Proof.
  cbv zeta.
  assert (E : stored_last
                (after files_100 [tick (qf 1 20) (qz 5); tick (qf 1 5) (qz 10)]
                   job_100) = Some (qz 5)) by (vm_compute; reflexivity).
  split; [reflexivity|].
  split; [vm_compute; discriminate|].
  split; [exact E|].
  rewrite E. intros H. injection H as H. discriminate H.
Qed.

(** C10.  The remaining time is not clamped at zero: after a first tick
    has set the anchor to 100 s, a tick at progress 0.2 (the cursor stays
    on index 0) with 150 s elapsed reports [anchor - elapsed], which is
    negative. *)
Theorem remaining_time_not_clamped :
  exists (self : Estimator) (anchor progress elapsed : Qc),
    self = after files_100 [tick (qz 0) (qz 0)] job_100 /\
    _current_total_printTime self = Some anchor /\
    cursor_moves files_100 self progress = false /\
    (anchor < elapsed)%Qc /\
    snd (estimate files_100 (Some (None, None)) progress elapsed self)
      = Ret (Some (Some (anchor - elapsed)%Qc, Some "genius"%string)) /\
    (anchor - elapsed < 0)%Qc.
Proof.
  exists (after files_100 [tick (qz 0) (qz 0)] job_100),
    (qz 100), (qf 1 5), (qz 150).
  split; [reflexivity|].
  split; [vm_compute; reflexivity|].
  split; [vm_compute; reflexivity|].
  split; [vm_compute; reflexivity|].
  split; [vm_compute; reflexivity|].
  vm_compute; reflexivity.
Qed.

Section Builder.

Lemma scan_line_progress (st : Scan.t) (s : Sample.t) :
  Scan.progress (scan_line st s)
    = Scan.progress st ++ [[Sample.filepos s; Sample.time s]].
Proof. reflexivity. Qed.

Lemma fold_scan_progress (samples : list Sample.t) (st : Scan.t) :
  Scan.progress (fold_left scan_line samples st)
    = Scan.progress st
      ++ map (fun s => [Sample.filepos s; Sample.time s]) samples.
Proof.
  revert st; induction samples as [|s samples IH]; intros st; cbn.
  - now rewrite app_nil_r.
  - rewrite IH, scan_line_progress, <- app_assoc. reflexivity.
Qed.

Lemma scan_progress (samples : list Sample.t) :
  Scan.progress (scan samples)
    = map (fun s => [Sample.filepos s; Sample.time s]) samples.
Proof. unfold scan. now rewrite fold_scan_progress. Qed.

(** [first_filament] and [last_filament] are positions of samples. *)
Lemma fold_scan_first (samples : list Sample.t) (st : Scan.t) (p : Qc) :
  Scan.first_filament (fold_left scan_line samples st) = Some p ->
  Scan.first_filament st = Some p \/
  exists s, In s samples /\ Sample.filepos s = p.
Proof.
  revert st; induction samples as [|s samples IH]; intros st H; cbn in H.
  - now left.
  - destruct (IH _ H) as [E|(s' & I & E)].
    + unfold scan_line in E; cbn in E.
      destruct (num_ltb 0 (Sample.filament s) && falsy (Scan.first_filament st)).
      * right. exists s. split; [now left|congruence].
      * now left.
    + right. exists s'. split; [now right|exact E].
Qed.

Lemma fold_scan_last (samples : list Sample.t) (st : Scan.t) (p : Qc) :
  Scan.last_filament (fold_left scan_line samples st) = Some p ->
  Scan.last_filament st = Some p \/
  exists s, In s samples /\ Sample.filepos s = p.
Proof.
  revert st; induction samples as [|s samples IH]; intros st H; cbn in H.
  - now left.
  - destruct (IH _ H) as [E|(s' & I & E)].
    + unfold scan_line in E; cbn in E.
      destruct (falsy (Scan.max_filament st) || _).
      * right. exists s. split; [now left|congruence].
      * now left.
    + right. exists s'. split; [now right|exact E].
Qed.

Variables first_filament last_filament : option Qc.
Variable total_time : Qc.

(** The second loop, on the entries the first loop made, takes the samples
    that are more than 60 s after the one taken before, or at one of the
    two filament positions. *)
Lemma emit_selected (samples : list Sample.t) (most_recent_progress : option Qc) :
  emit first_filament last_filament total_time most_recent_progress
       (map (fun s => [Sample.filepos s; Sample.time s]) samples)
  = Ret (map (emitted_point total_time)
           (selected more_than_60 first_filament last_filament
              most_recent_progress samples)).
Proof.
  revert most_recent_progress.
  induction samples as [|s samples IH]; intros recent; [reflexivity|].
  cbn [map emit selected].
  change (getitem [Sample.filepos s; Sample.time s] 1) with (Ret (Sample.time s)).
  change (getitem [Sample.filepos s; Sample.time s] 0) with (Ret (Sample.filepos s)).
  cbn [bind]. fold (more_than_60 recent (Sample.time s)).
  destruct (more_than_60 recent (Sample.time s)
            || eq_opt (Sample.filepos s) first_filament
            || eq_opt (Sample.filepos s) last_filament).
  - rewrite IH. reflexivity.
  - apply IH.
Qed.

(** A sample at one of the two filament positions is always taken. *)
Lemma selected_at_position (due : option Qc -> Qc -> bool)
    (samples : list Sample.t) (since : option Qc) (s : Sample.t) :
  In s samples ->
  eq_opt (Sample.filepos s) first_filament
  || eq_opt (Sample.filepos s) last_filament = true ->
  In s (selected due first_filament last_filament since samples).
Proof.
  revert since; induction samples as [|a samples IH]; intros since I H;
    [contradiction|].
  cbn [selected]. destruct I as [->|I].
  - rewrite <- orb_assoc, H, orb_true_r. now left.
  - destruct (due since (Sample.time a) || _ || _); [right|]; now apply IH.
Qed.

End Builder.

Section BuilderOutput.

Variable samples : list Sample.t.
Hypothesis some_samples : samples <> [].

Lemma total_time_of_trace :
  (last_entry <- getitem (Scan.progress (scan samples)) (-1) ;;
   getitem last_entry 1) = Ret (final_time samples).
Proof.
  rewrite scan_progress.
  destruct (exists_last some_samples) as [front [s ->]].
  rewrite (@getitem_last point _ [] []) by (rewrite map_app; now destruct (map _ front)).
  unfold final_time. rewrite !map_app; cbn [map]. rewrite !last_last.
  reflexivity.
Qed.

Lemma main_result :
  main samples =
    Ret {| Result.firstFilament := Scan.first_filament (scan samples);
           Result.lastFilament := Scan.last_filament (scan samples);
           Result.progress :=
             [[qz 0; final_time samples]]
               ++ map (emitted_point (final_time samples))
                    (selected more_than_60
                       (Scan.first_filament (scan samples))
                       (Scan.last_filament (scan samples)) None samples)
               ++ [[qz 1; qz 0]];
           Result.estimatedPrintTime := final_time samples |}.
Proof.
  unfold main.
  pose proof total_time_of_trace as T.
  destruct (getitem (Scan.progress (scan samples)) (-1)) as [last_entry|e];
    cbn [bind] in T |- *; [|discriminate].
  rewrite T; cbn [bind].
  rewrite scan_progress at 1. rewrite emit_selected. reflexivity.
Qed.

Lemma position_emitted (s : Sample.t) (p : Qc) :
  In s samples -> Sample.filepos s = p ->
  eq_opt (Sample.filepos s) (Scan.first_filament (scan samples))
  || eq_opt (Sample.filepos s) (Scan.last_filament (scan samples)) = true ->
  has_position
    ([[qz 0; final_time samples]]
       ++ map (emitted_point (final_time samples))
            (selected more_than_60
               (Scan.first_filament (scan samples))
               (Scan.last_filament (scan samples)) None samples)
       ++ [[qz 1; qz 0]]) p = true.
Proof.
  intros I E H. unfold has_position. apply existsb_exists.
  exists (emitted_point (final_time samples) s). split.
  - apply in_or_app; right. apply in_or_app; left.
    apply in_map. now apply selected_at_position.
  - cbn. rewrite E. apply num_eqb_refl.
Qed.

End BuilderOutput.

(** [fadd] gives the sums of the library's binary64 addition: at
    [0.1 + 60], at a tie ([2^53 + 1], which stays [2^53], and [2^53 + 3],
    which goes up), in the subnormal range ([2^-1074 + 2^-1074]), at a
    cancellation ([60.1 - 60]) and at an overflow (the largest double
    twice). *)
Lemma fadd_as_the_library_adds :
  sums_agree (SpecFloat.S754_finite false 7205759403792794 (-56))
             (SpecFloat.S754_finite false 8444249301319680 (-47)) = true /\
  sums_agree (SpecFloat.S754_finite false 4503599627370496 1)
             (SpecFloat.S754_finite false 4503599627370496 (-52)) = true /\
  sums_agree (SpecFloat.S754_finite false 4503599627370496 1)
             (SpecFloat.S754_finite false 6755399441055744 (-51)) = true /\
  sums_agree (SpecFloat.S754_finite false 1 (-1074))
             (SpecFloat.S754_finite false 1 (-1074)) = true /\
  sums_agree (SpecFloat.S754_finite false 8458323050155213 (-47))
             (SpecFloat.S754_finite true 8444249301319680 (-47)) = true /\
  sums_agree (SpecFloat.S754_finite false 9007199254740991 971)
             (SpecFloat.S754_finite false 9007199254740991 971) = true.
Proof. repeat split; vm_compute; reflexivity. Qed.

(** The test of the second loop follows the float sum, not the exact
    one: the doubles of 0.1 and 60.1 are more than 60 apart, yet
    [0.1 + 60] rounds to the double of 60.1 and the sample at 60.1 is not
    taken, which leaves the one at 61 to be taken. *)
Lemma sum_rounded_as_binary64 :
  (double_0_1 + qz 60 < double_60_1)%Qc /\
  binary64_ltb (fadd double_0_1 (qz 60)) double_60_1 = false /\
  binary64_ltb (fadd double_0_1 (qz 60)) (qz 61) = true /\
  exists r : Result.t,
    main trace_rounded = Ret r /\
    has_position (Result.progress r) (qf 1 2) = false /\
    has_position (Result.progress r) (qf 3 4) = true.
Proof.
  split; [reflexivity|]. split; [vm_compute; reflexivity|].
  split; [vm_compute; reflexivity|].
  eexists. split; [apply (main_result trace_rounded); discriminate|].
  cbn [Result.progress]. split; vm_compute; reflexivity.
Qed.

(** C5 (as amended).  For every trace with at least one sample, [main]
    returns a map that begins with [(0, totalTime)] and ends with
    [(1, 0)]; between them it has the point
    [(position, totalTime - elapsedTime)] of exactly those samples that
    come more than 60 s after the sample emitted before them (their
    elapsed time is above the float sum of that sample's elapsed time and
    60; the first sample always is taken), or whose position is
    [firstFilament] or [lastFilament]; so each of the two filament
    positions is the position of a point of the map. *)
Theorem builder_output (samples : list Sample.t) :
  samples <> [] ->
  exists r : Result.t,
    main samples = Ret r /\
    Result.estimatedPrintTime r = final_time samples /\
    Result.progress r =
      [qz 0; final_time samples]
        :: map (emitted_point (final_time samples))
             (selected more_than_60 (Result.firstFilament r)
                (Result.lastFilament r) None samples)
        ++ [[qz 1; qz 0]] /\
    (forall p : Qc,
        Result.firstFilament r = Some p ->
        has_position (Result.progress r) p = true) /\
    (forall p : Qc,
        Result.lastFilament r = Some p ->
        has_position (Result.progress r) p = true).
Proof.
  intros N. eexists. split; [apply (main_result samples N)|].
  cbn [Result.estimatedPrintTime Result.progress Result.firstFilament
         Result.lastFilament].
  repeat split.
  - intros p E.
    destruct (fold_scan_first samples Scan.start p E) as [H|(s & I & Es)];
      [discriminate|].
    apply (position_emitted samples s p I Es).
    rewrite E; cbn [eq_opt]. rewrite Es, num_eqb_refl. reflexivity.
  - intros p E.
    destruct (fold_scan_last samples Scan.start p E) as [H|(s & I & Es)];
      [discriminate|].
    apply (position_emitted samples s p I Es).
    rewrite E; cbn [eq_opt]. rewrite Es, num_eqb_refl. apply orb_true_r.
Qed.

Lemma builder_output_witness :
  exists r : Result.t,
    main trace_60 = Ret r /\
    Result.estimatedPrintTime r = final_time trace_60 /\
    Result.progress r =
      [qz 0; final_time trace_60]
        :: map (emitted_point (final_time trace_60))
             (selected more_than_60 (Result.firstFilament r)
                (Result.lastFilament r) None trace_60)
        ++ [[qz 1; qz 0]] /\
    (forall p : Qc,
        Result.firstFilament r = Some p ->
        has_position (Result.progress r) p = true) /\
    (forall p : Qc,
        Result.lastFilament r = Some p ->
        has_position (Result.progress r) p = true).
Proof.
  apply (builder_output trace_60). discriminate.
Defined.

(** C5, as stated, fails at a sample exactly 60 s after the emitted one
    before it: the test is [most_recent_progress + 60 < time], so the
    sample at 60 s (position 0.2, not a filament position) is left out,
    whereas "at least 60 seconds" would take it. *)
Lemma sample_at_60_seconds_not_emitted :
  exists r : Result.t,
    main trace_60 = Ret r /\
    Result.firstFilament r = Some (qf 1 10) /\
    Result.lastFilament r = Some (qf 1 10) /\
    In (sample (qf 1 5) (qz 1) (qz 60))
       (selected at_least_60 (Result.firstFilament r) (Result.lastFilament r)
          None trace_60) /\
    has_position (Result.progress r) (qf 1 5) = false /\
    Result.progress r <>
      [qz 0; final_time trace_60]
        :: map (emitted_point (final_time trace_60))
             (selected at_least_60 (Result.firstFilament r)
                (Result.lastFilament r) None trace_60)
        ++ [[qz 1; qz 0]].
Proof.
  eexists. split; [apply (main_result trace_60); discriminate|].
  cbn [Result.estimatedPrintTime Result.progress Result.firstFilament
         Result.lastFilament].
  split; [vm_compute; reflexivity|].
  split; [vm_compute; reflexivity|].
  split; [vm_compute; right; left; reflexivity|].
  split; [vm_compute; reflexivity|].
  intros H. apply (f_equal (fun m => has_position m (qf 1 5))) in H.
  vm_compute in H. discriminate.
Qed.

Section FirstFilament.

(** Where no extruding sample sits at position 0, the first loop finds
    the position of the first sample with filament above zero. *)
Lemma fold_scan_first_filament (samples : list Sample.t) (st : Scan.t) :
  (forall s, In s samples ->
     (0 < Sample.filament s)%Qc -> Sample.filepos s <> 0%Qc) ->
  Scan.first_filament (fold_left scan_line samples st) =
    if falsy (Scan.first_filament st)
    then match spec_firstFilamentPos samples with
         | Some p => Some p
         | None => Scan.first_filament st
         end
    else Scan.first_filament st.
Proof.
  revert st; induction samples as [|s samples IH]; intros st H.
  - cbn. now destruct (falsy _).
  - cbn [fold_left]. rewrite IH by (intros s' I; apply H; now right).
    unfold spec_firstFilamentPos; cbn [find scan_line Scan.first_filament].
    destruct (num_ltb 0 (Sample.filament s)) eqn:Pos; cbn [andb].
    + destruct (falsy (Scan.first_filament st)) eqn:F; [|now rewrite F].
      cbn [option_map falsy].
      apply num_ltb_lt in Pos.
      now rewrite (proj2 (num_eqb_neq _ _) (H s (or_introl eq_refl) Pos)).
    + reflexivity.
Qed.

Lemma scan_first_filament (samples : list Sample.t) :
  (forall s, In s samples ->
     (0 < Sample.filament s)%Qc -> Sample.filepos s <> 0%Qc) ->
  Scan.first_filament (scan samples) = spec_firstFilamentPos samples.
Proof.
  intros H. unfold scan. rewrite (fold_scan_first_filament samples _ H).
  cbn. now destruct (spec_firstFilamentPos samples).
Qed.

End FirstFilament.

(** C6.  The code at a trace whose first extruding sample is at position
    0: [not first_filament] is true of the stored [0.0] as it is of
    [None], so the second extruding sample overwrites it, and
    [firstFilament] is 0.5 where the first sample with filament above
    zero is at position 0. *)
Theorem first_filament_at_position_0_overwritten :
  exists r : Result.t,
    main trace_from_0 = Ret r /\
    spec_firstFilamentPos trace_from_0 = Some (qz 0) /\
    Result.firstFilament r = Some (qf 1 2) /\
    Result.firstFilament r <> spec_firstFilamentPos trace_from_0.
Proof.
  eexists. split; [apply (main_result trace_from_0); discriminate|].
  cbn [Result.firstFilament].
  assert (E : Scan.first_filament (scan trace_from_0) = Some (qf 1 2))
    by (vm_compute; reflexivity).
  assert (F : spec_firstFilamentPos trace_from_0 = Some (qz 0))
    by (vm_compute; reflexivity).
  split; [exact F|]. split; [exact E|].
  rewrite E, F. intros H. injection H as H. discriminate H.
Qed.

Section SortByTimestamp.

Lemma insert_desc_perm (k : Qc) (x : History.t) (l : list (Qc * History.t)) :
  Permutation (insert_desc k x l) ((k, x) :: l).
Proof.
  induction l as [|[k' y] l IH]; cbn; [reflexivity|].
  destruct (num_ltb k k'); [|reflexivity].
  rewrite IH. apply perm_swap.
Qed.

Lemma sort_desc_perm (l : list (Qc * History.t)) : Permutation (sort_desc l) l.
Proof.
  induction l as [|[k x] l IH]; cbn; [reflexivity|].
  rewrite insert_desc_perm. now constructor.
Qed.

Lemma insert_desc_sorted (k : Qc) (x : History.t) (l : list (Qc * History.t)) :
  StronglySorted key_ge l -> StronglySorted key_ge (insert_desc k x l).
Proof.
  induction 1 as [|[k' y] l S IH F]; cbn.
  - repeat constructor.
  - destruct (num_ltb k k') eqn:L.
    + apply num_ltb_lt in L. constructor; [exact IH|].
      apply (Permutation_Forall (Permutation_sym (insert_desc_perm k x l))).
      constructor; [|exact F]. apply Qclt_le_weak, L.
    + apply num_ltb_ge in L. constructor; [now constructor|].
      constructor; [exact L|].
      eapply Forall_impl; [|exact F].
      intros [k'' z] H. unfold key_ge in *; cbn in *.
      eapply Qcle_trans; eauto.
Qed.

Lemma sort_desc_sorted (l : list (Qc * History.t)) :
  StronglySorted key_ge (sort_desc l).
Proof.
  induction l as [|[k x] l IH]; cbn; [constructor|].
  now apply insert_desc_sorted.
Qed.

(** From the decorated list back to the records. *)
Lemma undecorate_sorted (l : list (Qc * History.t)) :
  Forall own_key l -> StronglySorted key_ge l ->
  most_recent_first (map snd l).
Proof.
  intros O S. induction S as [|[k x] l S IH F]; cbn; [constructor|].
  apply Forall_cons_iff in O as [Ok Ol].
  constructor; [now apply IH|].
  apply Forall_map. rewrite Forall_forall in *.
  intros [k' y] I. specialize (F _ I). specialize (Ol _ I).
  unfold as_recent_as, key_ge, own_key in *; cbn in *. congruence.
Qed.

Lemma timestamps_present (l : list History.t) :
  Forall (fun h => has_key (History.timestamp h) = true) l ->
  mapM (fun x => getkey (History.timestamp x)) l
    = Ret (map (fun x => value (History.timestamp x)) l).
Proof.
  intros H. apply mapM_ret. rewrite Forall_forall in H.
  intros x I. specialize (H x I). now destruct (History.timestamp x).
Qed.

Lemma decorate_own_key (l : list History.t) :
  Forall own_key (combine (map (fun x => value (History.timestamp x)) l) l).
Proof. induction l; cbn; constructor; [reflexivity|assumption]. Qed.

Lemma undecorate (l : list History.t) :
  map snd (combine (map (fun x => value (History.timestamp x)) l) l) = l.
Proof. induction l; cbn; congruence. Qed.

(** The sort returns the records most recent first, none lost, none added. *)
Lemma sort_by_timestamp_spec (l : list History.t) :
  Forall (fun h => has_key (History.timestamp h) = true) l ->
  exists sorted : list History.t,
    sort_by_timestamp l = Ret sorted /\
    Permutation sorted l /\ most_recent_first sorted.
Proof.
  intros H. unfold sort_by_timestamp.
  rewrite (timestamps_present l H); cbn [bind].
  eexists; split; [reflexivity|]. split.
  - etransitivity; [apply Permutation_map, sort_desc_perm|].
    now rewrite undecorate.
  - apply undecorate_sorted; [|apply sort_desc_sorted].
    apply (Permutation_Forall (Permutation_sym (sort_desc_perm _))).
    apply decorate_own_key.
Qed.

Lemma most_recent_first_app (l1 l2 : list History.t) :
  most_recent_first (l1 ++ l2) ->
  most_recent_first l1 /\
  forall a b, In a l1 -> In b l2 -> as_recent_as a b.
Proof.
  induction l1 as [|x l1 IH]; cbn; intros S.
  - split; [constructor|contradiction].
  - apply StronglySorted_inv in S as [S F].
    destruct (IH S) as [S1 C]. split.
    + constructor; [exact S1|].
      apply Forall_app in F. tauto.
    + intros a b [<-|I] Ib; [|now apply C].
      rewrite Forall_forall in F. apply F, in_or_app. now right.
Qed.

End SortByTimestamp.

(** C9.  A [PrintDone] event that appends the finished job's record
    (the file has its three calibration times, a job's record is there,
    the stored records carry their timestamps) persists the first five
    records of the appended history sorted most recent first: at most five
    records, most recent first; the records dropped are those after the
    fifth of the sorted list, none of them more recent than a kept one. *)
Theorem print_done_history (file_manager : FileManager) (now : Qc)
    (payload : Payload.t) (self : Plugin.t) (metadata : Metadata.t)
    (an : Analysis.t) (apt afft alft : Qc) (current : History.t) :
  file_manager (Payload.origin payload) (Payload.path payload) = Some metadata ->
  Metadata.analysis metadata = Some an ->
  Analysis.analysisPrintTime an = Some apt ->
  Analysis.analysisFirstFilamentPrintTime an = Some afft ->
  Analysis.analysisLastFilamentPrintTime an = Some alft ->
  Plugin._current_history self = Some current ->
  Forall (fun h => has_key (History.timestamp h) = true) (stored_history self) ->
  let appended :=
    stored_history self ++ [History.complete payload now apt afft alft current] in
  exists sorted : list History.t,
    sort_by_timestamp appended = Ret sorted /\
    Permutation sorted appended /\
    most_recent_first sorted /\
    on_event file_manager now "PrintDone" payload self =
      ({| Plugin.print_history := Some (firstn MAX_HISTORY_ITEMS sorted);
          Plugin._current_history := None |}, Ret tt) /\
    length (firstn MAX_HISTORY_ITEMS sorted) <= 5 /\
    most_recent_first (firstn MAX_HISTORY_ITEMS sorted) /\
    Permutation
      (firstn MAX_HISTORY_ITEMS sorted ++ skipn MAX_HISTORY_ITEMS sorted)
      appended /\
    (forall kept_record evicted : History.t,
        In kept_record (firstn MAX_HISTORY_ITEMS sorted) ->
        In evicted (skipn MAX_HISTORY_ITEMS sorted) ->
        as_recent_as kept_record evicted).
Proof.
  intros Md An Apt Afft Alft Cur Ts appended.
  assert (Ts' : Forall (fun h => has_key (History.timestamp h) = true) appended).
  { apply Forall_app; split; [exact Ts|]. repeat constructor. }
  destruct (sort_by_timestamp_spec appended Ts') as (sorted & E & P & S).
  exists sorted.
  pose proof S as S'. rewrite <- (firstn_skipn MAX_HISTORY_ITEMS sorted) in S'.
  apply most_recent_first_app in S' as [Sk Cross].
  repeat split; try assumption.
  - unfold on_event. change (String.eqb "PrintDone" "PrintDone") with true.
    cbv iota. unfold mbind, get, lift, modify, mret.
    rewrite Md, An, Apt, Afft, Alft, Cur; cbn [has_key negb getkey].
    fold (stored_history self). fold appended. rewrite E.
    reflexivity.
  - apply firstn_le_length.
  - now rewrite firstn_skipn.
Qed.

Lemma print_done_history_witness :
  exists sorted : list History.t,
    length sorted = 6 /\
    on_event files_analysed (qz 60) "PrintDone" payload_done plugin_5 =
      ({| Plugin.print_history := Some (firstn MAX_HISTORY_ITEMS sorted);
          Plugin._current_history := None |}, Ret tt) /\
    length (firstn MAX_HISTORY_ITEMS sorted) <= 5 /\
    skipn MAX_HISTORY_ITEMS sorted = [record_at (qz 10)].
Proof.
  destruct (print_done_history files_analysed (qz 60) payload_done plugin_5
              _ _ (qz 100) (qz 10) (qz 90) _
              eq_refl eq_refl eq_refl eq_refl eq_refl eq_refl)
    as (sorted & E & _ & _ & Ev & Len & _).
  - repeat constructor.
  - exists sorted. injection E as <-.
    split; [reflexivity|]. split; [exact Ev|]. split; [exact Len|].
    vm_compute; reflexivity.
Defined.

Section Remarks.

(** A trace without a [Progress:] line: [progress[-1]] raises. *)
Lemma main_empty_trace : main [] = Raise IndexError.
Proof. reflexivity. Qed.

(** A tick that leaves the cursor where it is reports the anchor minus the
    elapsed time, whatever its sign. *)
Lemma genius_estimate_without_cursor_change (file_manager : FileManager)
    (progress printTime anchor : Qc) (self : Estimator)
    (an : Analysis.t) (filepos_to_progress : progress_map) :
  cursor_target file_manager self progress
    = Some (an, filepos_to_progress, _current_progress_index self) ->
  (0 <= _current_progress_index self)%Z ->
  _current_total_printTime self = Some anchor ->
  _genius_estimate file_manager progress printTime self =
    (set_called_genius_yet true self,
     Ret (Some (Some (anchor - printTime)%Qc, Some "genius"%string))).
Proof.
  unfold cursor_target, effective_progress, _genius_estimate.
  intros T Pos A.
  unfold mbind at 1. unfold get at 1. unfold mbind at 1. unfold modify at 1.
  destruct (file_manager (_origin self) (_path self)) as [metadata|];
    [|discriminate].
  destruct (Metadata.analysis metadata) as [an'|]; [|discriminate].
  destruct (Analysis.progress an') as [m|]; [|discriminate].
  unfold mbind at 1, lift at 1.
  destruct (advance _ _ _) as [i|e]; [|discriminate].
  injection T as -> -> ->.
  destruct (Z.ltb_spec (_current_progress_index self) 0); [lia|].
  rewrite Z.eqb_refl. unfold mbind, mret, get, lift; cbn. now rewrite A.
Qed.

End Remarks.

Section LastFilament.

(** [max_filament] is [None] or the filament of a sample seen so far. *)
Lemma fold_scan_max (samples : list Sample.t) (st : Scan.t) (m : Qc) :
  Scan.max_filament (fold_left scan_line samples st) = Some m ->
  Scan.max_filament st = Some m \/
  exists s, In s samples /\ Sample.filament s = m.
Proof.
  revert st; induction samples as [|s samples IH]; intros st H; cbn in H.
  - now left.
  - destruct (IH _ H) as [E|(s' & I & E)].
    + unfold scan_line in E; cbn in E.
      destruct (falsy (Scan.max_filament st) || _).
      * right. exists s. split; [now left|congruence].
      * now left.
    + right. exists s'. split; [now right|exact E].
Qed.

(** Once a positive maximum is stored, samples that do not exceed it
    change neither [max_filament] nor [last_filament]. *)
Lemma fold_scan_below_max (samples : list Sample.t) (st : Scan.t) (m : Qc) :
  Scan.max_filament st = Some m -> (0 < m)%Qc ->
  (forall s, In s samples -> (Sample.filament s <= m)%Qc) ->
  Scan.last_filament (fold_left scan_line samples st) = Scan.last_filament st.
Proof.
  revert st; induction samples as [|s samples IH]; intros st Max Pos Le;
    [reflexivity|].
  cbn [fold_left].
  assert (Keep : falsy (Scan.max_filament st)
                 || match Scan.max_filament st with
                    | Some m' => num_ltb m' (Sample.filament s)
                    | None => false
                    end = false).
  { rewrite Max; cbn [falsy].
    rewrite (proj2 (num_eqb_neq _ _))
      by (intros E; symmetry in E; revert E; apply Qclt_neq, Pos).
    apply num_ltb_ge, Le. now left. }
  rewrite IH.
  - unfold scan_line; cbn. now rewrite Keep.
  - unfold scan_line; cbn. now rewrite Keep.
  - exact Pos.
  - intros s' I; apply Le; now right.
Qed.

(** Where the observed maximum of the filament is positive,
    [last_filament] is the position of the first sample that reaches it. *)
Lemma scan_last_filament (before later : list Sample.t) (s : Sample.t) :
  (0 < Sample.filament s)%Qc ->
  (forall x, In x before -> (Sample.filament x < Sample.filament s)%Qc) ->
  (forall x, In x later -> (Sample.filament x <= Sample.filament s)%Qc) ->
  Scan.last_filament (scan (before ++ s :: later))
    = Some (Sample.filepos s).
Proof.
  intros Pos Lt Le. unfold scan. rewrite fold_left_app. cbn [fold_left].
  set (st := fold_left scan_line before Scan.start).
  assert (Grows : falsy (Scan.max_filament st)
                  || match Scan.max_filament st with
                     | Some m' => num_ltb m' (Sample.filament s)
                     | None => false
                     end = true).
  { destruct (Scan.max_filament st) as [m'|] eqn:E; [|reflexivity].
    destruct (fold_scan_max before Scan.start m' E) as [H|(x & I & Ex)];
      [discriminate|].
    rewrite <- Ex, (proj2 (num_ltb_lt _ _) (Lt x I)). apply orb_true_r. }
  rewrite fold_scan_below_max with (m := Sample.filament s).
  - unfold scan_line; cbn. now rewrite Grows.
  - unfold scan_line; cbn. now rewrite Grows.
  - exact Pos.
  - exact Le.
Qed.

End LastFilament.

(** * Further properties of the code *)

Section RationalOrder.

Lemma this_plus (a b : Qc) : (this (a + b)%Qc == this a + this b)%Q.
Proof. unfold Qcplus, Q2Qc. cbn [this]. apply Qred_correct. Qed.

Lemma this_minus (a b : Qc) : (this (a - b)%Qc == this a - this b)%Q.
Proof.
  unfold Qcminus, Qcplus, Qcopp, Q2Qc. cbn [this].
  rewrite !Qred_correct. reflexivity.
Qed.

Lemma this_mult (a b : Qc) : (this (a * b)%Qc == this a * this b)%Q.
Proof. unfold Qcmult, Q2Qc. cbn [this]. apply Qred_correct. Qed.

Lemma this_div (a b : Qc) : (this (a / b)%Qc == this a / this b)%Q.
Proof.
  unfold Qcdiv, Qcmult, Qcinv, Q2Qc. cbn [this].
  rewrite !Qred_correct. reflexivity.
Qed.

End RationalOrder.

Ltac qc_to_q :=
  unfold Qcle, Qclt in *;
  repeat (rewrite ?this_plus, ?this_minus, ?this_mult, ?this_div in * );
  change (this 0%Qc) with 0%Q in *; change (this 1%Qc) with 1%Q in *.

(** X1.  On a non-empty map of two-element points, whatever the order of
    its positions and also with a single point, [_interpolate] raises
    nothing: it returns [None] exactly when the query is below the first
    or above the last position, and what it returns otherwise is a
    two-element point, so that the callers' subscript [[1]] finds a
    value. *)
Theorem interpolate_returns (l : progress_map) (x : Qc) :
  well_shaped l = true -> l <> [] ->
  (_interpolate l x = Ret None <->
     (x < pos (first_point l))%Qc \/ (pos (last_point l) < x)%Qc) /\
  (forall e : exn, _interpolate l x <> Raise e) /\
  (forall p : point, _interpolate l x = Ret (Some p) -> is_pair p = true).
Proof.
  intros W N.
  assert (Out : (x < pos (first_point l))%Qc \/ (pos (last_point l) < x)%Qc ->
                _interpolate l x = Ret None).
  { intros [H|H]; [now apply interpolate_below|now apply interpolate_above]. }
  assert (In_range : _interpolate l x = Ret None \/
                     exists p, _interpolate l x = Ret (Some p)).
  { destruct (Qclt_le_dec x (pos (first_point l))) as [A|A]; [auto|].
    destruct (Qclt_le_dec (pos (last_point l)) x) as [B|B]; [auto|].
    right. now apply interpolate_in_range. }
  repeat split.
  - intros H.
    destruct (Qclt_le_dec x (pos (first_point l))) as [A|A]; [now left|].
    destruct (Qclt_le_dec (pos (last_point l)) x) as [B|B]; [now right|].
    destruct (interpolate_in_range l W N x A B) as [p E]. congruence.
  - exact Out.
  - intros e E. destruct In_range as [H|[p H]]; congruence.
  - intros p E. exact (interpolate_pair l x p W N E).
Qed.

Lemma interpolate_returns_witness :
  (_interpolate map_unsorted (qf 3 4) = Ret None <->
     (qf 3 4 < pos (first_point map_unsorted))%Qc
     \/ (pos (last_point map_unsorted) < qf 3 4)%Qc) /\
  (forall e : exn, _interpolate map_unsorted (qf 3 4) <> Raise e) /\
  (forall p : point,
      _interpolate map_unsorted (qf 3 4) = Ret (Some p) -> is_pair p = true).
Proof.
  apply (interpolate_returns map_unsorted (qf 3 4)).
  - reflexivity.
  - discriminate.
Defined.

Section Cursor.

Lemma getitem_raises {A : Type} (l : list A) (i : Z) (e : exn) :
  getitem l i = Raise e -> e = IndexError.
Proof.
  unfold getitem. destruct (_ && _); [|congruence].
  destruct (nth_error l _); congruence.
Qed.

(** The search moves the cursor forward only, and not past the map. *)
Lemma advance_range (progress : Qc) (rest : progress_map) (i j : Z) :
  advance progress rest i = Ret j ->
  (i <= j <= i + Z.of_nat (length rest))%Z.
Proof.
  revert i; induction rest as [|p rest IH]; intros i H; cbn in H.
  - injection H as <-. cbn. lia.
  - destruct (getitem p 0) as [p0|e]; cbn in H; [|discriminate].
    destruct (num_leb p0 progress).
    + apply IH in H. cbn [length]. lia.
    + injection H as <-. cbn [length]. lia.
Qed.

(** On a map of pairs the search raises nothing. *)
Lemma advance_returns (progress : Qc) (rest : progress_map) (i : Z) :
  well_shaped rest = true -> exists j, advance progress rest i = Ret j.
Proof.
  revert i; induction rest as [|p rest IH]; intros i W; cbn.
  - eauto.
  - cbn in W. apply andb_prop in W as [Wp W].
    rewrite (getitem_pair_0 p Wp); cbn [bind].
    destruct (num_leb (pos p) progress); eauto.
Qed.

Variable file_manager : FileManager.

(** What one call of [_genius_estimate] does to the cursor and the
    anchor: nothing, or both are set from the interpolation at the
    progress the tick works with, and the remaining time is reported. *)
Lemma genius_estimate_step (progress printTime : Qc) (self self' : Estimator)
    (r : res (option estimate_t)) :
  _genius_estimate file_manager progress printTime self = (self', r) ->
  (_current_progress_index self' = _current_progress_index self /\
   _current_total_printTime self' = _current_total_printTime self) \/
  (exists (an : Analysis.t) (m : progress_map) (i : Z) (pt : point) (v : Qc),
      cursor_target file_manager self progress = Some (an, m, i) /\
      (0 <= i)%Z /\ i <> _current_progress_index self /\
      _interpolate m (effective_progress self progress) = Ret (Some pt) /\
      getitem pt 1 = Ret v /\
      _current_progress_index self' = i /\
      _current_total_printTime self' = Some (v + printTime)%Qc /\
      r = Ret (Some (Some (v + printTime - printTime)%Qc, Some "genius"%string))).
Proof.
  unfold cursor_target, _genius_estimate, effective_progress.
  unfold mbind at 1. unfold get at 1. unfold mbind at 1. unfold modify at 1.
  cbn [_origin _path set_called_genius_yet _current_progress_index].
  destruct (file_manager (_origin self) (_path self)) as [metadata|];
    [|intros [= <- <-]; left; now split].
  destruct (Metadata.analysis metadata) as [an|];
    [|intros [= <- <-]; left; now split].
  destruct (Analysis.progress an) as [m|];
    [|intros [= <- <-]; left; now split].
  unfold mbind at 1, lift at 1.
  destruct (advance _ _ _) as [i|e]; [|intros [= <- <-]; left; now split].
  destruct (i <? 0)%Z eqn:Neg; [intros [= <- <-]; left; now split|].
  apply Z.ltb_ge in Neg.
  destruct (i =? _current_progress_index self)%Z eqn:Same.
  { unfold mbind, mret, get, lift; cbn.
    destruct (_current_total_printTime self) eqn:T; intros [= <- <-]; left;
      cbn; rewrite ?T; now split. }
  apply Z.eqb_neq in Same.
  unfold new_estimates, mbind, mret, get, lift, modify; cbn.
  destruct (Analysis.firstFilament an) as [ff|]; cbn;
    [|intros [= <- <-]; left; now split].
  destruct (Analysis.lastFilament an) as [lf|];
    destruct (History.lastFilamentPrintTime (_current_history self))
      as [old|] eqn:Stored;
    destruct (num_ltb ff _ && _); cbn;
    repeat match goal with
           | |- _ => rewrite Stored; cbn
           | |- context [num_leb ?a ?b] => destruct (num_leb a b); cbn
           end;
    try (intros [= <- <-]; left; now split);
    (destruct (_interpolate m _) as [[[|i0 irest]|]|e] eqn:I; cbn;
     try (intros [= <- <-]; left; now split);
     destruct (getitem (i0 :: irest) 1) as [v|e] eqn:G; cbn;
     [|intros [= <- <-]; left; now split];
     intros [= <- <-];
     right; exists an, m, i, (i0 :: irest), v; repeat split; auto).
Qed.

End Cursor.

Section TickFacts.

Variable file_manager : FileManager.

Lemma cursor_target_advance (self : Estimator) (progress : Qc)
    (an : Analysis.t) (m : progress_map) (i : Z) :
  cursor_target file_manager self progress = Some (an, m, i) ->
  job_analysis file_manager self = Some (an, m) /\
  advance (effective_progress self progress)
    (skipn (Z.to_nat (_current_progress_index self + 1)) m)
    (_current_progress_index self) = Ret i.
Proof.
  unfold cursor_target, job_analysis.
  destruct (file_manager _ _) as [metadata|]; [|discriminate].
  destruct (Metadata.analysis metadata) as [an'|]; [|discriminate].
  destruct (Analysis.progress an') as [m'|]; [|discriminate].
  destruct (advance _ _ _) as [j|e] eqn:A; [|discriminate].
  intros [= <- <- <-]. now split.
Qed.

(** [_genius_estimate] from the cursor search on. *)
Lemma genius_estimate_from_target (progress printTime : Qc) (self : Estimator)
    (an : Analysis.t) (m : progress_map) (i : Z) :
  cursor_target file_manager self progress = Some (an, m, i) ->
  _genius_estimate file_manager progress printTime self =
    (if (i <? 0)%Z then mret None else
     go_on <~ (if (i =? _current_progress_index self)%Z
               then mret true
               else new_estimates an m i (effective_progress self progress)
                      printTime) ;;
     if go_on : bool then
       self1 <~ get ;;
       total <~ lift (match _current_total_printTime self1 with
                      | Some total => Ret total
                      | None => Raise TypeError
                      end) ;;
       mret (Some (Some (total - printTime)%Qc, Some "genius"%string))
     else mret None)
      (set_called_genius_yet true self).
Proof.
  unfold cursor_target, _genius_estimate, effective_progress.
  unfold mbind at 1. unfold get at 1. unfold mbind at 1. unfold modify at 1.
  cbn [_origin _path set_called_genius_yet _current_progress_index].
  destruct (file_manager _ _) as [metadata|]; [|discriminate].
  destruct (Metadata.analysis metadata) as [an'|]; [|discriminate].
  destruct (Analysis.progress an') as [m'|]; [|discriminate].
  unfold mbind at 1, lift at 1.
  destruct (advance _ _ _) as [j|e] eqn:A; [|discriminate].
  intros [= <- <- <-]. reflexivity.
Qed.

Lemma set_called_again (self : Estimator) :
  _called_genius_yet self = true -> set_called_genius_yet true self = self.
Proof. destruct self; cbn; now intros ->. Qed.

Lemma cursor_step_monotone (progress printTime : Qc) (self : Estimator) :
  (_current_progress_index self
   <= _current_progress_index
        (fst (_genius_estimate file_manager progress printTime self)))%Z.
Proof.
  destruct (_genius_estimate file_manager progress printTime self)
    as [self' r] eqn:E.
  destruct (genius_estimate_step file_manager _ _ _ _ _ E)
    as [[Hi _]|(an & m & i & pt & v & T & _ & _ & _ & _ & Hi & _)];
    cbn [fst]; rewrite Hi; [lia|].
  apply cursor_target_advance in T as [_ A].
  apply advance_range in A. lia.
Qed.

Lemma anchored_step (progress printTime : Qc) (self : Estimator) :
  anchored self ->
  anchored (fst (_genius_estimate file_manager progress printTime self)).
Proof.
  intros [Lo An].
  destruct (_genius_estimate file_manager progress printTime self)
    as [self' r] eqn:E.
  destruct (genius_estimate_step file_manager _ _ _ _ _ E)
    as [[Hi Ha]|(an & m & i & pt & v & _ & Pos & _ & _ & _ & Hi & Ha & _)];
    cbn [fst]; unfold anchored; rewrite Hi, Ha.
  - now split.
  - split; [lia|reflexivity].
Qed.

Lemma after_snoc (ticks : list Tick) (t : Tick) (self : Estimator) :
  after file_manager (ticks ++ [t]) self =
    fst (_genius_estimate file_manager (tick_progress t) (tick_printTime t)
           (after file_manager ticks self)).
Proof.
  rewrite after_app, after_cons, estimate_outcome. reflexivity.
Qed.

End TickFacts.

(** X3.  The cursor never regresses: after any ticks the index is at
    least what it was; and a tick that changes it (from an index not below
    -1, as every index of a job is) leaves it on a valid index of the
    file's progress map. *)
Theorem cursor_never_regresses (file_manager : FileManager) (self : Estimator) :
  (forall ticks : list Tick,
      (_current_progress_index self
       <= _current_progress_index (after file_manager ticks self))%Z) /\
  (forall t : Tick,
      (-1 <= _current_progress_index self)%Z ->
      _current_progress_index (after file_manager [t] self)
        <> _current_progress_index self ->
      exists (an : Analysis.t) (m : progress_map),
        job_analysis file_manager self = Some (an, m) /\
        (0 <= _current_progress_index (after file_manager [t] self)
           < Z.of_nat (length m))%Z).
Proof.
  split.
  - intros ticks. revert self.
    induction ticks as [|t ticks IH]; intros self.
    + cbn. lia.
    + rewrite after_cons, estimate_outcome; cbn [fst].
      etransitivity; [|apply IH]. apply cursor_step_monotone.
  - intros t Lo Moved.
    rewrite after_cons, estimate_outcome in *; cbn [fst] in *.
    change (after file_manager [] ?s) with s in *.
    destruct (_genius_estimate file_manager (tick_progress t)
                (tick_printTime t) self) as [self' r] eqn:E.
    cbn [fst] in *.
    destruct (genius_estimate_step file_manager _ _ _ _ _ E)
      as [[Hi _]|(an & m & i & pt & v & T & Pos & Ne & _ & _ & Hi & _)];
      [congruence|].
    apply cursor_target_advance in T as [J A].
    exists an, m. split; [exact J|].
    apply advance_range in A. rewrite length_skipn in A.
    rewrite Hi. lia.
Qed.

Lemma cursor_never_regresses_witness :
  exists (an : Analysis.t) (m : progress_map),
    job_analysis files_100 job_100 = Some (an, m) /\
    (0 <= _current_progress_index
            (after files_100 [tick (qf 3 5) (qz 7)] job_100)
       < Z.of_nat (length m))%Z.
Proof.
  apply (proj2 (cursor_never_regresses files_100 job_100)
           (tick (qf 3 5) (qz 7))).
  - vm_compute; discriminate.
  - vm_compute; discriminate.
Defined.

Section AnchorInvariant.

Variable file_manager : FileManager.

Lemma py_div_raises (x y : Qc) (e : exn) :
  py_div x y = Raise e -> e = ZeroDivisionError.
Proof. unfold py_div. destruct (num_eqb y 0); congruence. Qed.

(** [_interpolate] raises [IndexError] or [ZeroDivisionError] only. *)
Lemma interpolate_raises (l : progress_map) (x : Qc) (e : exn) :
  _interpolate l x = Raise e -> e = IndexError \/ e = ZeroDivisionError.
Proof.
  unfold _interpolate.
  repeat match goal with
         | |- context [bind (getitem ?a ?b) _] =>
             let G := fresh "G" in
             destruct (getitem a b) eqn:G; cbn [bind];
             [|intros [= <-]; left; eapply getitem_raises; eauto]
         | |- context [bind (py_div ?a ?b) _] =>
             let G := fresh "G" in
             destruct (py_div a b) eqn:G; cbn [bind];
             [|intros [= <-]; right; eapply py_div_raises; eauto]
         | |- context [if ?c then _ else _] => destruct c
         end;
    discriminate.
Qed.

Lemma advance_raises (progress : Qc) (rest : progress_map) (i : Z) (e : exn) :
  advance progress rest i = Raise e -> e = IndexError.
Proof.
  revert i; induction rest as [|p rest IH]; intros i; cbn; [discriminate|].
  destruct (getitem p 0) eqn:G; cbn [bind].
  - destruct (num_leb _ _); [apply IH|discriminate].
  - intros [= <-]. eapply getitem_raises; eauto.
Qed.

(** [_genius_estimate] raises [TypeError] only for [None - printTime]:
    the cursor is in the map and there is no anchor. *)
Lemma genius_estimate_TypeError (progress printTime : Qc)
    (self self' : Estimator) :
  _genius_estimate file_manager progress printTime self
    = (self', Raise TypeError) ->
  (0 <= _current_progress_index self)%Z /\
  _current_total_printTime self = None.
Proof.
  unfold _genius_estimate.
  unfold mbind at 1. unfold get at 1. unfold mbind at 1. unfold modify at 1.
  cbn [_origin _path set_called_genius_yet _current_progress_index].
  destruct (file_manager (_origin self) (_path self)) as [metadata|];
    [|discriminate].
  destruct (Metadata.analysis metadata) as [an|]; [|discriminate].
  destruct (Analysis.progress an) as [m|]; [|discriminate].
  unfold mbind at 1, lift at 1.
  destruct (advance _ _ _) as [i|e] eqn:A.
  2:{ apply advance_raises in A. subst e. discriminate. }
  destruct (i <? 0)%Z eqn:Neg; [discriminate|]. apply Z.ltb_ge in Neg.
  destruct (i =? _current_progress_index self)%Z eqn:Same.
  { apply Z.eqb_eq in Same. subst i.
    unfold mbind, mret, get, lift; cbn.
    destruct (_current_total_printTime self); [discriminate|]. now split. }
  unfold new_estimates, mbind, mret, get, lift, modify; cbn.
  destruct (Analysis.firstFilament an) as [ff|]; cbn; [|discriminate].
  destruct (Analysis.lastFilament an) as [lf|];
    destruct (History.lastFilamentPrintTime (_current_history self))
      as [old|] eqn:Stored;
    destruct (num_ltb ff _ && _); cbn;
    repeat match goal with
           | |- _ => rewrite Stored; cbn
           | |- context [num_leb ?a ?b] => destruct (num_leb a b); cbn
           end;
    try discriminate;
    (destruct (_interpolate m _) as [[[|i0 irest]|]|e] eqn:I; cbn;
     try discriminate;
     [destruct (getitem (i0 :: irest) 1) as [v|e] eqn:G; cbn;
      [discriminate|apply getitem_raises in G; subst e; discriminate]
     |apply interpolate_raises in I as [-> | ->]; discriminate]).
Qed.

End AnchorInvariant.

(** X4.  In a job, whose estimator starts from [__init__], the anchor is
    set whenever the cursor is in the map; so [_genius_estimate] never
    fails on [None - printTime]. *)
Theorem anchor_set_with_cursor (file_manager : FileManager)
    (file_path file_origin : string) (current_history : History.t)
    (ticks : list Tick) :
  let self := after file_manager ticks
                (init file_path file_origin current_history) in
  anchored self /\
  forall progress printTime : Qc,
    snd (_genius_estimate file_manager progress printTime self)
      <> Raise TypeError.
Proof.
  cbv zeta.
  assert (Inv : anchored (after file_manager ticks
                            (init file_path file_origin current_history))).
  { induction ticks as [|t ticks IH] using rev_ind.
    - unfold anchored; cbn. split; lia.
    - rewrite after_snoc. now apply anchored_step. }
  split; [exact Inv|].
  intros progress printTime H.
  destruct (_genius_estimate file_manager progress printTime _)
    as [self' r] eqn:E.
  cbn [snd] in H. subst r.
  apply genius_estimate_TypeError in E as [Pos None].
  destruct Inv as [_ An]. specialize (An Pos). rewrite None in An.
  discriminate.
Qed.

Section FirstFilamentPrintTime.

Variable file_manager : FileManager.

Lemma genius_estimate_stored_first (progress printTime : Qc) (self : Estimator) :
  stored_first (fst (_genius_estimate file_manager progress printTime self)) =
    if stores_first file_manager self progress
    then Some printTime
    else stored_first self.
Proof.
  unfold stores_first, cursor_target, _genius_estimate, effective_progress,
    stored_first.
  unfold mbind at 1. unfold get at 1. unfold mbind at 1. unfold modify at 1.
  cbn [_origin _path set_called_genius_yet _current_progress_index].
  destruct (file_manager (_origin self) (_path self)) as [metadata|];
    [|reflexivity].
  destruct (Metadata.analysis metadata) as [an|]; [|reflexivity].
  destruct (Analysis.progress an) as [filepos_to_progress|]; [|reflexivity].
  unfold mbind at 1, lift at 1.
  destruct (advance _ _ _) as [i|e]; [|reflexivity].
  destruct (i <? 0)%Z eqn:Neg.
  { apply Z.ltb_lt in Neg. destruct (Z.leb_spec 0 i); [lia|reflexivity]. }
  apply Z.ltb_ge in Neg. destruct (Z.leb_spec 0 i); [|lia].
  destruct (i =? _current_progress_index self)%Z eqn:Same.
  { unfold mbind, mret, get, lift; cbn.
    destruct (_current_total_printTime self); reflexivity. }
  cbn [andb negb].
  unfold new_estimates, mbind, mret, get, lift, modify; cbn.
  destruct (Analysis.firstFilament an) as [ff|]; cbn; [|reflexivity].
  destruct (Analysis.lastFilament an) as [lf|];
    destruct (History.lastFilamentPrintTime (_current_history self))
      as [old|] eqn:Stored;
    destruct (History.firstFilamentPrintTime (_current_history self))
      as [first|] eqn:First;
    destruct (num_ltb ff _); cbn;
    repeat match goal with
           | |- _ => rewrite Stored; cbn
           | |- _ => rewrite First; cbn
           | |- context [num_leb ?a ?b] => destruct (num_leb a b); cbn
           | |- context [_interpolate ?a ?b] =>
               destruct (_interpolate a b) as [[[|? ?]|]|?]; cbn
           | |- context [getitem ?p 1] => destruct (getitem p 1); cbn
           end;
    reflexivity.
Qed.

Lemma stores_first_once (progress : Qc) (self : Estimator) (v : Qc) :
  stored_first self = Some v -> stores_first file_manager self progress = false.
Proof.
  intros E. unfold stores_first. rewrite E. cbn [has_key negb].
  destruct (cursor_target _ _ _) as [[[an m] i]|]; [|reflexivity].
  apply andb_false_r.
Qed.

End FirstFilamentPrintTime.

(** X5.  [firstFilamentPrintTime] is stored once: a tick stores its
    elapsed time exactly when the cursor index changes, the progress the
    tick works with is above [firstFilament], and nothing is stored yet;
    once a value is stored, no later tick of the job changes it. *)
Theorem first_filament_print_time (file_manager : FileManager) (self : Estimator) :
  (forall t : Tick,
      stored_first (after file_manager [t] self) =
        if stores_first file_manager self (tick_progress t)
        then Some (tick_printTime t)
        else stored_first self) /\
  (forall (ticks : list Tick) (v : Qc),
      stored_first self = Some v ->
      stored_first (after file_manager ticks self) = Some v).
Proof.
  split.
  - intros t. rewrite after_cons, estimate_outcome.
    apply genius_estimate_stored_first.
  - intros ticks. revert self.
    induction ticks as [|t ticks IH]; intros self v E; [exact E|].
    rewrite after_cons, estimate_outcome; cbn [fst]. apply IH.
    rewrite genius_estimate_stored_first.
    now rewrite (stores_first_once file_manager _ self v E).
Qed.

Lemma first_filament_print_time_witness :
  stored_first
    (after files_100 [tick (qz 1) (qz 900)]
       (after files_100 [tick (qf 1 20) (qz 5); tick (qf 3 5) (qz 300)] job_100))
  = Some (qz 300).
Proof.
  apply (proj2 (first_filament_print_time files_100
                  (after files_100
                     [tick (qf 1 20) (qz 5); tick (qf 3 5) (qz 300)] job_100))).
  vm_compute; reflexivity.
Defined.

Section NewEstimates.

Lemma set_current_history_same (self : Estimator) :
  set_current_history (_current_history self) self = self.
Proof. now destruct self. Qed.

(** The block that makes new estimates, when the keys it reads are there:
    the job's dict may change, then everything hangs on the interpolation. *)
Lemma new_estimates_outcome (an : Analysis.t) (m : progress_map) (i : Z)
    (x printTime ff : Qc) (self : Estimator) :
  Analysis.firstFilament an = Some ff ->
  stored_last self = None \/ has_key (Analysis.lastFilament an) = true ->
  exists h : History.t,
    new_estimates an m i x printTime self =
      match _interpolate m x with
      | Ret (Some (i0 :: irest)) =>
          match getitem (i0 :: irest) 1 with
          | Ret v =>
              (set_current_progress_index i
                 (set_current_total_printTime (v + printTime)%Qc
                    (set_current_history h self)), Ret true)
          | Raise e => (set_current_history h self, Raise e)
          end
      | Ret _ => (set_current_history h self, Ret false)
      | Raise e => (set_current_history h self, Raise e)
      end.
Proof.
  intros Kf Kl. unfold stored_last in Kl.
  unfold new_estimates, mbind, mret, get, lift, modify. rewrite Kf; cbn.
  destruct (num_ltb ff x && _); cbn;
    destruct (History.lastFilamentPrintTime (_current_history self))
      as [old|] eqn:Stored; cbn;
    try (destruct Kl as [Kl|Kl]; [discriminate|];
         destruct (Analysis.lastFilament an) as [lf|]; [|discriminate]; cbn;
         destruct (num_leb x lf); cbn);
    eexists;
    (destruct (_interpolate m x) as [[[|i0 irest]|]|e]; cbn;
     [| destruct (getitem (i0 :: irest) 1); cbn | |]);
    try reflexivity;
    rewrite <- (set_current_history_same self) at 1; reflexivity.
Qed.

End NewEstimates.

(** X6.  When the file has no metadata, no analysis or no progress map,
    [estimate] returns the default result and changes nothing of the
    estimator but the flag of the first call. *)
Theorem estimate_without_progress_map (file_manager : FileManager)
    (default_result : option estimate_t) (progress printTime : Qc)
    (self : Estimator) :
  job_analysis file_manager self = None ->
  estimate file_manager default_result progress printTime self
    = (set_called_genius_yet true self, Ret default_result).
Proof.
  intros H. rewrite estimate_outcome.
  assert (E : _genius_estimate file_manager progress printTime self
              = (set_called_genius_yet true self, Ret None)).
  { unfold job_analysis in H. unfold _genius_estimate.
    unfold mbind at 1. unfold get at 1. unfold mbind at 1. unfold modify at 1.
    destruct (file_manager _ _) as [metadata|]; [|reflexivity].
    destruct (Metadata.analysis metadata) as [an|]; [|reflexivity].
    destruct (Analysis.progress an); [discriminate|reflexivity]. }
  now rewrite E.
Qed.

Lemma estimate_without_progress_map_witness :
  estimate (fun _ _ => None) (Some (Some (qz 7), None)) (qf 1 2) (qz 3) job_100
    = (set_called_genius_yet true job_100, Ret (Some (Some (qz 7), None))).
Proof.
  apply (estimate_without_progress_map (fun _ _ => None)). reflexivity.
Defined.

Section MovingTicks.

Variable file_manager : FileManager.

Lemma moving_tick (progress printTime ff : Qc) (self : Estimator)
    (an : Analysis.t) (m : progress_map) (i : Z) :
  cursor_target file_manager self progress = Some (an, m, i) ->
  (0 <= i)%Z -> i <> _current_progress_index self ->
  Analysis.firstFilament an = Some ff ->
  stored_last self = None \/ has_key (Analysis.lastFilament an) = true ->
  exists h : History.t,
    _genius_estimate file_manager progress printTime self =
      match _interpolate m (effective_progress self progress) with
      | Ret (Some (i0 :: irest)) =>
          match getitem (i0 :: irest) 1 with
          | Ret v =>
              (set_current_progress_index i
                 (set_current_total_printTime (v + printTime)%Qc
                    (set_current_history h (set_called_genius_yet true self))),
               Ret (Some (Some (v + printTime - printTime)%Qc,
                          Some "genius"%string)))
          | Raise e =>
              (set_current_history h (set_called_genius_yet true self), Raise e)
          end
      | Ret _ =>
          (set_current_history h (set_called_genius_yet true self), Ret None)
      | Raise e =>
          (set_current_history h (set_called_genius_yet true self), Raise e)
      end.
Proof.
  intros T Pos Ne Kf Kl.
  rewrite (genius_estimate_from_target file_manager _ printTime _ _ _ _ T).
  destruct (Z.ltb_spec i 0); [lia|].
  destruct (Z.eqb_spec i (_current_progress_index self)); [contradiction|].
  destruct (new_estimates_outcome an m i (effective_progress self progress)
              printTime ff (set_called_genius_yet true self) Kf Kl) as [h E].
  exists h. unfold mbind at 1. rewrite E.
  destruct (_interpolate m _) as [[[|i0 irest]|]|e]; try reflexivity.
  destruct (getitem (i0 :: irest) 1); reflexivity.
Qed.

End MovingTicks.

Section MovingTickResult.

Variable file_manager : FileManager.

Lemma moving_tick_result (default_result : option estimate_t)
    (progress printTime ff : Qc) (self : Estimator) (an : Analysis.t)
    (m : progress_map) (i : Z) (pt : point) :
  cursor_target file_manager self progress = Some (an, m, i) ->
  (0 <= i)%Z -> i <> _current_progress_index self ->
  Analysis.firstFilament an = Some ff ->
  stored_last self = None \/ has_key (Analysis.lastFilament an) = true ->
  well_shaped m = true ->
  _interpolate m (effective_progress self progress) = Ret (Some pt) ->
  snd (estimate file_manager default_result progress printTime self)
    = Ret (genius (val pt + printTime - printTime)%Qc) /\
  _current_progress_index
    (fst (estimate file_manager default_result progress printTime self)) = i /\
  _current_total_printTime
    (fst (estimate file_manager default_result progress printTime self))
    = Some (val pt + printTime)%Qc.
Proof.
  intros T Pos Ne Kf Kl W I. rewrite estimate_outcome.
  destruct (moving_tick file_manager progress printTime ff self an m i
              T Pos Ne Kf Kl) as [h E].
  rewrite E, I.
  assert (N : m <> []) by (intros ->; discriminate I).
  pose proof (interpolate_pair m _ pt W N I) as P.
  destruct pt as [|a [|b [|c pt]]]; try discriminate P.
  change (getitem [a; b] 1) with (Ret b). change (val [a; b]) with b.
  cbn [fst snd set_current_progress_index set_current_total_printTime
         _current_progress_index _current_total_printTime].
  repeat split.
Qed.

End MovingTickResult.

(** X7.  A tick that moves the cursor, with the progress inside the range
    of the map, anchors the total at the value of the interpolated point
    plus the elapsed time, and reports that anchor less the elapsed time,
    [(interpolation[1] + printTime) - printTime] as the code computes it;
    the cursor is on the new index. *)
Theorem moving_tick_reports_interpolation (file_manager : FileManager)
    (default_result : option estimate_t) (progress printTime ff : Qc)
    (self : Estimator) (an : Analysis.t) (m : progress_map) (i : Z)
    (pt : point) :
  cursor_target file_manager self progress = Some (an, m, i) ->
  (0 <= i)%Z -> i <> _current_progress_index self ->
  Analysis.firstFilament an = Some ff ->
  stored_last self = None \/ has_key (Analysis.lastFilament an) = true ->
  well_shaped m = true ->
  _interpolate m (effective_progress self progress) = Ret (Some pt) ->
  let outcome := estimate file_manager default_result progress printTime self in
  snd outcome = Ret (genius (val pt + printTime - printTime)%Qc) /\
  _current_progress_index (fst outcome) = i /\
  _current_total_printTime (fst outcome) = Some (val pt + printTime)%Qc.
Proof. intros; cbv zeta; eapply moving_tick_result; eauto. Qed.

Lemma moving_tick_reports_interpolation_witness :
  let outcome :=
    estimate files_100 (Some (None, None)) (qz 1) (qz 70)
      (after files_100 [tick (qz 0) (qz 0)] job_100) in
  snd outcome = Ret (genius (val [qz 1; qz 0] + qz 70 - qz 70)%Qc) /\
  _current_progress_index (fst outcome) = 2%Z /\
  _current_total_printTime (fst outcome)
    = Some (val [qz 1; qz 0] + qz 70)%Qc.
Proof.
  apply (moving_tick_reports_interpolation files_100 (Some (None, None))
           (qz 1) (qz 70) (qf 1 10)
           (after files_100 [tick (qz 0) (qz 0)] job_100)
           (analysis_100 (qf 1 10) (qf 9 10)) map_100 2%Z).
  - vm_compute; reflexivity.
  - lia.
  - vm_compute; discriminate.
  - reflexivity.
  - right; reflexivity.
  - reflexivity.
  - vm_compute; reflexivity.
Defined.

(** X8.  A tick that would move the cursor but whose progress lies outside
    the range of the map gets the default result; cursor and anchor stay
    as they were, so the next tick searches again. *)
Theorem tick_out_of_range_falls_back (file_manager : FileManager)
    (default_result : option estimate_t) (progress printTime ff : Qc)
    (self : Estimator) (an : Analysis.t) (m : progress_map) (i : Z) :
  cursor_target file_manager self progress = Some (an, m, i) ->
  (0 <= i)%Z -> i <> _current_progress_index self ->
  Analysis.firstFilament an = Some ff ->
  stored_last self = None \/ has_key (Analysis.lastFilament an) = true ->
  _interpolate m (effective_progress self progress) = Ret None ->
  let outcome := estimate file_manager default_result progress printTime self in
  snd outcome = Ret default_result /\
  _current_progress_index (fst outcome) = _current_progress_index self /\
  _current_total_printTime (fst outcome) = _current_total_printTime self.
Proof.
  intros T Pos Ne Kf Kl I. cbv zeta. rewrite estimate_outcome.
  destruct (moving_tick file_manager progress printTime ff self an m i
              T Pos Ne Kf Kl) as [h E].
  rewrite E, I. cbn. repeat split.
Qed.

Lemma tick_out_of_range_falls_back_witness :
  let self := after files_half [tick (qz 0) (qz 0)] job_100 in
  let outcome := estimate files_half (Some (Some (qz 7), None)) (qf 4 5) (qz 70)
                   self in
  snd outcome = Ret (Some (Some (qz 7), None)) /\
  _current_progress_index (fst outcome) = _current_progress_index self /\
  _current_total_printTime (fst outcome) = _current_total_printTime self.
Proof.
  apply (tick_out_of_range_falls_back files_half (Some (Some (qz 7), None))
           (qf 4 5) (qz 70) (qf 1 10)
           (after files_half [tick (qz 0) (qz 0)] job_100)
           analysis_half map_half 1%Z).
  - vm_compute; reflexivity.
  - lia.
  - vm_compute; discriminate.
  - reflexivity.
  - right; reflexivity.
  - vm_compute; reflexivity.
Defined.

(** X9.  While the cursor stays where it is, a tick reports the anchor
    minus the elapsed time and leaves the estimator exactly as it was:
    reported remaining time plus elapsed time is the anchor, tick after
    tick. *)
Theorem resting_tick_counts_down (file_manager : FileManager)
    (default_result : option estimate_t) (progress printTime anchor : Qc)
    (self : Estimator) (an : Analysis.t) (m : progress_map) :
  _called_genius_yet self = true ->
  cursor_target file_manager self progress
    = Some (an, m, _current_progress_index self) ->
  (0 <= _current_progress_index self)%Z ->
  _current_total_printTime self = Some anchor ->
  estimate file_manager default_result progress printTime self
    = (self, Ret (genius (anchor - printTime)%Qc)).
Proof.
  intros C T Pos A. rewrite estimate_outcome.
  rewrite (genius_estimate_without_cursor_change file_manager progress
             printTime anchor self an m T Pos A).
  cbn [fst snd]. now rewrite (set_called_again self C).
Qed.

Lemma resting_tick_counts_down_witness :
  let self := after files_100 [tick (qz 0) (qz 0)] job_100 in
  estimate files_100 (Some (None, None)) (qf 1 5) (qz 30) self
    = (self, Ret (genius (qz 100 - qz 30)%Qc)).
Proof.
  apply (resting_tick_counts_down files_100 (Some (None, None)) (qf 1 5)
           (qz 30) (qz 100) (after files_100 [tick (qz 0) (qz 0)] job_100)
           (analysis_100 (qf 1 10) (qf 9 10)) map_100).
  - reflexivity.
  - vm_compute; reflexivity.
  - vm_compute; discriminate.
  - vm_compute; reflexivity.
Defined.

Section FirstTick.

Lemma advance_first (progress : Qc) (m : progress_map) :
  well_shaped m = true -> m <> [] ->
  (pos (first_point m) <= progress)%Qc ->
  exists i : Z, advance progress m (-1) = Ret i /\ (0 <= i)%Z.
Proof.
  intros W N Le. destruct m as [|p rest]; [congruence|].
  cbn in W. apply andb_prop in W as [Wp W].
  cbn [advance]. rewrite (getitem_pair_0 p Wp); cbn [bind].
  cbn [first_point hd] in Le.
  rewrite (proj2 (num_leb_le _ _) Le).
  destruct (advance_returns progress rest (-1 + 1) W) as [i E].
  exists i. split; [exact E|]. apply advance_range in E. lia.
Qed.

End FirstTick.

(** X10.  The first tick of a job is taken as progress 0 whatever
    progress it reports: on a map of pairs with non-decreasing positions
    that starts at position 0 (the analysis having its [firstFilament]),
    it anchors the total at the value of the map's first point plus the
    elapsed time, reports that anchor less the elapsed time,
    [(l[0][1] + printTime) - printTime], and stores its elapsed time as
    [lastFilamentPrintTime]. *)
Theorem first_tick_reports_total (file_manager : FileManager)
    (default_result : option estimate_t) (progress printTime ff : Qc)
    (file_path file_origin : string) (an : Analysis.t) (m : progress_map) :
  let self := init file_path file_origin History.empty in
  job_analysis file_manager self = Some (an, m) ->
  Analysis.firstFilament an = Some ff ->
  well_shaped m = true -> non_decreasing m = true -> m <> [] ->
  pos (first_point m) = qz 0 ->
  let outcome := estimate file_manager default_result progress printTime self in
  snd outcome
    = Ret (genius (val (first_point m) + printTime - printTime)%Qc) /\
  _current_total_printTime (fst outcome)
    = Some (val (first_point m) + printTime)%Qc /\
  stored_last (fst outcome) = Some printTime.
Proof.
  intros self J Kf W S N Z0 outcome.
  destruct (advance_first (qz 0) m W N) as (i & A & Pos).
  { rewrite Z0. apply Qcle_refl. }
  assert (T : cursor_target file_manager self progress = Some (an, m, i)).
  { unfold cursor_target, job_analysis in *.
    destruct (file_manager _ _) as [metadata|]; [|discriminate].
    destruct (Metadata.analysis metadata) as [an'|]; [|discriminate].
    destruct (Analysis.progress an') as [m'|]; [|discriminate].
    injection J as -> ->.
    change (effective_progress self progress) with (qz 0).
    change (skipn _ m) with m.
    change (_current_progress_index self) with (-1)%Z. now rewrite A. }
  assert (I : _interpolate m (effective_progress self progress)
              = Ret (Some (first_point m))).
  { change (effective_progress self progress) with (qz 0).
    apply interpolate_first; auto.
    rewrite <- Z0. apply non_decreasing_last; auto.
    destruct m; [congruence|now left]. }
  assert (Ne : i <> _current_progress_index self)
    by (change (_current_progress_index self) with (-1)%Z; lia).
  destruct (moving_tick_result file_manager default_result progress
              printTime ff self an m i (first_point m)
              T Pos Ne Kf (or_introl eq_refl) W I) as (R & _ & Anchor).
  subst outcome. split; [exact R|]. split; [exact Anchor|].
  - rewrite estimate_stored_last.
    unfold stores_last. rewrite T.
    destruct (Z.leb_spec 0 i); [|lia].
    change (_current_progress_index self) with (-1)%Z.
    destruct (Z.eqb_spec i (-1)); [lia|].
    rewrite Kf. reflexivity.
Qed.

Lemma first_tick_reports_total_witness :
  let outcome := estimate files_100 (Some (None, None)) (qf 3 10) (qz 12)
                   (init "a.gcode" "local" History.empty) in
  snd outcome
    = Ret (genius (val (first_point map_100) + qz 12 - qz 12)%Qc) /\
  _current_total_printTime (fst outcome)
    = Some (val (first_point map_100) + qz 12)%Qc /\
  stored_last (fst outcome) = Some (qz 12).
Proof.
  apply (first_tick_reports_total files_100 (Some (None, None)) (qf 3 10)
           (qz 12) (qf 1 10) "a.gcode" "local"
           (analysis_100 (qf 1 10) (qf 9 10)) map_100).
  - reflexivity.
  - reflexivity.
  - reflexivity.
  - reflexivity.
  - discriminate.
  - reflexivity.
Defined.

Section CompensationOutcome.

Lemma mapM_ret_inv {A B : Type} (f : A -> res B) (l : list A) (ys : list B) :
  mapM f l = Ret ys -> forall x, In x l -> exists y, f x = Ret y.
Proof.
  revert ys; induction l as [|a l IH]; intros ys H x I; [contradiction|].
  cbn in H. destruct (f a) as [y|e] eqn:Fa; cbn in H; [|discriminate].
  destruct (mapM f l) as [ys'|e]; cbn in H; [|discriminate].
  destruct I as [<-|I]; [eauto|]. eapply IH; eauto.
Qed.

(** [new_progress] is computed only from well-formed records, and has a
    point at position 0 in front, at least one point after it, and
    [[1, 0]] at the end. *)
Lemma compensate_new_progress_shape (print_history : list History.t)
    (analysis : Analysis.t) (new_progress : progress_map) :
  compensate_new_progress print_history analysis = Ret new_progress ->
  forallb well_formed_record print_history = true /\
  exists (est : Qc) (p : point) (points : progress_map),
    new_progress = [qz 0; est] :: (p :: points) ++ [[qz 1; qz 0]].
Proof.
  unfold compensate_new_progress.
  destruct (heat_up_times print_history) as [hs|] eqn:H1; cbn [bind];
    [|discriminate].
  destruct (average hs); cbn [bind]; [|discriminate].
  destruct (cool_down_times print_history) as [cs|] eqn:H2; cbn [bind];
    [|discriminate].
  destruct (average cs); cbn [bind]; [|discriminate].
  destruct (mapM actual_vs_predicted print_history); cbn [bind];
    [|discriminate].
  destruct (print_time_factor print_history) as [fs|] eqn:H3; cbn [bind];
    [|discriminate].
  destruct (average fs); cbn [bind]; [|discriminate].
  destruct (getkey (Analysis.progress analysis)); cbn [bind]; [|discriminate].
  destruct (getkey (Analysis.lastFilament analysis)); cbn [bind];
    [|discriminate].
  destruct (_interpolate _ _) as [interpolation|]; cbn [bind]; [|discriminate].
  destruct (match interpolation with
            | Some pt => getitem pt 1
            | None => Raise TypeError
            end); cbn [bind]; [|discriminate].
  destruct (compensate_loop _ _ _ _ _) as [np|]; cbn [bind]; [|discriminate].
  destruct np as [|p points]; [discriminate|].
  change (getitem (p :: points) 0) with (Ret p); cbn [bind].
  destruct (getitem p 1) as [np01|]; cbn [bind]; [|discriminate].
  intros [= <-]. split; [|do 3 eexists; reflexivity].
  apply forallb_forall. intros ph I.
  destruct (mapM_ret_inv _ _ _ H1 ph I) as [y1 E1].
  destruct (mapM_ret_inv _ _ _ H2 ph I) as [y2 E2].
  destruct (mapM_ret_inv _ _ _ H3 ph I) as [y3 E3].
  unfold well_formed_record, actual_vs_predicted, py_div in *.
  destruct ph as [f l pl ts ap af al]; cbn in *.
  destruct f; [|discriminate]. destruct pl as [[o pa [ti|]]|]; try discriminate.
  destruct l; [|discriminate]. destruct al; [|discriminate].
  destruct af; [|discriminate]. cbn in *.
  destruct (num_eqb _ _); [discriminate|reflexivity].
Qed.

End CompensationOutcome.

Section CompensationHelper.

Lemma compensate_outcome
    (settings_print_history : option (list History.t)) (analysis : Analysis.t) :
  exists analysis' : Analysis.t,
    compensate_analysis settings_print_history analysis = (analysis', Ret tt) /\
    (analysis' = analysis \/
     exists (print_history : list History.t) (est : Qc) (p : point)
            (points : progress_map),
       settings_print_history = Some print_history /\
       print_history <> [] /\
       forallb well_formed_record print_history = true /\
       analysis' =
         Analysis.set_estimatedPrintTime est
           (Analysis.set_progress
              ([qz 0; est] :: (p :: points) ++ [[qz 1; qz 0]]) analysis)).
Proof.
  unfold compensate_analysis, mtry.
  destruct settings_print_history as [[|ph print_history]|];
    try (eexists; split; [reflexivity|now left]).
  unfold compensate_body, mbind, get, lift, modify, mret.
  destruct (compensate_new_progress (ph :: print_history) analysis)
    as [np|e] eqn:E.
  - destruct (compensate_new_progress_shape _ _ _ E)
      as (WF & est & p & points & ->).
    eexists; split; [reflexivity|]. right.
    exists (ph :: print_history), est, p, points.
    repeat split; [discriminate|exact WF].
  - eexists; split; [reflexivity|now left].
Qed.

End CompensationHelper.

(** X11.  [compensate_analysis] never raises and is all or nothing:
    either [analysis] is left exactly as it was, or its progress map and
    its [estimatedPrintTime] are both replaced, the new map starting with
    [[0, estimatedPrintTime]], holding at least one more point, and
    ending with [[1, 0]]; no other key is touched.  It replaces them only
    if every record of the history is well-formed. *)
Theorem compensate_all_or_nothing
    (settings_print_history : option (list History.t)) (analysis : Analysis.t) :
  exists analysis' : Analysis.t,
    compensate_analysis settings_print_history analysis = (analysis', Ret tt) /\
    (analysis' = analysis \/
     exists (print_history : list History.t) (est : Qc) (p : point)
            (points : progress_map),
       settings_print_history = Some print_history /\
       print_history <> [] /\
       forallb well_formed_record print_history = true /\
       analysis' =
         Analysis.set_estimatedPrintTime est
           (Analysis.set_progress
              ([qz 0; est] :: (p :: points) ++ [[qz 1; qz 0]]) analysis)).
Proof. apply compensate_outcome. Qed.

(** X12.  One record of the history that is not well-formed (a key the
    compensation reads is missing, or the analysed mid-print duration is
    zero) turns the compensation off: [analysis] is left as it was. *)
Theorem compensate_needs_well_formed_history (print_history : list History.t)
    (analysis : Analysis.t) (ph : History.t) :
  In ph print_history -> well_formed_record ph = false ->
  compensate_analysis (Some print_history) analysis = (analysis, Ret tt).
Proof.
  intros I Bad. unfold compensate_analysis, mtry.
  destruct print_history as [|h t]; [reflexivity|].
  unfold compensate_body, mbind, get, lift, modify, mret.
  destruct (compensate_new_progress (h :: t) analysis) as [np|e] eqn:E;
    [|reflexivity].
  apply compensate_new_progress_shape in E as [WF _].
  rewrite forallb_forall in WF. rewrite (WF ph I) in Bad. discriminate.
Qed.

Lemma compensate_needs_well_formed_history_witness :
  compensate_analysis (Some [record_good; record_at (qz 50)])
    (analysis_100 (qz 0) (qf 1 2))
  = (analysis_100 (qz 0) (qf 1 2), Ret tt).
Proof.
  apply (compensate_needs_well_formed_history _ _ (record_at (qz 50))).
  - right; left; reflexivity.
  - reflexivity.
Defined.

Section SortedLists.

Context {A : Type}.
Variable R : A -> A -> Prop.

Lemma sorted_filter (f : A -> bool) (l : list A) :
  StronglySorted R l -> StronglySorted R (filter f l).
Proof.
  induction 1 as [|p l S IH F]; cbn; [constructor|].
  destruct (f p); [|exact IH].
  constructor; [exact IH|].
  rewrite Forall_forall in *. intros q I. apply filter_In in I as [I _]. auto.
Qed.

Lemma sorted_map {B : Type} (R' : B -> B -> Prop) (g : A -> B) (l : list A) :
  (forall p q, R p q -> R' (g p) (g q)) ->
  StronglySorted R l -> StronglySorted R' (map g l).
Proof.
  intros G. induction 1 as [|p l S IH F]; cbn; [constructor|].
  constructor; [exact IH|].
  apply Forall_map. eapply Forall_impl; [|exact F]. cbn. auto.
Qed.

Lemma sorted_app (l1 l2 : list A) :
  StronglySorted R l1 -> StronglySorted R l2 ->
  (forall p q, In p l1 -> In q l2 -> R p q) ->
  StronglySorted R (l1 ++ l2).
Proof.
  induction 1 as [|p l S IH F]; cbn; intros S2 C; [exact S2|].
  constructor.
  - apply IH; [exact S2|]. intros a b Ia Ib. apply C; [now right|exact Ib].
  - apply Forall_app. split; [exact F|].
    apply Forall_forall. intros q I. apply C; [now left|exact I].
Qed.

End SortedLists.

Section OrderOfPositions.

Lemma non_decreasing_sorted (l : progress_map) :
  non_decreasing l = true <->
  StronglySorted (fun p q => (pos p <= pos q)%Qc) l.
Proof.
  split.
  - induction l as [|p l IH]; intros H; [constructor|].
    constructor; [apply IH; eapply non_decreasing_tail; eauto|].
    apply Forall_forall. intros q I. eapply non_decreasing_head; eauto.
  - induction 1 as [|p l S IH F]; [reflexivity|].
    destruct l as [|q l]; [reflexivity|].
    change (non_decreasing (p :: q :: l))
      with (num_leb (pos p) (pos q) && non_decreasing (q :: l)).
    rewrite IH, andb_true_r.
    apply num_leb_le. now apply Forall_inv in F.
Qed.

Lemma strictly_increasing_sorted (l : progress_map) :
  strictly_increasing l = true <->
  StronglySorted (fun p q => (pos p < pos q)%Qc) l.
Proof.
  split.
  - induction l as [|p l IH]; intros H; [constructor|].
    constructor; [apply IH; eapply strictly_increasing_tail; eauto|].
    apply Forall_forall. intros q I. eapply strictly_increasing_head; eauto.
  - induction 1 as [|p l S IH F]; [reflexivity|].
    destruct l as [|q l]; [reflexivity|].
    change (strictly_increasing (p :: q :: l))
      with (num_ltb (pos p) (pos q) && strictly_increasing (q :: l)).
    rewrite IH, andb_true_r.
    apply num_ltb_lt. now apply Forall_inv in F.
Qed.

(** The rewritten map keeps the order of the original, given that the
    relation holds from 0 to the first kept position and the kept positions
    are below 1. *)
Lemma spec_compensated_sorted (R : Qc -> Qc -> Prop) (l : progress_map)
    (first_pos last_pos tail heat scale cool : Qc) :
  (forall x, (first_pos <= x)%Qc -> R (qz 0) x) ->
  (forall x, (x < last_pos)%Qc -> R x (qz 1)) ->
  R (qz 0) (qz 1) ->
  StronglySorted (fun p q => R (pos p) (pos q)) l ->
  StronglySorted (fun p q => R (pos p) (pos q))
    (spec_compensated l first_pos last_pos tail heat scale cool).
Proof.
  intros R0 R1 R01 S. unfold spec_compensated.
  set (K := filter (kept first_pos last_pos) l).
  assert (InK : forall p, In p (map (rescaled tail scale cool) K) ->
             (first_pos <= pos p)%Qc /\ (pos p < last_pos)%Qc).
  { intros p I. apply in_map_iff in I as (q & <- & I).
    apply filter_In in I as [_ I]. unfold kept in I.
    apply andb_prop in I as [I1 I2].
    apply num_leb_le in I1. apply num_ltb_lt in I2. now split. }
  constructor.
  - apply sorted_app.
    + apply (sorted_map (fun p q => R (pos p) (pos q))); [auto|].
      now apply sorted_filter.
    + repeat constructor.
    + intros p q Ip [<-|[]]. apply R1. now apply InK.
  - apply Forall_app. split.
    + apply Forall_forall. intros p Ip. apply R0. now apply InK.
    + repeat constructor. exact R01.
Qed.

Lemma spec_compensated_shaped (l : progress_map)
    (first_pos last_pos tail heat scale cool : Qc) :
  well_shaped (spec_compensated l first_pos last_pos tail heat scale cool)
    = true.
Proof.
  unfold spec_compensated, well_shaped. cbn [forallb is_pair length Nat.eqb andb].
  rewrite forallb_app. cbn. rewrite andb_true_r.
  apply forallb_forall. intros p I.
  apply in_map_iff in I as (q & <- & _). reflexivity.
Qed.

End OrderOfPositions.

(** X13.  What the compensation writes is again a map the estimator can
    use: with the filament positions between 0 and 1, the rewritten map is
    made of two-element points with non-decreasing positions; and it is
    strictly increasing when the original is and [firstFilament] is above
    0 (at [firstFilament = 0] it has two points at position 0). *)
Theorem compensated_map_is_ordered (print_history : list History.t)
    (analysis : Analysis.t) (l : progress_map) (first_pos last_pos : Qc) :
  print_history <> [] ->
  forallb well_formed_record print_history = true ->
  Analysis.progress analysis = Some l ->
  Analysis.firstFilament analysis = Some first_pos ->
  Analysis.lastFilament analysis = Some last_pos ->
  well_shaped l = true -> non_decreasing l = true ->
  has_position l first_pos = true -> has_position l last_pos = true ->
  (qz 0 <= first_pos)%Qc -> (first_pos < last_pos)%Qc -> (last_pos <= qz 1)%Qc ->
  exists new_map : progress_map,
    Analysis.progress (fst (compensate_analysis (Some print_history) analysis))
      = Some new_map /\
    well_shaped new_map = true /\
    non_decreasing new_map = true /\
    (strictly_increasing l = true -> (qz 0 < first_pos)%Qc ->
     strictly_increasing new_map = true).
Proof.
  intros N WF Kp Kf Kl W S Hf Hl F0 Lt L1.
  destruct (compensate_new_progress_spec print_history N WF analysis l
              first_pos last_pos Kp Kf Kl W S Hf Hl Lt) as (tp & _ & E).
  eexists. split.
  - unfold compensate_analysis, mtry.
    destruct print_history as [|h t]; [congruence|].
    unfold compensate_body, mbind, get, lift, modify. rewrite E.
    reflexivity.
  - split; [apply spec_compensated_shaped|]. split.
    + apply non_decreasing_sorted.
      apply (spec_compensated_sorted Qcle).
      * intros x H. eapply Qcle_trans; eauto.
      * intros x H. apply Qclt_le_weak. eapply Qclt_le_trans; eauto.
      * vm_compute; discriminate.
      * now apply non_decreasing_sorted.
    + intros St F0'. apply strictly_increasing_sorted.
      apply (spec_compensated_sorted Qclt).
      * intros x H. eapply Qclt_le_trans; eauto.
      * intros x H. eapply Qclt_le_trans; eauto.
      * reflexivity.
      * now apply strictly_increasing_sorted.
Qed.

Lemma compensated_map_is_ordered_witness :
  exists new_map : progress_map,
    Analysis.progress
      (fst (compensate_analysis (Some [record_good])
              (analysis_100 (qz 0) (qf 1 2))))
      = Some new_map /\
    well_shaped new_map = true /\
    non_decreasing new_map = true /\
    (strictly_increasing map_100 = true -> (qz 0 < qz 0)%Qc ->
     strictly_increasing new_map = true).
Proof.
  apply (compensated_map_is_ordered [record_good]
           (analysis_100 (qz 0) (qf 1 2)) map_100 (qz 0) (qf 1 2)).
  - discriminate.
  - reflexivity.
  - reflexivity.
  - reflexivity.
  - reflexivity.
  - reflexivity.
  - reflexivity.
  - reflexivity.
  - reflexivity.
  - vm_compute; discriminate.
  - reflexivity.
  - vm_compute; discriminate.
Defined.

Section SelectedSamples.

Variable due : option Qc -> Qc -> bool.
Variables first_pos last_pos : option Qc.

Lemma selected_In (samples : list Sample.t) (since : option Qc) (s : Sample.t) :
  In s (selected due first_pos last_pos since samples) -> In s samples.
Proof.
  revert since; induction samples as [|a samples IH]; intros since I;
    [contradiction|].
  cbn [selected] in I.
  destruct (due since (Sample.time a) || _ || _).
  - destruct I as [<-|I]; [now left|right; eauto].
  - right; eauto.
Qed.

Lemma selected_sorted (R : Sample.t -> Sample.t -> Prop)
    (samples : list Sample.t) (since : option Qc) :
  StronglySorted R samples ->
  StronglySorted R (selected due first_pos last_pos since samples).
Proof.
  intros S; revert since.
  induction S as [|a samples S IH F]; intros since; cbn [selected];
    [constructor|].
  destruct (due since (Sample.time a) || _ || _); [|apply IH].
  constructor; [apply IH|].
  rewrite Forall_forall in *. intros b I. apply F.
  eapply selected_In; eauto.
Qed.

End SelectedSamples.

Section OrderedTraces.

Lemma sorted_map_inv {A B : Type} (R : B -> B -> Prop) (g : A -> B)
    (l : list A) :
  StronglySorted R (map g l) -> StronglySorted (fun a b => R (g a) (g b)) l.
Proof.
  induction l as [|a l IH]; cbn; intros S; [constructor|].
  apply StronglySorted_inv in S as [S F].
  constructor; [now apply IH|].
  rewrite Forall_forall in *. intros b I. apply F. now apply in_map.
Qed.

Lemma final_time_is_last (front : list Sample.t) (s : Sample.t) :
  final_time (front ++ [s]) = Sample.time s.
Proof. unfold final_time. rewrite map_app. cbn. apply last_last. Qed.

Lemma final_time_is_max (samples : list Sample.t) (s : Sample.t) :
  StronglySorted (fun a b => (Sample.time a <= Sample.time b)%Qc) samples ->
  In s samples -> (Sample.time s <= final_time samples)%Qc.
Proof.
  intros S I.
  assert (N : samples <> []) by (intros ->; contradiction).
  destruct (exists_last N) as [front [z ->]].
  rewrite final_time_is_last.
  apply in_app_or in I as [I|[<-|[]]]; [|apply Qcle_refl].
  clear N. induction front as [|a front IH]; [contradiction|].
  cbn in S. apply StronglySorted_inv in S as [S F].
  destruct I as [<-|I]; [|now apply IH].
  rewrite Forall_forall in F. apply F, in_or_app. right; now left.
Qed.

(** The builder's map keeps an order of the trace's positions, given that
    the relation holds from 0 to every position and from every position
    to 1. *)
Lemma builder_positions_sorted (R : Qc -> Qc -> Prop)
    (samples : list Sample.t) (first_pos last_pos : option Qc) (total : Qc) :
  (forall s, In s samples ->
     R (qz 0) (Sample.filepos s) /\ R (Sample.filepos s) (qz 1)) ->
  R (qz 0) (qz 1) ->
  StronglySorted (fun a b => R (Sample.filepos a) (Sample.filepos b)) samples ->
  StronglySorted (fun p q => R (pos p) (pos q))
    ([[qz 0; total]]
       ++ map (emitted_point total)
            (selected more_than_60 first_pos last_pos None samples)
       ++ [[qz 1; qz 0]]).
Proof.
  intros B R01 S. cbn [app].
  assert (Sel : forall p,
             In p (map (emitted_point total)
                     (selected more_than_60 first_pos last_pos None samples)) ->
             R (qz 0) (pos p) /\ R (pos p) (qz 1)).
  { intros p I. apply in_map_iff in I as (s & <- & I).
    apply selected_In in I. now apply B. }
  constructor.
  - apply sorted_app.
    + apply (sorted_map
               (fun a b => R (Sample.filepos a) (Sample.filepos b)));
        [auto|]. now apply selected_sorted.
    + repeat constructor.
    + intros p q Ip [<-|[]]. now apply Sel.
  - apply Forall_app. split.
    + apply Forall_forall. intros p Ip. now apply Sel.
    + repeat constructor. exact R01.
Qed.

End OrderedTraces.

(** X14.  The builder's map is as ordered as the trace: made of
    two-element points; with the sample positions non-decreasing and
    within 0 and 1, its positions are non-decreasing; with the sample
    positions strictly increasing and strictly between 0 and 1, they are
    strictly increasing. *)
Theorem builder_map_is_ordered (samples : list Sample.t) :
  samples <> [] ->
  exists r : Result.t,
    main samples = Ret r /\
    well_shaped (Result.progress r) = true /\
    (non_decreasing (Scan.progress (scan samples)) = true ->
     (forall s, In s samples ->
        (qz 0 <= Sample.filepos s)%Qc /\ (Sample.filepos s <= qz 1)%Qc) ->
     non_decreasing (Result.progress r) = true) /\
    (strictly_increasing (Scan.progress (scan samples)) = true ->
     (forall s, In s samples ->
        (qz 0 < Sample.filepos s)%Qc /\ (Sample.filepos s < qz 1)%Qc) ->
     strictly_increasing (Result.progress r) = true).
Proof.
  intros N. eexists. split; [apply (main_result samples N)|].
  cbn [Result.progress]. rewrite scan_progress. repeat split.
  - unfold well_shaped. cbn [app forallb is_pair length Nat.eqb andb].
    rewrite forallb_app. cbn. rewrite andb_true_r.
    apply forallb_forall. intros p I.
    apply in_map_iff in I as (s & <- & _). reflexivity.
  - intros S B. apply non_decreasing_sorted.
    apply (builder_positions_sorted Qcle); [exact B|vm_compute; discriminate|].
    apply non_decreasing_sorted in S.
    apply (sorted_map_inv (fun p q => (pos p <= pos q)%Qc)) in S. exact S.
  - intros S B. apply strictly_increasing_sorted.
    apply (builder_positions_sorted Qclt); [exact B|reflexivity|].
    apply strictly_increasing_sorted in S.
    apply (sorted_map_inv (fun p q => (pos p < pos q)%Qc)) in S. exact S.
Qed.

Lemma builder_map_is_ordered_witness :
  exists r : Result.t,
    main trace_60 = Ret r /\ strictly_increasing (Result.progress r) = true.
Proof.
  destruct (builder_map_is_ordered trace_60) as (r & E & _ & _ & S).
  - discriminate.
  - exists r. split; [exact E|]. apply S.
    + reflexivity.
    + intros s [<-|[<-|[<-|[]]]]; split; reflexivity.
Defined.

Section Values.

Lemma minus_le_minus (total a b : Qc) :
  (a <= b)%Qc -> (total - b <= total - a)%Qc.
Proof. intros H. qc_to_q. lra. Qed.

Lemma minus_nonneg (total a : Qc) : (a <= total)%Qc -> (0 <= total - a)%Qc.
Proof. intros H. qc_to_q. lra. Qed.

Lemma minus_le_self (total a : Qc) : (0 <= a)%Qc -> (total - a <= total)%Qc.
Proof. intros H. qc_to_q. lra. Qed.

End Values.

(** X15.  For a trace whose elapsed times start at 0 or later and never
    decrease, the remaining times of the builder's map never increase
    along the map, from [estimatedPrintTime] at position 0 down to 0 at
    position 1, and none is negative. *)
Theorem builder_values_never_increase (samples : list Sample.t) :
  samples <> [] ->
  StronglySorted (fun a b => (Sample.time a <= Sample.time b)%Qc) samples ->
  (forall s, In s samples -> (0 <= Sample.time s)%Qc) ->
  exists r : Result.t,
    main samples = Ret r /\
    StronglySorted (fun p q => (val q <= val p)%Qc) (Result.progress r) /\
    Forall (fun p => (0 <= val p)%Qc /\ (val p <= Result.estimatedPrintTime r)%Qc)
      (Result.progress r).
Proof.
  intros N S P. eexists. split; [apply (main_result samples N)|].
  cbn [Result.progress Result.estimatedPrintTime].
  set (T := final_time samples).
  set (sel := selected more_than_60 _ _ None samples).
  assert (T0 : (0 <= T)%Qc).
  { destruct (exists_last N) as [front [z E]]. subst T. rewrite E.
    rewrite final_time_is_last. apply P. rewrite E.
    apply in_or_app; right; now left. }
  assert (Sel : forall p, In p (map (emitted_point T) sel) ->
             (0 <= val p)%Qc /\ (val p <= T)%Qc).
  { intros p I. apply in_map_iff in I as (s & <- & I).
    apply selected_In in I. cbn [emitted_point val nth]. split.
    - apply minus_nonneg. now apply final_time_is_max.
    - apply minus_le_self. now apply P. }
  split.
  - cbn [app]. constructor.
    + apply sorted_app.
      * apply (sorted_map
                 (fun a b => (Sample.time a <= Sample.time b)%Qc)).
        -- intros a b H. cbn [emitted_point val nth].
           now apply minus_le_minus.
        -- now apply selected_sorted.
      * repeat constructor.
      * intros p q Ip [<-|[]]. now apply Sel.
    + apply Forall_app. split.
      * apply Forall_forall. intros p Ip. now apply Sel.
      * repeat constructor. exact T0.
  - cbn [app]. constructor; [split; [exact T0|apply Qcle_refl]|].
    apply Forall_app. split.
    + apply Forall_forall. intros p Ip. now apply Sel.
    + repeat constructor; [vm_compute; discriminate|exact T0].
Qed.

Lemma builder_values_never_increase_witness :
  exists r : Result.t,
    main trace_60 = Ret r /\
    StronglySorted (fun p q => (val q <= val p)%Qc) (Result.progress r) /\
    Forall (fun p => (0 <= val p)%Qc /\ (val p <= Result.estimatedPrintTime r)%Qc)
      (Result.progress r).
Proof.
  apply (builder_values_never_increase trace_60).
  - discriminate.
  - repeat constructor; vm_compute; discriminate.
  - intros s [<-|[<-|[<-|[]]]]; vm_compute; discriminate.
Defined.

(** X16.  Where no extruding sample sits at position 0, [firstFilament]
    is the position of the first sample whose filament is above zero
    ([None] when there is none). *)
Theorem first_filament_is_first_extruding (samples : list Sample.t) :
  samples <> [] ->
  (forall s, In s samples ->
     (0 < Sample.filament s)%Qc -> Sample.filepos s <> 0%Qc) ->
  exists r : Result.t,
    main samples = Ret r /\
    Result.firstFilament r = spec_firstFilamentPos samples.
Proof.
  intros N H. eexists. split; [apply (main_result samples N)|].
  cbn [Result.firstFilament]. now apply scan_first_filament.
Qed.

Lemma first_filament_is_first_extruding_witness :
  exists r : Result.t,
    main trace_60 = Ret r /\
    Result.firstFilament r = spec_firstFilamentPos trace_60.
Proof.
  apply (first_filament_is_first_extruding trace_60).
  - discriminate.
  - intros s [<-|[<-|[<-|[]]]] _; vm_compute; discriminate.
Defined.

(** X17.  Where the largest filament of the trace is above zero,
    [lastFilament] is the position of the first sample that reaches it. *)
Theorem last_filament_is_first_maximum (before later : list Sample.t)
    (s : Sample.t) :
  (0 < Sample.filament s)%Qc ->
  (forall x, In x before -> (Sample.filament x < Sample.filament s)%Qc) ->
  (forall x, In x later -> (Sample.filament x <= Sample.filament s)%Qc) ->
  exists r : Result.t,
    main (before ++ s :: later) = Ret r /\
    Result.lastFilament r = Some (Sample.filepos s).
Proof.
  intros Pos Lt Le. eexists. split.
  - apply (main_result (before ++ s :: later)). now destruct before.
  - cbn [Result.lastFilament]. now apply scan_last_filament.
Qed.

Lemma last_filament_is_first_maximum_witness :
  exists r : Result.t,
    main ([sample (qf 1 10) (qz 0) (qz 0)]
            ++ sample (qf 1 5) (qz 3) (qz 60)
            :: [sample (qf 3 10) (qz 3) (qz 61)]) = Ret r /\
    Result.lastFilament r = Some (qf 1 5).
Proof.
  apply (last_filament_is_first_maximum
           [sample (qf 1 10) (qz 0) (qz 0)]
           [sample (qf 3 10) (qz 3) (qz 61)]
           (sample (qf 1 5) (qz 3) (qz 60))).
  - reflexivity.
  - intros x [<-|[]]. reflexivity.
  - intros x [<-|[]]. vm_compute; discriminate.
Defined.

Section NoExtrusion.

Lemma fold_scan_no_filament (samples : list Sample.t) (st : Scan.t) :
  (forall s, In s samples -> Sample.filament s = 0%Qc) ->
  falsy (Scan.max_filament st) = true ->
  Scan.first_filament (fold_left scan_line samples st)
    = Scan.first_filament st /\
  falsy (Scan.max_filament (fold_left scan_line samples st)) = true.
Proof.
  revert st; induction samples as [|s samples IH]; intros st Z F;
    [now split|].
  cbn [fold_left].
  assert (Zs : Sample.filament s = 0%Qc) by (apply Z; now left).
  destruct (IH (scan_line st s)) as [H1 H2].
  - intros s' I; apply Z; now right.
  - unfold scan_line; cbn. rewrite F; cbn. rewrite Zs. reflexivity.
  - split; [|exact H2]. rewrite H1. unfold scan_line; cbn.
    rewrite Zs. reflexivity.
Qed.

End NoExtrusion.

(** X18.  A trace that never extrudes (every filament is 0) gives
    [firstFilament = None] and, as [lastFilament], the position of its
    final sample. *)
Theorem trace_without_extrusion (front : list Sample.t) (final : Sample.t) :
  (forall s, In s (front ++ [final]) -> Sample.filament s = 0%Qc) ->
  exists r : Result.t,
    main (front ++ [final]) = Ret r /\
    Result.firstFilament r = None /\
    Result.lastFilament r = Some (Sample.filepos final).
Proof.
  intros Z. eexists. split.
  - apply (main_result (front ++ [final])). now destruct front.
  - cbn [Result.firstFilament Result.lastFilament]. unfold scan.
    rewrite fold_left_app. cbn [fold_left].
    destruct (fold_scan_no_filament front Scan.start) as [H1 H2];
      [intros s I; apply Z, in_or_app; now left|reflexivity|].
    set (st := fold_left scan_line front Scan.start) in *.
    unfold scan_line; cbn [Scan.first_filament Scan.last_filament].
    rewrite H1, H2. cbn [Scan.first_filament Scan.start falsy andb orb].
    rewrite andb_true_r.
    rewrite (Z final) by (apply in_or_app; right; now left).
    split; reflexivity.
Qed.

Lemma trace_without_extrusion_witness :
  exists r : Result.t,
    main ([sample (qf 1 10) (qz 0) (qz 0)] ++ [sample (qf 1 5) (qz 0) (qz 9)])
      = Ret r /\
    Result.firstFilament r = None /\
    Result.lastFilament r = Some (qf 1 5).
Proof.
  apply (trace_without_extrusion [sample (qf 1 10) (qz 0) (qz 0)]
           (sample (qf 1 5) (qz 0) (qz 9))).
  intros s [<-|[<-|[]]]; reflexivity.
Defined.

Section Analyzers.

Lemma run_analyzer_well_configured (results : option Analysis.t)
    (a : Analyzer.t) :
  well_configured a = true -> exists r, run_analyzer results a = Ret r.
Proof.
  unfold well_configured, run_analyzer.
  destruct (Analyzer.command a); [|discriminate].
  destruct (Analyzer.enabled a) as [[|]|]; [| |discriminate]; intros _; cbn.
  - destruct (Analyzer.output a); [destruct results|]; eauto.
  - eauto.
Qed.

Lemma run_analyzers_well_configured (analyzers : list Analyzer.t)
    (results : option Analysis.t) :
  forallb well_configured analyzers = true ->
  exists r, run_analyzers analyzers results = Ret r.
Proof.
  revert results; induction analyzers as [|a analyzers IH]; intros results H;
    cbn [run_analyzers]; [eauto|].
  cbn [forallb] in H. apply andb_prop in H as [Ha H].
  destruct (run_analyzer_well_configured results a Ha) as [r ->]. cbn [bind].
  now apply IH.
Qed.

(** Without a dict to update, the loop returns nothing but [None]. *)
Lemma run_analyzers_none (analyzers : list Analyzer.t)
    (r : option Analysis.t) :
  run_analyzers analyzers None = Ret r -> r = None.
Proof.
  induction analyzers as [|a analyzers IH]; cbn [run_analyzers].
  - congruence.
  - unfold run_analyzer at 1.
    destruct (Analyzer.command a); cbn [bind]; [|discriminate].
    destruct (Analyzer.enabled a) as [[|]|]; cbn [bind getkey negb];
      [| |discriminate]; [destruct (Analyzer.output a)|]; exact IH.
Qed.

Lemma run_analyzer_passed_over (results : option Analysis.t) (a : Analyzer.t) :
  passed_over a = true -> run_analyzer results a = Ret results.
Proof.
  unfold passed_over, well_configured, run_analyzer.
  destruct (Analyzer.command a); [|discriminate].
  destruct (Analyzer.enabled a) as [[|]|]; cbn; try discriminate;
    [|reflexivity].
  destruct (Analyzer.output a); [discriminate|reflexivity].
Qed.

Lemma run_analyzers_passed_over (analyzers : list Analyzer.t)
    (results : option Analysis.t) :
  run_analyzers analyzers results
    = run_analyzers (filter (fun a => negb (passed_over a)) analyzers) results.
Proof.
  revert results; induction analyzers as [|a analyzers IH]; intros results;
    [reflexivity|].
  cbn [run_analyzers filter]. destruct (passed_over a) eqn:P; cbn [negb].
  - rewrite (run_analyzer_passed_over results a P). cbn [bind]. apply IH.
  - cbn [run_analyzers]. destruct (run_analyzer results a); cbn [bind];
      [apply IH|reflexivity].
Qed.

Lemma run_analyzers_bad_command (before after : list Analyzer.t)
    (a : Analyzer.t) (e : exn) (results : option Analysis.t) :
  forallb well_configured before = true ->
  Analyzer.command a = Raise e ->
  run_analyzers (before ++ a :: after) results = Raise e.
Proof.
  revert results; induction before as [|b before IH]; intros results H E.
  - cbn [app run_analyzers]. unfold run_analyzer. now rewrite E.
  - cbn [forallb] in H. apply andb_prop in H as [Hb H].
    cbn [app run_analyzers].
    destruct (run_analyzer_well_configured results b Hb) as [r ->].
    cbn [bind]. now apply IH.
Qed.

End Analyzers.

(** X19.  With the built-in analysis switched off, [_do_analysis] never
    returns an analysis: [results] starts as [None], every
    [results.update] raises inside its [try], and the last [try] fails on
    [x in None].  It returns [None] when every analyzer's command formats
    and every analyzer has its [enabled] key, whatever the analyzers
    produce; and whenever it returns, it returns [None]. *)
Theorem analysis_needs_builtin (builtin : Analysis.t)
    (analyzers : list Analyzer.t)
    (settings_print_history : option (list History.t)) :
  (forallb well_configured analyzers = true ->
   _do_analysis false builtin analyzers settings_print_history = Ret None) /\
  (forall r : option Analysis.t,
     _do_analysis false builtin analyzers settings_print_history = Ret r ->
     r = None).
Proof.
  unfold _do_analysis. split.
  - intros H.
    destruct (run_analyzers_well_configured analyzers None H) as [r E].
    rewrite E. now rewrite (run_analyzers_none analyzers r E).
  - intros r. destruct (run_analyzers analyzers None) as [r'|e] eqn:E;
      cbn [bind]; [|discriminate].
    rewrite (run_analyzers_none analyzers r' E). congruence.
Qed.

(** X20.  An analyzer whose command formats and whose [enabled] key is
    there, and which is disabled or whose run fails, is passed over
    without any effect on the others: [_do_analysis] gives what it gives
    without these analyzers, the rest taken in their order. *)
Theorem failing_analyzers_are_skipped (enableOctoPrintAnalyzer : bool)
    (builtin : Analysis.t) (analyzers : list Analyzer.t)
    (settings_print_history : option (list History.t)) :
  _do_analysis enableOctoPrintAnalyzer builtin analyzers settings_print_history
  = _do_analysis enableOctoPrintAnalyzer builtin
      (filter (fun a => negb (passed_over a)) analyzers)
      settings_print_history.
Proof.
  unfold _do_analysis.
  now rewrite (run_analyzers_passed_over analyzers).
Qed.

(** X27.  The command of an analyzer is formatted before its [enabled]
    flag is looked at and outside every [try]: when the commands before
    it format (and these analyzers have their [enabled] key), a command
    that fails to format makes [_do_analysis] raise that exception and
    return no analysis, also when its analyzer is disabled, and whatever
    the built-in analysis and the other analyzers produced. *)
Theorem bad_command_stops_analysis (enableOctoPrintAnalyzer : bool)
    (builtin : Analysis.t) (before after : list Analyzer.t) (a : Analyzer.t)
    (e : exn) (settings_print_history : option (list History.t)) :
  forallb well_configured before = true ->
  Analyzer.command a = Raise e ->
  _do_analysis enableOctoPrintAnalyzer builtin (before ++ a :: after)
    settings_print_history = Raise e.
Proof.
  intros H E. unfold _do_analysis.
  now rewrite (run_analyzers_bad_command before after a e _ H E).
Qed.

Lemma bad_command_stops_analysis_witness :
  _do_analysis true (analysis_100 (qf 1 10) (qf 9 10))
    ([analyzer_100] ++ analyzer_awk :: [analyzer_100]) None = Raise KeyError.
Proof.
  apply (bad_command_stops_analysis true _ [analyzer_100] [analyzer_100]
           analyzer_awk KeyError None); reflexivity.
Defined.

Section Calibration.

Variable settings_print_history : option (list History.t).

Lemma compensate_keeps_calibration (a : Analysis.t) :
  let a' := fst (compensate_analysis settings_print_history a) in
  Analysis.firstFilament a' = Analysis.firstFilament a /\
  Analysis.lastFilament a' = Analysis.lastFilament a /\
  Analysis.analysisPrintTime a' = Analysis.analysisPrintTime a /\
  Analysis.analysisFirstFilamentPrintTime a'
    = Analysis.analysisFirstFilamentPrintTime a /\
  Analysis.analysisLastFilamentPrintTime a'
    = Analysis.analysisLastFilamentPrintTime a.
Proof.
  destruct (compensate_outcome settings_print_history a)
    as (a' & E & [->|(h & est & p & points & _ & _ & _ & ->)]);
    rewrite E; cbn; repeat split.
Qed.

Lemma save_and_compensate_incomplete (a : Analysis.t) :
  has_key (Analysis.progress a) && has_key (Analysis.firstFilament a)
  && has_key (Analysis.lastFilament a) = false ->
  save_and_compensate settings_print_history a = (a, Ret tt).
Proof.
  intros H. unfold save_and_compensate, mtry, mbind, get. now rewrite H.
Qed.

(** The lookup of one calibration time. *)
Lemma analysis_time_at_spec (a : Analysis.t) (m : progress_map)
    (apt x : Qc) (filament : option Qc) :
  Analysis.analysisPrintTime a = Some apt ->
  Analysis.progress a = Some m -> filament = Some x ->
  well_shaped m = true -> m <> [] ->
  analysis_time_at a filament =
    match _interpolate m x with
    | Ret (Some pt) => Ret (apt - val pt)%Qc
    | Ret None => Raise TypeError
    | Raise e => Raise e
    end.
Proof.
  intros Ka Kp -> W N. unfold analysis_time_at. rewrite Ka, Kp; cbn [bind getkey].
  destruct (_interpolate m x) as [[pt|]|e] eqn:I; cbn [bind]; try reflexivity.
  now rewrite (getitem_pair_1 pt (interpolate_pair m x pt W N I)).
Qed.

End Calibration.

Section SaveAndCompensate.

Variable settings_print_history : option (list History.t).
Variable a : Analysis.t.
Variable m : progress_map.
Variables ff lf est : Qc.
Hypothesis has_progress : Analysis.progress a = Some m.
Hypothesis has_first : Analysis.firstFilament a = Some ff.
Hypothesis has_last : Analysis.lastFilament a = Some lf.
Hypothesis has_estimate : Analysis.estimatedPrintTime a = Some est.
Hypothesis shaped : well_shaped m = true.
Hypothesis nonempty : m <> [].

Lemma save_first_time :
  analysis_time_at (set_analysisPrintTime est a) (Some ff) =
    match _interpolate m ff with
    | Ret (Some pt) => Ret (est - val pt)%Qc
    | Ret None => Raise TypeError
    | Raise e => Raise e
    end.
Proof.
  now apply analysis_time_at_spec.
Qed.

Lemma save_last_time (t1 : Qc) :
  analysis_time_at
    (set_analysisFirstFilamentPrintTime t1 (set_analysisPrintTime est a))
    (Some lf) =
    match _interpolate m lf with
    | Ret (Some pt) => Ret (est - val pt)%Qc
    | Ret None => Raise TypeError
    | Raise e => Raise e
    end.
Proof.
  now apply analysis_time_at_spec.
Qed.

Lemma save_and_compensate_unfold :
  save_and_compensate settings_print_history a =
    match analysis_time_at (set_analysisPrintTime est a) (Some ff) with
    | Raise _ => (set_analysisPrintTime est a, Ret tt)
    | Ret t1 =>
        let a1 := set_analysisFirstFilamentPrintTime t1
                    (set_analysisPrintTime est a) in
        match analysis_time_at a1 (Some lf) with
        | Raise _ => (a1, Ret tt)
        | Ret t2 =>
            (fst (compensate_analysis settings_print_history
                    (set_analysisLastFilamentPrintTime t2 a1)), Ret tt)
        end
    end.
Proof.
  unfold save_and_compensate, mtry, mbind, get, lift, modify, mret.
  rewrite has_progress, has_first, has_last, has_estimate.
  cbn [has_key andb negb getkey].
  cbn [set_analysisPrintTime Analysis.firstFilament].
  rewrite has_first.
  fold (set_analysisPrintTime est a).
  destruct (analysis_time_at (set_analysisPrintTime est a) (Some ff))
    as [t1|e1]; [|reflexivity].
  cbn [set_analysisFirstFilamentPrintTime Analysis.lastFilament
       set_analysisPrintTime].
  rewrite has_last.
  fold (set_analysisPrintTime est a).
  fold (set_analysisFirstFilamentPrintTime t1 (set_analysisPrintTime est a)).
  destruct (analysis_time_at _ (Some lf)) as [t2|e2]; [|reflexivity].
  cbv zeta.
  destruct (compensate_outcome settings_print_history
              (set_analysisLastFilamentPrintTime t2
                 (set_analysisFirstFilamentPrintTime t1
                    (set_analysisPrintTime est a)))) as (a' & E & _).
  now rewrite E.
Qed.

End SaveAndCompensate.

(** X21.  When the merged analysis has a non-empty map of pairs, an
    estimate and both filament positions inside the map's range, the last
    step of [_do_analysis] never fails: [analysisPrintTime] is the estimate
    as analysed, the two filament times are that estimate less the
    interpolated remaining times, and the compensation that follows, which
    may replace the map and the estimate, leaves the three of them as they
    are. *)
Theorem calibration_times_saved
    (settings_print_history : option (list History.t)) (a : Analysis.t)
    (m : progress_map) (ff lf est : Qc) :
  Analysis.progress a = Some m ->
  Analysis.firstFilament a = Some ff ->
  Analysis.lastFilament a = Some lf ->
  Analysis.estimatedPrintTime a = Some est ->
  well_shaped m = true -> m <> [] ->
  (pos (first_point m) <= ff)%Qc -> (ff <= pos (last_point m))%Qc ->
  (pos (first_point m) <= lf)%Qc -> (lf <= pos (last_point m))%Qc ->
  exists pf pl : point,
    _interpolate m ff = Ret (Some pf) /\
    _interpolate m lf = Ret (Some pl) /\
    let a' := fst (save_and_compensate settings_print_history a) in
    Analysis.analysisPrintTime a' = Some est /\
    Analysis.analysisFirstFilamentPrintTime a' = Some (est - val pf)%Qc /\
    Analysis.analysisLastFilamentPrintTime a' = Some (est - val pl)%Qc.
Proof.
  intros Kp Kf Kl Ke W N F1 F2 L1 L2.
  destruct (interpolate_in_range m W N ff F1 F2) as (pf & If).
  destruct (interpolate_in_range m W N lf L1 L2) as (pl & Il).
  exists pf, pl. split; [exact If|]. split; [exact Il|].
  rewrite (save_and_compensate_unfold settings_print_history a m ff lf est
             Kp Kf Kl Ke).
  rewrite (save_first_time a m ff est Kp W N), If.
  cbv zeta.
  rewrite (save_last_time a m lf est Kp W N), Il.
  cbn [fst].
  destruct (compensate_keeps_calibration settings_print_history
              (set_analysisLastFilamentPrintTime (est - val pl)
                 (set_analysisFirstFilamentPrintTime (est - val pf)
                    (set_analysisPrintTime est a))))
    as (_ & _ & -> & -> & ->).
  cbn. repeat split.
Qed.

Lemma calibration_times_saved_witness :
  exists pf pl : point,
    _interpolate map_100 (qz 0) = Ret (Some pf) /\
    _interpolate map_100 (qz 1) = Ret (Some pl) /\
    let a' := fst (save_and_compensate None (analysis_100 (qz 0) (qz 1))) in
    Analysis.analysisPrintTime a' = Some (qz 100) /\
    Analysis.analysisFirstFilamentPrintTime a' = Some (qz 100 - val pf)%Qc /\
    Analysis.analysisLastFilamentPrintTime a' = Some (qz 100 - val pl)%Qc.
Proof.
  apply (calibration_times_saved None (analysis_100 (qz 0) (qz 1)) map_100
           (qz 0) (qz 1) (qz 100));
    try reflexivity; try discriminate; vm_compute; discriminate.
Defined.

(** X22.  When [firstFilament] lies outside the range of the map,
    [_interpolate] gives [None], the subscript raises and the handler
    leaves [results] half written: [analysisPrintTime] is set, the two
    filament times are not, and no compensation is made.  [on_event] then
    takes such an analysis for a usable one and raises [KeyError] at the
    end of a print, and the print is not added to the stored history. *)
Theorem position_outside_map_breaks_print_done
    (settings_print_history : option (list History.t)) (a : Analysis.t)
    (m : progress_map) (ff lf est : Qc)
    (file_manager : FileManager) (now : Qc) (payload : Payload.t)
    (self : Plugin.t) (current : History.t) :
  Analysis.progress a = Some m ->
  Analysis.firstFilament a = Some ff ->
  Analysis.lastFilament a = Some lf ->
  Analysis.estimatedPrintTime a = Some est ->
  Analysis.analysisFirstFilamentPrintTime a = None ->
  well_shaped m = true -> m <> [] ->
  (ff < pos (first_point m))%Qc \/ (pos (last_point m) < ff)%Qc ->
  Plugin._current_history self = Some current ->
  file_manager (Payload.origin payload) (Payload.path payload)
    = Some {| Metadata.analysis :=
                Some (fst (save_and_compensate settings_print_history a)) |} ->
  fst (save_and_compensate settings_print_history a)
    = set_analysisPrintTime est a /\
  snd (on_event file_manager now "PrintDone" payload self) = Raise KeyError /\
  Plugin.print_history (fst (on_event file_manager now "PrintDone" payload self))
    = Plugin.print_history self.
Proof.
  intros Kp Kf Kl Ke Kn W N Out Hc Hm.
  assert (I : _interpolate m ff = Ret None).
  { destruct Out; [now apply interpolate_below|now apply interpolate_above]. }
  assert (E : fst (save_and_compensate settings_print_history a)
              = set_analysisPrintTime est a).
  { rewrite (save_and_compensate_unfold settings_print_history a m ff lf est
               Kp Kf Kl Ke).
    now rewrite (save_first_time a m ff est Kp W N), I. }
  split; [exact E|].
  unfold on_event. cbn [String.eqb Ascii.eqb Bool.eqb].
  unfold mbind, get, lift, modify, mret.
  rewrite Hm. cbn [Metadata.analysis]. rewrite E.
  cbn [set_analysisPrintTime Analysis.analysisPrintTime
       Analysis.analysisFirstFilamentPrintTime has_key negb].
  rewrite Hc, Kn. split; reflexivity.
Qed.

Lemma position_outside_map_breaks_print_done_witness :
  fst (save_and_compensate None analysis_beyond)
    = set_analysisPrintTime (qz 100) analysis_beyond /\
  snd (on_event
         (fun _ _ => Some {| Metadata.analysis :=
              Some (fst (save_and_compensate None analysis_beyond)) |})
         (qz 1000) "PrintDone" payload_done
         {| Plugin.print_history := None;
            Plugin._current_history := Some History.empty |})
    = Raise KeyError /\
  Plugin.print_history
    (fst (on_event
            (fun _ _ => Some {| Metadata.analysis :=
                 Some (fst (save_and_compensate None analysis_beyond)) |})
            (qz 1000) "PrintDone" payload_done
            {| Plugin.print_history := None;
               Plugin._current_history := Some History.empty |}))
    = None.
Proof.
  apply (position_outside_map_breaks_print_done None analysis_beyond map_half
           (qf 3 5) (qf 4 5) (qz 100)
           (fun _ _ => Some {| Metadata.analysis :=
                Some (fst (save_and_compensate None analysis_beyond)) |})
           (qz 1000) payload_done
           {| Plugin.print_history := None;
              Plugin._current_history := Some History.empty |}
           History.empty);
    try reflexivity; try discriminate.
  right. vm_compute. reflexivity.
Defined.

Section PrintDone.

Variable file_manager : FileManager.
Variable now : Qc.
Variable payload : Payload.t.
Variable self : Plugin.t.
Variable metadata : Metadata.t.
Variable an : Analysis.t.
Variables apt afft alft : Qc.
Variable current : History.t.
Hypothesis has_metadata :
  file_manager (Payload.origin payload) (Payload.path payload) = Some metadata.
Hypothesis has_analysis : Metadata.analysis metadata = Some an.
Hypothesis has_apt : Analysis.analysisPrintTime an = Some apt.
Hypothesis has_afft : Analysis.analysisFirstFilamentPrintTime an = Some afft.
Hypothesis has_alft : Analysis.analysisLastFilamentPrintTime an = Some alft.
Hypothesis has_current : Plugin._current_history self = Some current.

(** The handler once the record is appended. *)
Lemma on_event_appends :
  on_event file_manager now "PrintDone" payload self =
    match sort_by_timestamp
            (stored_history self
               ++ [History.complete payload now apt afft alft current]) with
    | Ret sorted =>
        ({| Plugin.print_history := Some (firstn MAX_HISTORY_ITEMS sorted);
            Plugin._current_history := None |}, Ret tt)
    | Raise e => (Plugin.set_current_history None self, Raise e)
    end.
Proof.
  unfold on_event. change (String.eqb "PrintDone" "PrintDone") with true.
  cbv iota. unfold mbind, get, lift, modify, mret.
  rewrite has_metadata, has_analysis, has_apt, has_afft, has_alft, has_current;
    cbn [has_key negb getkey].
  fold (stored_history self).
  destruct (sort_by_timestamp _); reflexivity.
Qed.

End PrintDone.

Section NewestFirst.

Lemma decorate_app (h : list History.t) (x : History.t) :
  combine (map stamp (h ++ [x])) (h ++ [x])
    = combine (map stamp h) h ++ [(stamp x, x)].
Proof. induction h as [|y h IH]; cbn; [reflexivity|now rewrite IH]. Qed.

Lemma sort_desc_newest (k : Qc) (x : History.t) (l : list (Qc * History.t)) :
  Forall (fun kx => (fst kx < k)%Qc) l ->
  sort_desc (l ++ [(k, x)]) = (k, x) :: sort_desc l.
Proof.
  induction 1 as [|[k' y] l H F IH]; [reflexivity|].
  cbn [app]. change (sort_desc ((k', y) :: l ++ [(k, x)]))
    with (insert_desc k' y (sort_desc (l ++ [(k, x)]))).
  rewrite IH. cbn [insert_desc].
  cbn in H. now rewrite (proj2 (num_ltb_lt _ _) H).
Qed.

Lemma sort_decorated_sorted (h : list History.t) :
  most_recent_first h ->
  sort_desc (combine (map stamp h) h) = combine (map stamp h) h.
Proof.
  induction 1 as [|x h S IH F]; [reflexivity|].
  cbn [map combine].
  change (sort_desc ((stamp x, x) :: combine (map stamp h) h))
    with (insert_desc (stamp x) x (sort_desc (combine (map stamp h) h))).
  rewrite IH. destruct h as [|y h]; [reflexivity|].
  cbn [map combine insert_desc].
  apply Forall_inv in F. unfold as_recent_as in F. fold (stamp x) (stamp y) in F.
  now rewrite (proj2 (num_ltb_ge _ _) F).
Qed.

Lemma sort_newest_first (h : list History.t) (x : History.t) :
  timestamped (h ++ [x]) -> most_recent_first h ->
  Forall (fun y => (stamp y < stamp x)%Qc) h ->
  sort_by_timestamp (h ++ [x]) = Ret (x :: h).
Proof.
  intros T S Old. unfold sort_by_timestamp.
  rewrite (timestamps_present _ T); cbn [bind].
  fold stamp. change (fun x0 : History.t => value (History.timestamp x0)) with stamp.
  rewrite decorate_app, sort_desc_newest.
  - rewrite (sort_decorated_sorted h S). cbn [map snd].
    f_equal. f_equal. apply undecorate.
  - clear T S. induction Old as [|y h H F IH]; cbn; constructor; assumption.
Qed.

End NewestFirst.

Lemma timestamped_firstn (n : nat) (l : list History.t) :
  timestamped l -> timestamped (firstn n l).
Proof.
  unfold timestamped. intros H.
  rewrite <- (firstn_skipn n l) in H. now apply Forall_app in H.
Qed.

(** X23.  With a clock that moves forward, the sort of [on_event] comes
    down to a push at the front: when the stored records are most recent
    first and all older than the event, the history persisted is the
    finished job's record followed by the first four stored ones. *)
Theorem newest_record_goes_first (file_manager : FileManager) (now : Qc)
    (payload : Payload.t) (self : Plugin.t) (metadata : Metadata.t)
    (an : Analysis.t) (apt afft alft : Qc) (current : History.t) :
  file_manager (Payload.origin payload) (Payload.path payload) = Some metadata ->
  Metadata.analysis metadata = Some an ->
  Analysis.analysisPrintTime an = Some apt ->
  Analysis.analysisFirstFilamentPrintTime an = Some afft ->
  Analysis.analysisLastFilamentPrintTime an = Some alft ->
  Plugin._current_history self = Some current ->
  timestamped (stored_history self) ->
  most_recent_first (stored_history self) ->
  Forall (fun h => (value (History.timestamp h) < now)%Qc) (stored_history self) ->
  on_event file_manager now "PrintDone" payload self =
    ({| Plugin.print_history :=
          Some (History.complete payload now apt afft alft current
                  :: firstn 4 (stored_history self));
        Plugin._current_history := None |}, Ret tt).
Proof.
  intros Md An Apt Afft Alft Cur T S Old.
  rewrite (on_event_appends file_manager now payload self metadata an apt afft
             alft current Md An Apt Afft Alft Cur).
  rewrite sort_newest_first; [reflexivity| |exact S|exact Old].
  apply Forall_app; split; [exact T|]. repeat constructor.
Qed.

Lemma newest_record_goes_first_witness :
  on_event files_analysed (qz 2000) "PrintDone" payload_done
    {| Plugin.print_history := Some [record_good; record_at (qz 50)];
       Plugin._current_history := Some History.empty |}
  = ({| Plugin.print_history :=
          Some (History.complete payload_done (qz 2000) (qz 100) (qz 10) (qz 90)
                  History.empty
                :: firstn 4 [record_good; record_at (qz 50)]);
        Plugin._current_history := None |}, Ret tt).
Proof.
  eapply (newest_record_goes_first files_analysed); try reflexivity.
  - repeat constructor.
  - repeat constructor; vm_compute; discriminate.
  - repeat constructor; vm_compute; reflexivity.
Defined.

(** X24.  [on_event] keeps the stored history usable: if every stored
    record has its timestamp, so has every record after the event,
    whatever the event, the metadata and the job's record are; and an
    event that raises has persisted nothing. *)
Theorem stored_history_stays_timestamped (file_manager : FileManager)
    (now : Qc) (event : string) (payload : Payload.t) (self : Plugin.t) :
  timestamped (stored_history self) ->
  let r := on_event file_manager now event payload self in
  timestamped (stored_history (fst r)) /\
  (forall e : exn, snd r = Raise e ->
     Plugin.print_history (fst r) = Plugin.print_history self).
Proof.
  intros T r. subst r. unfold on_event.
  destruct (String.eqb event "PrintDone"); [|split; [exact T|reflexivity]].
  unfold mbind at 1, get at 1.
  destruct (file_manager (Payload.origin payload) (Payload.path payload))
    as [metadata|] eqn:Md; [|split; [exact T|reflexivity]].
  destruct (Metadata.analysis metadata) as [an|] eqn:An;
    [|split; [exact T|reflexivity]].
  destruct (Analysis.analysisPrintTime an) as [apt|] eqn:Apt;
    [|split; [exact T|reflexivity]].
  cbn [has_key negb].
  unfold mbind, get, lift, modify, mret.
  destruct (Plugin._current_history self) as [current|];
    [|split; [exact T|reflexivity]].
  cbn [getkey].
  destruct (Analysis.analysisFirstFilamentPrintTime an) as [afft|];
    [|split; [exact T|reflexivity]].
  destruct (Analysis.analysisLastFilamentPrintTime an) as [alft|];
    [|split; [exact T|reflexivity]].
  cbn [getkey]. fold (stored_history self).
  assert (T' : timestamped
                 (stored_history self
                    ++ [History.complete payload now apt afft alft current])).
  { apply Forall_app; split; [exact T|]. repeat constructor. }
  destruct (sort_by_timestamp_spec _ T') as (sorted & E & P & _).
  rewrite E. split; [|discriminate].
  cbn [fst stored_history Plugin.print_history Plugin.set_print_history].
  apply timestamped_firstn.
  exact (Permutation_Forall (Permutation_sym P) T').
Qed.

Lemma stored_history_stays_timestamped_witness :
  let r := on_event files_analysed (qz 2000) "PrintDone" payload_done
             {| Plugin.print_history := Some [record_good];
                Plugin._current_history := None |} in
  timestamped (stored_history (fst r)) /\
  (forall e : exn, snd r = Raise e ->
     Plugin.print_history (fst r) = Some [record_good]).
Proof.
  apply (stored_history_stays_timestamped files_analysed
           (qz 2000) "PrintDone" payload_done
           {| Plugin.print_history := Some [record_good];
              Plugin._current_history := None |}).
  repeat constructor.
Defined.

Section Knots.

Variable l : progress_map.
Hypothesis shaped : well_shaped l = true.
Hypothesis increasing : strictly_increasing l = true.

(** On a strictly increasing map, a query at a point's position gets that
    point, wherever in the map it is. *)
Lemma interpolate_at_knot (p : point) :
  In p l -> _interpolate l (pos p) = Ret (Some p).
Proof.
  intros I.
  assert (N : l <> []) by (destruct l; [contradiction|congruence]).
  destruct (In_nth_error l p I) as [k Ek].
  assert (Hk : k < length l) by (apply nth_error_Some; congruence).
  pose proof (nth_error_first l N) as Ef.
  pose proof (nth_error_last l N) as El.
  destruct (Nat.eq_dec k 0) as [->|K0].
  { assert (p = first_point l) by congruence. subst p.
    apply (interpolate_first l shaped N); [reflexivity|].
    destruct (Nat.eq_dec (length l - 1) 0) as [L0|L0].
    - rewrite L0 in El. replace (last_point l) with (first_point l) by congruence.
      apply Qcle_refl.
    - apply Qclt_le_weak.
      apply (strictly_increasing_nth l increasing 0 (length l - 1));
        [lia|assumption..]. }
  assert (Lf : (pos (first_point l) < pos p)%Qc).
  { apply (strictly_increasing_nth l increasing 0 k); [lia|assumption..]. }
  destruct (Nat.eq_dec k (length l - 1)) as [->|K1].
  { assert (p = last_point l) by congruence. subst p.
    now apply (interpolate_last l shaped N). }
  assert (Ll : (pos p < pos (last_point l))%Qc).
  { apply (strictly_increasing_nth l increasing k (length l - 1));
      [lia|assumption..]. }
  destruct (interpolate_inside l (pos p) shaped N Lf Ll)
    as (i & left & right & _ & Eleft & Eright & Bl & Br & E).
  assert (k = S i).
  { destruct (Nat.lt_trichotomy k (S i)) as [H|[H|H]]; [|exact H|]; exfalso.
    - assert (pos p <= pos left)%Qc.
      { destruct (Nat.eq_dec k i) as [->|Hne].
        - replace p with left by congruence. apply Qcle_refl.
        - apply Qclt_le_weak.
          apply (strictly_increasing_nth l increasing k i); [lia|assumption..]. }
      exact (Qclt_not_le _ _ Bl H0).
    - pose proof (strictly_increasing_nth l increasing (S i) k right p H
                    Eright Ek) as H0.
      exact (Qclt_not_le _ _ H0 Br). }
  subst k. assert (p = right) by congruence. subst p.
  rewrite E. f_equal; f_equal.
  replace ((pos right - pos left) / (pos right - pos left))%Qc with 1%Qc.
  - apply blend_one; eauto using well_shaped_nth_error.
  - field. now apply Qcminus_neq_0.
Qed.

End Knots.

Section BuilderCalibration.

Variable samples : list Sample.t.
Hypothesis some_samples : samples <> [].
Hypothesis sorted_samples :
  StronglySorted (fun a b => (Sample.filepos a < Sample.filepos b)%Qc) samples.
Hypothesis inside :
  forall s, In s samples ->
    (qz 0 < Sample.filepos s)%Qc /\ (Sample.filepos s < qz 1)%Qc.


Lemma builder_map_shaped : well_shaped (builder_progress samples) = true.
Proof.
  unfold builder_progress, well_shaped.
  cbn [app forallb is_pair length Nat.eqb andb].
  rewrite forallb_app. cbn. rewrite andb_true_r.
  apply forallb_forall. intros p I.
  apply in_map_iff in I as (s & <- & _). reflexivity.
Qed.

Lemma builder_map_increasing : strictly_increasing (builder_progress samples) = true.
Proof.
  apply strictly_increasing_sorted.
  apply (builder_positions_sorted Qclt); [exact inside|reflexivity|].
  exact sorted_samples.
Qed.

(** The map's value at a filament position is the time that remains
    after the sample at that position. *)
Lemma builder_map_at (s : Sample.t) :
  In s samples ->
  eq_opt (Sample.filepos s) (Scan.first_filament (scan samples))
  || eq_opt (Sample.filepos s) (Scan.last_filament (scan samples)) = true ->
  _interpolate (builder_progress samples) (Sample.filepos s)
    = Ret (Some (emitted_point (final_time samples) s)).
Proof.
  intros I H.
  apply (interpolate_at_knot (builder_progress samples) builder_map_shaped
           builder_map_increasing (emitted_point (final_time samples) s)).
  unfold builder_progress. apply in_or_app. right. apply in_or_app. left.
  apply in_map. now apply selected_at_position.
Qed.

Lemma first_filament_sample (p : Qc) :
  Scan.first_filament (scan samples) = Some p ->
  exists s, In s samples /\ Sample.filepos s = p.
Proof.
  intros H. destruct (fold_scan_first samples Scan.start p H) as [E|E];
    [discriminate|exact E].
Qed.

Lemma last_filament_sample (p : Qc) :
  Scan.last_filament (scan samples) = Some p ->
  exists s, In s samples /\ Sample.filepos s = p.
Proof.
  intros H. destruct (fold_scan_last samples Scan.start p H) as [E|E];
    [discriminate|exact E].
Qed.

Lemma builder_calibration (settings_print_history : option (list History.t))
    (a : Analysis.t) (ff lf : Qc) :
  Scan.first_filament (scan samples) = Some ff ->
  Scan.last_filament (scan samples) = Some lf ->
  Analysis.progress a = Some (builder_progress samples) ->
  Analysis.firstFilament a = Some ff ->
  Analysis.lastFilament a = Some lf ->
  Analysis.estimatedPrintTime a = Some (final_time samples) ->
  exists s_first s_last : Sample.t,
    In s_first samples /\ Sample.filepos s_first = ff /\
    In s_last samples /\ Sample.filepos s_last = lf /\
    let a' := fst (save_and_compensate settings_print_history a) in
    Analysis.analysisPrintTime a' = Some (final_time samples) /\
    Analysis.analysisFirstFilamentPrintTime a'
      = Some (final_time samples
              - (final_time samples - Sample.time s_first))%Qc /\
    Analysis.analysisLastFilamentPrintTime a'
      = Some (final_time samples
              - (final_time samples - Sample.time s_last))%Qc.
Proof.
  intros Sf Sl Kp Kf Kl Ke.
  destruct (first_filament_sample ff Sf) as (s1 & I1 & E1).
  destruct (last_filament_sample lf Sl) as (s2 & I2 & E2).
  exists s1, s2. repeat (split; [assumption|]).
  assert (N : (builder_progress samples) <> []) by discriminate.
  assert (A1 : _interpolate (builder_progress samples) ff
               = Ret (Some (emitted_point (final_time samples) s1))).
  { rewrite <- E1. apply builder_map_at; [exact I1|].
    rewrite Sf, E1. cbn [eq_opt]. now rewrite num_eqb_refl. }
  assert (A2 : _interpolate (builder_progress samples) lf
               = Ret (Some (emitted_point (final_time samples) s2))).
  { rewrite <- E2. apply builder_map_at; [exact I2|].
    rewrite Sl, E2. cbn [eq_opt]. rewrite num_eqb_refl. apply orb_true_r. }
  rewrite (save_and_compensate_unfold settings_print_history a (builder_progress samples)
             ff lf (final_time samples) Kp Kf Kl Ke).
  rewrite (save_first_time a (builder_progress samples) ff (final_time samples) Kp
             builder_map_shaped N), A1.
  cbv zeta.
  rewrite (save_last_time a (builder_progress samples) lf (final_time samples) Kp
             builder_map_shaped N), A2.
  cbn [fst].
  match goal with
  | |- context [compensate_analysis _ ?x] =>
      destruct (compensate_keeps_calibration settings_print_history x)
        as (_ & _ & -> & -> & ->)
  end.
  cbn [set_analysisLastFilamentPrintTime set_analysisFirstFilamentPrintTime
       set_analysisPrintTime Analysis.analysisPrintTime
       Analysis.analysisFirstFilamentPrintTime
       Analysis.analysisLastFilamentPrintTime].
  repeat split.
Qed.

End BuilderCalibration.

(** X25.  From the builder to the calibration times.  For a trace whose
    positions increase strictly, strictly between 0 and 1: when the four
    keys the builder writes reach [_do_analysis] as they are, with
    numbers for both filament positions, the lookups at [firstFilament]
    and at [lastFilament] hit the points the builder emitted for the
    samples at these positions, whatever the 60 s thinning of the map
    left out.  So [analysisPrintTime] is [total], the elapsed time of the
    last sample, and [analysisFirstFilamentPrintTime] and
    [analysisLastFilamentPrintTime] are [total - (total - t)] for the
    elapsed time [t] of the sample at [firstFilament] and at
    [lastFilament], whatever the compensation does. *)
Theorem builder_times_become_calibration (samples : list Sample.t)
    (settings_print_history : option (list History.t)) :
  samples <> [] ->
  StronglySorted (fun a b => (Sample.filepos a < Sample.filepos b)%Qc) samples ->
  (forall s, In s samples ->
     (qz 0 < Sample.filepos s)%Qc /\ (Sample.filepos s < qz 1)%Qc) ->
  exists r : Result.t,
    main samples = Ret r /\
    forall (a : Analysis.t) (ff lf : Qc),
      Result.firstFilament r = Some ff ->
      Result.lastFilament r = Some lf ->
      Analysis.progress a = Some (Result.progress r) ->
      Analysis.firstFilament a = Some ff ->
      Analysis.lastFilament a = Some lf ->
      Analysis.estimatedPrintTime a = Some (Result.estimatedPrintTime r) ->
      exists s_first s_last : Sample.t,
        In s_first samples /\ Sample.filepos s_first = ff /\
        In s_last samples /\ Sample.filepos s_last = lf /\
        let a' := fst (save_and_compensate settings_print_history a) in
        Analysis.analysisPrintTime a' = Some (final_time samples) /\
        Analysis.analysisFirstFilamentPrintTime a'
          = Some (final_time samples
                  - (final_time samples - Sample.time s_first))%Qc /\
        Analysis.analysisLastFilamentPrintTime a'
          = Some (final_time samples
                  - (final_time samples - Sample.time s_last))%Qc.
Proof.
  intros N S B. eexists. split; [apply (main_result samples N)|].
  cbn [Result.firstFilament Result.lastFilament Result.progress
       Result.estimatedPrintTime].
  intros a ff lf. now apply builder_calibration.
Qed.

Lemma builder_times_become_calibration_witness :
  exists r : Result.t,
    main trace_60 = Ret r /\
    forall (a : Analysis.t) (ff lf : Qc),
      Result.firstFilament r = Some ff ->
      Result.lastFilament r = Some lf ->
      Analysis.progress a = Some (Result.progress r) ->
      Analysis.firstFilament a = Some ff ->
      Analysis.lastFilament a = Some lf ->
      Analysis.estimatedPrintTime a = Some (Result.estimatedPrintTime r) ->
      exists s_first s_last : Sample.t,
        In s_first trace_60 /\ Sample.filepos s_first = ff /\
        In s_last trace_60 /\ Sample.filepos s_last = lf /\
        let a' := fst (save_and_compensate None a) in
        Analysis.analysisPrintTime a' = Some (final_time trace_60) /\
        Analysis.analysisFirstFilamentPrintTime a'
          = Some (final_time trace_60
                  - (final_time trace_60 - Sample.time s_first))%Qc /\
        Analysis.analysisLastFilamentPrintTime a'
          = Some (final_time trace_60
                  - (final_time trace_60 - Sample.time s_last))%Qc.
Proof.
  apply (builder_times_become_calibration trace_60 None).
  - discriminate.
  - repeat constructor; reflexivity.
  - intros s [<-|[<-|[<-|[]]]]; split; reflexivity.
Defined.

Section WholeJob.

Variable file_manager : FileManager.
Variables file_path file_origin : string.
Variable ticks : list Tick.
Variable now : Qc.
Variable payload : Payload.t.
Variable plugin : Plugin.t.
Variable metadata : Metadata.t.
Variable an : Analysis.t.
Variables apt afft alft : Qc.
Hypothesis has_metadata :
  file_manager (Payload.origin payload) (Payload.path payload) = Some metadata.
Hypothesis has_analysis : Metadata.analysis metadata = Some an.
Hypothesis has_apt : Analysis.analysisPrintTime an = Some apt.
Hypothesis has_afft : Analysis.analysisFirstFilamentPrintTime an = Some afft.
Hypothesis has_alft : Analysis.analysisLastFilamentPrintTime an = Some alft.

(** The job's record as [on_event] completes it: the dict that
    [make_genius_estimator] created, as the estimator left it. *)
Lemma print_job_appends :
  print_job file_manager file_path file_origin ticks now payload plugin =
    match sort_by_timestamp
            (stored_history plugin
               ++ [History.complete payload now apt afft alft
                     (_current_history
                        (after file_manager ticks
                           (init file_path file_origin History.empty)))]) with
    | Ret sorted =>
        ({| Plugin.print_history := Some (firstn MAX_HISTORY_ITEMS sorted);
            Plugin._current_history := None |}, Ret tt)
    | Raise e => (Plugin.set_current_history None plugin, Raise e)
    end.
Proof.
  unfold print_job, make_genius_estimator, shared_history.
  set (current := _current_history
                    (after file_manager ticks
                       (init file_path file_origin History.empty))).
  apply (on_event_appends file_manager now payload
           (Plugin.set_current_history (Some current)
              (Plugin.set_current_history (Some History.empty) plugin))
           metadata an apt afft alft current has_metadata has_analysis
           has_apt has_afft has_alft eq_refl).
Qed.

End WholeJob.

(** X26.  A job whose ticks never stored [firstFilamentPrintTime] (none
    of them moved the cursor at a progress above [firstFilament]) is
    recorded all the same when it ends.  With a clock that moves forward
    its record heads the persisted history, and with that history
    [compensate_analysis] leaves every analysis as it is: one such job
    switches the compensation off until its record is dropped. *)
Theorem job_without_first_time_stops_compensation
    (file_manager : FileManager) (file_path file_origin : string)
    (ticks : list Tick) (now : Qc) (payload : Payload.t) (plugin : Plugin.t)
    (metadata : Metadata.t) (an : Analysis.t) (apt afft alft : Qc) :
  file_manager (Payload.origin payload) (Payload.path payload) = Some metadata ->
  Metadata.analysis metadata = Some an ->
  Analysis.analysisPrintTime an = Some apt ->
  Analysis.analysisFirstFilamentPrintTime an = Some afft ->
  Analysis.analysisLastFilamentPrintTime an = Some alft ->
  timestamped (stored_history plugin) ->
  most_recent_first (stored_history plugin) ->
  Forall (fun h => (stamp h < now)%Qc) (stored_history plugin) ->
  stored_first (after file_manager ticks
                  (init file_path file_origin History.empty)) = None ->
  let record :=
    History.complete payload now apt afft alft
      (_current_history
         (after file_manager ticks (init file_path file_origin History.empty))) in
  print_job file_manager file_path file_origin ticks now payload plugin =
    ({| Plugin.print_history :=
          Some (record :: firstn 4 (stored_history plugin));
        Plugin._current_history := None |}, Ret tt) /\
  forall analysis : Analysis.t,
    compensate_analysis (Some (record :: firstn 4 (stored_history plugin)))
      analysis = (analysis, Ret tt).
Proof.
  intros Md An Apt Afft Alft T S Old NoFirst record. split.
  - rewrite (print_job_appends file_manager file_path file_origin ticks now
               payload plugin metadata an apt afft alft Md An Apt Afft Alft).
    fold record.
    rewrite sort_newest_first; [reflexivity| |exact S|exact Old].
    apply Forall_app; split; [exact T|]. repeat constructor.
  - intros analysis. unfold compensate_analysis, mtry.
    unfold compensate_body, mbind, get, lift, modify, mret.
    destruct (compensate_new_progress _ analysis) as [np|e] eqn:E;
      [|reflexivity].
    apply compensate_new_progress_shape in E as [WF _].
    cbn [forallb] in WF. apply andb_prop in WF as [WF _].
    unfold well_formed_record, record in WF.
    cbn [History.complete History.firstFilamentPrintTime] in WF.
    unfold stored_first in NoFirst. rewrite NoFirst in WF. discriminate.
Qed.

Lemma job_without_first_time_stops_compensation_witness :
  let record :=
    History.complete payload_done (qz 2000) (qz 100) (qz 10) (qz 90)
      (_current_history
         (after files_analysed [tick (qf 1 20) (qz 5)]
            (init "a.gcode" "local" History.empty))) in
  print_job files_analysed "a.gcode" "local" [tick (qf 1 20) (qz 5)] (qz 2000)
    payload_done
    {| Plugin.print_history := Some [record_good]; Plugin._current_history := None |}
  = ({| Plugin.print_history := Some (record :: firstn 4 [record_good]);
        Plugin._current_history := None |}, Ret tt) /\
  forall analysis : Analysis.t,
    compensate_analysis (Some (record :: firstn 4 [record_good])) analysis
    = (analysis, Ret tt).
Proof.
  eapply (job_without_first_time_stops_compensation files_analysed "a.gcode"
            "local" [tick (qf 1 20) (qz 5)] (qz 2000) payload_done
            {| Plugin.print_history := Some [record_good];
               Plugin._current_history := None |});
    try reflexivity.
  - repeat constructor.
  - repeat constructor.
  - repeat constructor; vm_compute; reflexivity.
Defined.

Lemma analysis_needs_builtin_witness :
  _do_analysis false (analysis_100 (qf 1 10) (qf 9 10))
    [analyzer_100; analyzer_100] None = Ret None.
Proof.
  apply (proj1 (analysis_needs_builtin (analysis_100 (qf 1 10) (qf 9 10))
                  [analyzer_100; analyzer_100] None)).
  reflexivity.
Defined.
